(** * ClawPay: policy gate, approval routing and the card-request facade

    A shallow embedding of the TypeScript sources

      - types/index.ts
      - core/policy.ts        (class [PolicyEngine])
      - approval/terminal.ts  ([terminalApproval])
      - approval/whatsapp.ts  ([whatsappApproval])
      - approval/index.ts     ([requestApproval])
      - core/clawpay.ts       (class [ClawPay]; of the vault it uses
                               [hasCard] and [getCard])
      - core/vault.ts         (class [Vault])
      - approval/webhook.ts   ([webhookApproval], [pollForApproval])
      - approval/telegram.ts  ([telegramApproval], [pollCallbackQuery])

    followed by the rules of the specification in its own words (module
    [Spec]) and by the theorems that compare the two.

    Conventions of the embedding.

      - A JavaScript [number] is an IEEE 754 binary64 value: Rocq's primitive
        [float].  [a > b] is [b <? a], [a <= b] is [a <=? b], [+] and [*] are
        the rounded operations; every comparison with NaN is [false].
      - Time stamps ([Date.now()], [Date.prototype.getTime()]) are integral
        numbers of milliseconds: [Z].
      - A JavaScript string is a Rocq [string], read as the bytes of its UTF-8
        text.  [toLowerCase] and [trim] are the runtime's: they are
        parameters, the class [StringOps], of which only their action on
        text made of ASCII characters is fixed.
      - [undefined] / a missing optional field is [None].
      - The text of a number ([`${x}`], [x.toFixed(2)]) is produced by the
        runtime; it is a parameter, the class [NumberText].
      - The transaction log is a JSON document: what is read back from it is
        what [JSON.stringify] wrote, [JS.JSON_number] for a number.
      - Asynchronous code that touches the files, the clock and the console is
        a state-and-exception monad over [ClawPay.World]; the callbacks of
        [terminalApproval] are steps of a state machine. *)

From Stdlib Require Import ZArith List String Ascii Bool Floats Lia.
From Stdlib Require Import DecimalString NArith Strings.Byte.
Import ListNotations.

Local Open Scope string_scope.

(* ================================================================== *)
(** * The JavaScript runtime operations the sources use *)
(* ================================================================== *)

Module JS.

(** ** Numbers *)

Definition number := float.

(** [a > b] and [a <= b] on numbers. *)
Definition gt (a b : number) : bool := PrimFloat.ltb b a.
Definition le (a b : number) : bool := PrimFloat.leb a b.

(** ToBoolean on a number: [0], [-0] and [NaN] are falsy. *)
Definition truthy_number (x : number) : bool :=
  negb (PrimFloat.eqb x 0%float) && negb (PrimFloat.is_nan x).

(** [x || d] where [x] is a possibly missing number. *)
Definition number_or (x : option number) (d : number) : number :=
  match x with
  | Some v => if truthy_number v then v else d
  | None => d
  end.

(** A number after [JSON.stringify] and [JSON.parse]: a finite number comes
    back as it was, except that -0 comes back as 0; NaN and the infinities
    are written as [null] ([None]). *)
Definition JSON_number (x : number) : option number :=
  if PrimFloat.is_finite x
  then Some (if PrimFloat.eqb x 0%float then 0%float else x)
  else None.

(** ** Strings *)

Definition dquote : string := String (ascii_of_nat 34) EmptyString.

(** ToBoolean on a string: only the empty string is falsy. *)
Definition truthy_string (s : string) : bool :=
  match s with EmptyString => false | String _ _ => true end.

(** Text made of ASCII characters: every byte is below 128. *)
Fixpoint is_ascii (s : string) : bool :=
  match s with
  | EmptyString => true
  | String c r => (nat_of_ascii c <? 128)%nat && is_ascii r
  end.

Definition is_upper (c : ascii) : bool :=
  let n := nat_of_ascii c in (65 <=? n)%nat && (n <=? 90)%nat.

Definition lower_char (c : ascii) : ascii :=
  if is_upper c then ascii_of_nat (nat_of_ascii c + 32) else c.

(** Lower-casing of the letters A to Z. *)
Fixpoint ascii_toLowerCase (s : string) : string :=
  match s with
  | EmptyString => EmptyString
  | String c r => String (lower_char c) (ascii_toLowerCase r)
  end.

(** White space and line terminators of the ASCII range:
    TAB, LF, VT, FF, CR and SPACE. *)
Definition is_space (c : ascii) : bool :=
  let n := nat_of_ascii c in
  ((9 <=? n)%nat && (n <=? 13)%nat) || (n =? 32)%nat.

Fixpoint trimStart (s : string) : string :=
  match s with
  | EmptyString => EmptyString
  | String c r => if is_space c then trimStart r else s
  end.

(** [trimEnd]: a character is kept when it is no space or when something
    is kept after it. *)
Fixpoint trimEnd (s : string) : string :=
  match s with
  | EmptyString => EmptyString
  | String c r =>
      match trimEnd r with
      | EmptyString => if is_space c then EmptyString else String c EmptyString
      | r' => String c r'
      end
  end.

(** Trimming of the white space of the ASCII range at both ends. *)
Definition ascii_trim (s : string) : string := trimEnd (trimStart s).

(** [String.prototype.toLowerCase] and [String.prototype.trim] as the
    runtime performs them, on every text.  On text made of ASCII characters
    they are known: the first lower-cases the letters A to Z, the second
    strips TAB, LF, VT, FF, CR and SPACE.  Elsewhere they follow the Unicode
    tables of the runtime (the lower case of ["É"] is ["é"], a no-break
    space is white space). *)
Class StringOps : Type := {
  toLowerCase : string -> string;
  trim : string -> string;
  toLowerCase_ascii :
    forall s, is_ascii s = true -> toLowerCase s = ascii_toLowerCase s;
  trim_ascii : forall s, is_ascii s = true -> trim s = ascii_trim s
}.

(** [s.includes(sub)]: [sub] occurs in [s] as a contiguous substring. *)
Fixpoint includes (s sub : string) : bool :=
  String.prefix sub s ||
  match s with
  | EmptyString => false
  | String _ r => includes r sub
  end.

(** [Array.prototype.includes] on an array of strings. *)
Definition array_includes (l : list string) (s : string) : bool :=
  existsb (String.eqb s) l.

(** [lines.join("\n")]. *)
Definition newline : string := String (ascii_of_nat 10) EmptyString.

Definition join_lines (l : list string) : string := String.concat newline l.

(** ** The text of numbers *)

Class NumberText : Type := {
  (** [`${x}`], that is Number::toString(x). *)
  Number_toString : number -> string;
  (** [x.toFixed(digits)]. *)
  Number_toFixed : nat -> number -> string
}.

End JS.

Import JS.

(* ================================================================== *)
(** * types/index.ts *)
(* ================================================================== *)

Record CardDetails := {
  cardholderName : string;
  number : string;
  expMonth : string;
  expYear : string;
  cvv : string;
  billingAddress : option string
}.

Record EncryptedPayload := {
  iv : string;
  authTag : string;
  data : string
}.

Record PolicyConfig := {
  autoApproveUnder : JS.number;
  requireApprovalAbove : JS.number;
  blockAbove : JS.number;
  dailyLimit : JS.number;
  monthlyLimit : option JS.number;
  blockedKeywords : list string;
  allowedMerchants : option (list string);
  blockedMerchants : option (list string);
  currency : string
}.

Record PaymentRequest := {
  amount : JS.number;
  merchant : string;
  description : string;
  req_currency : option string;
  metadata : option (list (string * string))
}.

Inductive Action := auto_approve | require_approval | deny.

Record PolicyResult := {
  action : Action;
  reason : string
}.

Inductive Approver := by_auto | by_human.

Record TransactionLog := {
  id : string;
  timestamp : Z;
  payment : PaymentRequest;
  policyResult : PolicyResult;
  approved : bool;
  approvedBy : Approver
}.

Record ApprovalConfig := {
  method : string;
  timeout : option JS.number;
  webhookUrl : option string;
  slackWebhookUrl : option string;
  telegramBotToken : option string;
  telegramChatId : option string
}.

Record LoggingConfig := {
  enabled : bool;
  path : string
}.

Record ClawPayConfig := {
  keyStorage : string;
  policies : PolicyConfig;
  approval : ApprovalConfig;
  logging : LoggingConfig
}.

(* ================================================================== *)
(** * What the process reads from its environment *)
(* ================================================================== *)

(** The local clock.  [now] is [Date.now()].  [startOfDay] is the time value
    of [d = new Date(); d.setHours(0, 0, 0, 0)], local midnight of the
    current day; [startOfMonth] is the one of [d.setDate(1);
    d.setHours(0, 0, 0, 0)].  The local calendar day and month that contain
    [now] are the half-open intervals from these instants to
    [startOfNextDay] and [startOfNextMonth]; the program reads the lower
    ends only. *)
Record LocalClock := {
  now : Z;
  startOfDay : Z;
  startOfMonth : Z;
  startOfNextDay : Z;
  startOfNextMonth : Z
}.

(** The transaction log document [LOG_FILE]. *)
Inductive LogFile :=
| log_absent
| log_unparsable
| log_entries (logs : list TransactionLog).

(* ================================================================== *)
(** * core/policy.ts *)
(* ================================================================== *)

Module PolicyEngine.

Definition DEFAULT_POLICY : PolicyConfig := {|
  autoApproveUnder := 25%float;
  requireApprovalAbove := 25%float;
  blockAbove := 1000%float;
  dailyLimit := 200%float;
  monthlyLimit := Some 2000%float;
  blockedKeywords := [];
  allowedMerchants := Some [];
  blockedMerchants := Some [];
  currency := "USD"
|}.

(** The amount the sums read from an entry whose amount [x] was written by
    [JSON.stringify].  The program reads the amount of an entry in
    [sum + l.payment.amount] only, where [null] counts as 0. *)
Definition amount_read_back (x : JS.number) : JS.number :=
  match JSON_number x with
  | Some y => y
  | None => 0%float
  end.

(** An entry as it is read back after [JSON.stringify] wrote it.  Its
    strings, booleans and integral time stamp come back as they were, and
    its amount as [JSON_number] gives it, an amount written as [null] being
    kept as the 0 the sums read. *)
Definition stored (log : TransactionLog) : TransactionLog :=
  {| id := id log;
     timestamp := timestamp log;
     payment :=
       {| amount := amount_read_back (amount (payment log));
          merchant := merchant (payment log);
          description := description (payment log);
          req_currency := req_currency (payment log);
          metadata := metadata (payment log) |};
     policyResult := policyResult log;
     approved := approved log;
     approvedBy := approvedBy log |}.

(** [getTransactionLogs]: no file, or a file [JSON.parse] rejects, reads as
    the empty array. *)
Definition getTransactionLogs (f : LogFile) : list TransactionLog :=
  match f with
  | log_absent => []
  | log_unparsable => []
  | log_entries logs => logs
  end.

(** [logs.filter(l => l.approved && l.timestamp >= since)
        .reduce((sum, l) => sum + l.payment.amount, 0)] *)
Definition spentSince (since : Z) (logs : list TransactionLog) : JS.number :=
  fold_left (fun sum l => PrimFloat.add sum (amount (payment l)))
    (filter (fun l => approved l && (since <=? timestamp l)%Z) logs)
    0%float.

Definition getTodaySpending (clk : LocalClock) (f : LogFile) : JS.number :=
  let logs := getTransactionLogs f in
  spentSince (startOfDay clk) logs.

Definition getMonthSpending (clk : LocalClock) (f : LogFile) : JS.number :=
  let logs := getTransactionLogs f in
  spentSince (startOfMonth clk) logs.

(** [if (x)] on the result of [find]: a string that was found and is not
    the empty string. *)
Definition truthy_found (x : option string) : bool :=
  match x with
  | Some s => truthy_string s
  | None => false
  end.

(** The text of the result of [find] inside a template literal that is
    reached only when the result is truthy. *)
Definition found_text (x : option string) : string :=
  match x with
  | Some s => s
  | None => "undefined"
  end.

(** [if (list?.length)]: the array is present and not empty. *)
Definition has_length {A} (l : option (list A)) : bool :=
  match l with
  | Some (_ :: _) => true
  | _ => false
  end.

(** [if (list.length)] on an array that is always present. *)
Definition nonempty {A} (l : list A) : bool :=
  match l with
  | [] => false
  | _ :: _ => true
  end.

Definition elements {A} (l : option (list A)) : list A :=
  match l with
  | Some xs => xs
  | None => []
  end.

(** A guarded [return]: [early c ;; k] is the value [c] returns when it
    returns one, and the rest of the function body [k] otherwise. *)
Notation "'early' c ';;' k" :=
  (match c with Some r => r | None => k end)
  (at level 10, c at level 100, k at level 200, only parsing).

Section Evaluate.
Context {NT : NumberText} {ST : StringOps}.

Definition money (x : JS.number) : string := "$" ++ Number_toString x.

(** [evaluate(request)]; [policy] is [this.policy], [clk] and [f] are the
    clock and the log document the spending queries read.  The unused local
    [currency] is left out. *)
Definition evaluate (policy : PolicyConfig) (clk : LocalClock) (f : LogFile)
    (request : PaymentRequest) : PolicyResult :=
  let amount := amount request in
  (* Check hard block *)
  early (if gt amount (blockAbove policy) then
           Some {| action := deny;
                   reason := "Amount " ++ money amount
                             ++ " exceeds maximum allowed ("
                             ++ money (blockAbove policy) ++ ")" |}
         else None) ;;
  (* Check blocked merchants *)
  early (if has_length (blockedMerchants policy) then
           let merchantLower := toLowerCase (merchant request) in
           let blocked :=
             find (fun m => includes merchantLower (toLowerCase m))
                  (elements (blockedMerchants policy)) in
           if truthy_found blocked then
             Some {| action := deny;
                     reason := "Merchant " ++ dquote ++ merchant request
                               ++ dquote ++ " is blocked by policy" |}
           else None
         else None) ;;
  (* Check allowed merchants (if whitelist is set, only those are allowed) *)
  early (if has_length (allowedMerchants policy) then
           let merchantLower := toLowerCase (merchant request) in
           let allowed :=
             existsb (fun m => includes merchantLower (toLowerCase m))
                     (elements (allowedMerchants policy)) in
           if negb allowed then
             Some {| action := deny;
                     reason := "Merchant " ++ dquote ++ merchant request
                               ++ dquote ++ " is not in the allowed list" |}
           else None
         else None) ;;
  (* Check blocked keywords *)
  early (if nonempty (blockedKeywords policy) then
           let descLower := toLowerCase (description request) in
           let merchantLower := toLowerCase (merchant request) in
           let hit :=
             find (fun kw => includes descLower (toLowerCase kw)
                             || includes merchantLower (toLowerCase kw))
                  (blockedKeywords policy) in
           if truthy_found hit then
             Some {| action := deny;
                     reason := "Blocked keyword " ++ dquote ++ found_text hit
                               ++ dquote ++ " found in request" |}
           else None
         else None) ;;
  (* Check daily limit *)
  let todaySpent := getTodaySpending clk f in
  early (if gt (PrimFloat.add todaySpent amount) (dailyLimit policy) then
           Some {| action := deny;
                   reason := "Daily limit exceeded. Spent today: $"
                             ++ Number_toFixed 2 todaySpent ++ ", limit: "
                             ++ money (dailyLimit policy) |}
         else None) ;;
  (* Check monthly limit *)
  early (match monthlyLimit policy with
         | Some limit =>
             if truthy_number limit then
               let monthSpent := getMonthSpending clk f in
               if gt (PrimFloat.add monthSpent amount) limit then
                 Some {| action := deny;
                         reason := "Monthly limit exceeded. Spent this month: $"
                                   ++ Number_toFixed 2 monthSpent
                                   ++ ", limit: " ++ money limit |}
               else None
             else None
         | None => None
         end) ;;
  (* Auto-approve if under threshold *)
  early (if le amount (autoApproveUnder policy) then
           Some {| action := auto_approve;
                   reason := "Amount " ++ money amount
                             ++ " is under auto-approve threshold ("
                             ++ money (autoApproveUnder policy) ++ ")" |}
         else None) ;;
  (* Require human approval *)
  {| action := require_approval;
     reason := "Amount " ++ money amount
               ++ " requires human approval (threshold: "
               ++ money (requireApprovalAbove policy) ++ ")" |}.

(** [getPolicy()] returns a copy of the configuration. *)
Definition getPolicy (policy : PolicyConfig) : PolicyConfig := policy.

(** [logTransaction(log)]: read the document, push, write it back with
    [JSON.stringify]. *)
Definition logTransaction (f : LogFile) (log : TransactionLog) : LogFile :=
  let logs := getTransactionLogs f in
  log_entries (map stored (logs ++ [log])%list).

End Evaluate.

End PolicyEngine.

(* ================================================================== *)
(** * Results of calls that may throw *)
(* ================================================================== *)

Inductive Outcome (A : Type) :=
| Returned (a : A)
| Thrown (message : string).
Arguments Returned {A} a.
Arguments Thrown {A} message.

(* ================================================================== *)
(** * approval/terminal.ts *)
(* ================================================================== *)

Module Terminal.

(** [s.slice(0, n)] *)
Fixpoint slice0 (n : nat) (s : string) : string :=
  match n, s with
  | S k, String c r => String c (slice0 k r)
  | _, _ => EmptyString
  end.

Fixpoint spaces (n : nat) : string :=
  match n with
  | O => EmptyString
  | S k => String " " (spaces k)
  end.

(** [s.padEnd(n)] *)
Definition padEnd (n : nat) (s : string) : string :=
  s ++ spaces (n - String.length s).

(** [x || "USD"] on an optional string: missing and empty both give the
    default. *)
Definition currency_or_USD (c : option string) : string :=
  match c with
  | Some (String a r) => String a r
  | _ => "USD"
  end.

(** What the two callbacks of [terminalApproval] share: the console, the
    timer made by [setTimeout], the readline interface with its pending
    question, and the promise handed to the caller.  [settled] is [None]
    while the promise is pending. *)
Record State := {
  console : list string;
  timer : option JS.number;
  rl_closed : bool;
  question : bool;
  settled : option bool
}.

Definition console_log (line : string) (st : State) : State :=
  {| console := (console st ++ [line])%list;
     timer := timer st;
     rl_closed := rl_closed st;
     question := question st;
     settled := settled st |}.

Definition clearTimeout (st : State) : State :=
  {| console := console st;
     timer := None;
     rl_closed := rl_closed st;
     question := question st;
     settled := settled st |}.

Definition rl_close (st : State) : State :=
  {| console := console st;
     timer := timer st;
     rl_closed := true;
     question := question st;
     settled := settled st |}.

(** The promise's [resolve]: it settles a pending promise and does nothing
    to a settled one. *)
Definition resolve (value : bool) (st : State) : State :=
  match settled st with
  | Some _ => st
  | None =>
      {| console := console st;
         timer := timer st;
         rl_closed := rl_closed st;
         question := question st;
         settled := Some value |}
  end.

(** The callback given to [setTimeout]. *)
Definition onTimeout (st : State) : State :=
  let st := console_log (newline ++ "⏰ Approval timed out. Payment denied.") st in
  let st := rl_close st in
  resolve false st.

(** The callback given to [rl.question]. *)
Definition onAnswer {ST : StringOps} (answer : string) (st : State)
  : State :=
  let st := clearTimeout st in
  let st := rl_close st in
  let approved := String.eqb (toLowerCase (trim answer)) "yes" in
  let st := console_log (if approved then "✅ Payment approved."
                         else "❌ Payment denied.") st in
  resolve approved st.

Section Prompt.
Context {NT : NumberText}.

(** The synchronous part of [terminalApproval]: the request is printed, the
    timer is armed with [timeoutMs], the question is asked, and the pending
    promise is returned. *)
Definition terminalApproval (payment : PaymentRequest)
    (policyResult : PolicyResult) (timeoutMs : JS.number) : State :=
  {| console :=
       [ newline ++ "╔══════════════════════════════════════════╗";
         "║       🦞 CLAWPAYER APPROVAL REQUEST       ║";
         "╠══════════════════════════════════════════╣";
         "║  Amount:   $" ++ padEnd 29 (Number_toFixed 2 (amount payment)) ++ "║";
         "║  Merchant: " ++ padEnd 29 (slice0 29 (merchant payment)) ++ "║";
         "║  Reason:   " ++ padEnd 29 (slice0 29 (description payment)) ++ "║";
         "║  Currency: " ++ padEnd 29 (currency_or_USD (req_currency payment)) ++ "║";
         "╠══════════════════════════════════════════╣";
         "║  Policy:   " ++ padEnd 29 (slice0 29 (reason policyResult)) ++ "║";
         "╚══════════════════════════════════════════╝";
         newline ++ "Approve this payment? (yes/no): " ];
     timer := Some timeoutMs;
     rl_closed := false;
     question := true;
     settled := None |}.

End Prompt.

(** What the event loop may deliver while the promise is awaited. *)
Inductive Signal :=
| TimerExpires
| LineArrives (answer : string).

(** The body a signal runs. *)
Definition callback {ST : StringOps} (s : Signal) (st : State) : State :=
  match s with
  | TimerExpires => onTimeout st
  | LineArrives answer => onAnswer answer st
  end.

(** The event loop: a timer runs its callback once, and only while it has
    not been cleared; a line reaches the question's callback once, and only
    while the interface is open. *)
Definition deliver {ST : StringOps} (s : Signal) (st : State) : State :=
  match s with
  | TimerExpires =>
      match timer st with
      | Some _ =>
          onTimeout {| console := console st;
                       timer := None;
                       rl_closed := rl_closed st;
                       question := question st;
                       settled := settled st |}
      | None => st
      end
  | LineArrives answer =>
      if negb (rl_closed st) && question st then
        onAnswer answer {| console := console st;
                           timer := timer st;
                           rl_closed := rl_closed st;
                           question := false;
                           settled := settled st |}
      else st
  end.

Definition run {ST : StringOps} (signals : list Signal) (st : State)
  : State :=
  fold_left (fun st s => deliver s st) signals st.

(** The decision a signal stands for. *)
Definition decision {ST : StringOps} (s : Signal) : bool :=
  match s with
  | TimerExpires => false
  | LineArrives answer => String.eqb (toLowerCase (trim answer)) "yes"
  end.

End Terminal.

(* ================================================================== *)
(** * approval/whatsapp.ts *)
(* ================================================================== *)

Module WhatsApp.

Definition affirmative : list string := ["yes"; "approve"; "y"; "approved"].
Definition negative : list string := ["no"; "deny"; "n"; "denied"; "reject"].

(** The injected [sendMessage]: the texts sent so far, oldest first. *)
Definition sendMessage (sent : list string) (text : string) : list string :=
  app sent [text].

Section Approval.
Context {NT : NumberText} {ST : StringOps}.

Definition prompt (payment : PaymentRequest) (policyResult : PolicyResult)
  : string :=
  let currency := Terminal.currency_or_USD (req_currency payment) in
  join_lines
    [ "🔔 *ClawPayer Approval Request*";
      "";
      "*Amount:* " ++ currency ++ " " ++ Number_toFixed 2 (amount payment);
      "*Merchant:* " ++ merchant payment;
      "*Description:* " ++ description payment;
      "*Reason:* " ++ reason policyResult;
      "";
      "Reply *yes* to approve or *no* to deny." ].

(** [whatsappApproval(payment, policyResult, sendMessage, waitForReply,
    timeoutMs)].  [waitForReply] is the injected callback ([None] is
    [null]); the texts given to [sendMessage] are returned in order, with
    the decision. *)
Definition whatsappApproval (payment : PaymentRequest)
    (policyResult : PolicyResult)
    (waitForReply : JS.number -> option string) (timeoutMs : JS.number)
  : list string * bool :=
  let sent := sendMessage [] (prompt payment policyResult) in
  let reply := waitForReply timeoutMs in
  match reply with
  | None | Some EmptyString =>
      (sendMessage sent "⏰ Approval timed out — payment denied.", false)
  | Some reply =>
      let normalized := toLowerCase (trim reply) in
      let approved := array_includes affirmative normalized in
      let denied := array_includes negative normalized in
      if approved then (sendMessage sent "✅ Payment approved.", true)
      else if denied then (sendMessage sent "❌ Payment denied.", false)
      else
        (* Unrecognized reply: treat as denial for safety *)
        (sendMessage sent ("Unrecognized reply " ++ dquote ++ reply ++ dquote
                           ++ ". Payment denied for safety."), false)
  end.

End Approval.

End WhatsApp.

(* ================================================================== *)
(** * approval/index.ts *)
(* ================================================================== *)

Module Approval.

(** How a wait for a human ends: the decision or the error thrown, the
    clock at that moment, and what was written with [console.error]. *)
Record Run := {
  decided : Outcome bool;
  ended : LocalClock;
  stderr : list string
}.

(** The channel handlers [requestApproval] routes to.  Each takes the
    arguments of the TypeScript function, then the clock at the start of the
    wait. *)
Record Handlers := {
  terminalApproval :
    PaymentRequest -> PolicyResult -> JS.number -> LocalClock -> Run;
  webhookApproval :
    PaymentRequest -> PolicyResult -> string -> JS.number -> LocalClock -> Run;
  telegramApproval :
    PaymentRequest -> PolicyResult -> string -> string -> JS.number
    -> LocalClock -> Run
}.

(** [(config.timeout || 300) * 1000] *)
Definition timeoutMs_of (config : ApprovalConfig) : JS.number :=
  PrimFloat.mul (number_or (timeout config) 300%float) 1000%float.

(** [throw new Error(message)] before any handler runs. *)
Definition throws (message : string) (clk : LocalClock) : Run :=
  {| decided := Thrown message; ended := clk; stderr := [] |}.

(** A present, non-empty string: what [if (!x)] lets through. *)
Definition configured (x : option string) : option string :=
  match x with
  | Some (String c r) => Some (String c r)
  | _ => None
  end.

Definition requestApproval (H : Handlers) (payment : PaymentRequest)
    (policyResult : PolicyResult) (config : ApprovalConfig)
    (clk : LocalClock) : Run :=
  let timeoutMs := timeoutMs_of config in
  if String.eqb (method config) "terminal" then
    terminalApproval H payment policyResult timeoutMs clk
  else if String.eqb (method config) "webhook" then
    match configured (webhookUrl config) with
    | None => throws "Webhook URL not configured for approval." clk
    | Some url => webhookApproval H payment policyResult url timeoutMs clk
    end
  else if String.eqb (method config) "slack" then
    match configured (slackWebhookUrl config) with
    | None => throws "Slack webhook URL not configured for approval." clk
    | Some url =>
        (* Slack incoming webhooks use the same pattern *)
        webhookApproval H payment policyResult url timeoutMs clk
    end
  else if String.eqb (method config) "telegram" then
    match configured (telegramBotToken config),
          configured (telegramChatId config) with
    | Some token, Some chat =>
        telegramApproval H payment policyResult token chat timeoutMs clk
    | _, _ =>
        throws "Telegram bot token and chat ID are required for Telegram approval."
               clk
    end
  else if String.eqb (method config) "whatsapp" then
    throws "WhatsApp approval requires OpenClaw's messaging layer. Use the OpenClaw plugin or the webhook method with your own WhatsApp bridge."
           clk
  else if String.eqb (method config) "callback" then
    (* For programmatic use: the caller provides their own approval logic *)
    throws "Callback approval must be handled by the integration layer." clk
  else
    {| decided := Returned false;
       ended := clk;
       stderr := ["Unknown approval method: " ++ method config ++ ". Denying."] |}.

(** The same configuration with another [timeout]. *)
Definition with_timeout (t : option JS.number) (config : ApprovalConfig)
  : ApprovalConfig :=
  {| method := method config;
     timeout := t;
     webhookUrl := webhookUrl config;
     slackWebhookUrl := slackWebhookUrl config;
     telegramBotToken := telegramBotToken config;
     telegramChatId := telegramChatId config |}.

(** The channel values [requestApproval] has a [case] for. *)
Definition known_methods : list string :=
  ["terminal"; "webhook"; "slack"; "telegram"; "whatsapp"; "callback"].

End Approval.

(* ================================================================== *)
(** * core/clawpay.ts *)
(* ================================================================== *)

Module ClawPay.

(** What [requestCard] answers. *)
Inductive Response :=
| granted (card : CardDetails)
| refused (reason : string).

(** [ApprovalCallback], with the clock at the start of the wait. *)
Definition ApprovalCallback : Type :=
  PaymentRequest -> PolicyResult -> JS.number -> LocalClock -> Approval.Run.

(** A [ClawPay] object: its configuration and the optional [onApproval]. *)
Record t := {
  config : ClawPayConfig;
  onApproval : option ApprovalCallback
}.

(** The calls [requestCard] makes on its collaborators, for statements about
    what was and was not invoked. *)
Inductive Call :=
| call_hasCard
| call_evaluate (request : PaymentRequest)
| call_getCard
| call_approval (timeoutMs : JS.number)
| call_logTransaction (log : TransactionLog).

(** The state a request runs in: the vault document and the key the key
    backend yields, the transaction log document, the clock, the number of
    identifiers drawn from [randomUUID], the console, and the calls made. *)
Record World := {
  vaultFile : option EncryptedPayload;
  vaultKey : option string;
  logFile : LogFile;
  clock : LocalClock;
  drawn : nat;
  console : list string;
  calls : list Call
}.

Definition set_logFile (f : LogFile) (w : World) : World :=
  {| vaultFile := vaultFile w; vaultKey := vaultKey w; logFile := f;
     clock := clock w; drawn := drawn w; console := console w;
     calls := calls w |}.

Definition set_drawn (n : nat) (w : World) : World :=
  {| vaultFile := vaultFile w; vaultKey := vaultKey w; logFile := logFile w;
     clock := clock w; drawn := n; console := console w;
     calls := calls w |}.

Definition after_wait (r : Approval.Run) (w : World) : World :=
  {| vaultFile := vaultFile w; vaultKey := vaultKey w; logFile := logFile w;
     clock := Approval.ended r; drawn := drawn w;
     console := app (console w) (Approval.stderr r);
     calls := calls w |}.

Definition record_call (c : Call) (w : World) : World :=
  {| vaultFile := vaultFile w; vaultKey := vaultKey w; logFile := logFile w;
     clock := clock w; drawn := drawn w; console := console w;
     calls := app (calls w) [c] |}.

(** Asynchronous code that reads and writes the world and may throw. *)
Definition M (A : Type) : Type := World -> Outcome A * World.

Definition ret {A} (a : A) : M A := fun w => (Returned a, w).

Definition throw {A} (message : string) : M A := fun w => (Thrown message, w).

Definition bind {A B} (m : M A) (k : A -> M B) : M B :=
  fun w =>
    match m w with
    | (Returned a, w') => k a w'
    | (Thrown e, w') => (Thrown e, w')
    end.

Notation "x <- m ;; k" := (bind m (fun x => k))
  (at level 61, m at next level, right associativity).
Notation "m ;; k" := (bind m (fun _ => k))
  (at level 61, right associativity).

Definition read {A} (f : World -> A) : M A := fun w => (Returned (f w), w).

Definition update (f : World -> World) : M unit := fun w => (Returned tt, f w).

Definition called (c : Call) : M unit := update (record_call c).

Section WithRuntime.
Context {NT : NumberText} {ST : StringOps}.
(** [decipher] is [Vault.decrypt] followed by [JSON.parse]: AES-256-GCM as
    node:crypto performs it, on a payload and a key. *)
Variable decipher : EncryptedPayload -> string -> Outcome CardDetails.
(** The identifier the [n]-th call of [randomUUID] gives. *)
Variable randomUUID : nat -> string.
Variable handlers : Approval.Handlers.

(** [this.vault.hasCard()]: [existsSync(VAULT_FILE)]. *)
Definition vault_hasCard : M bool :=
  called call_hasCard ;;
  read (fun w => match vaultFile w with Some _ => true | None => false end).

(** [this.vault.getCard()] *)
Definition vault_getCard : M CardDetails :=
  called call_getCard ;;
  key <- read vaultKey ;;
  match key with
  | None => throw "Vault not initialized. Run `clawpayer init` first."
  | Some key =>
      file <- read vaultFile ;;
      match file with
      | None => throw "No card stored. Run `clawpayer add-card` first."
      | Some encrypted =>
          match decipher encrypted key with
          | Returned card => ret card
          | Thrown e => throw e
          end
      end
  end.

(** [this.policy.evaluate(request)] *)
Definition policy_evaluate (self : t) (request : PaymentRequest)
  : M PolicyResult :=
  called (call_evaluate request) ;;
  read (fun w => PolicyEngine.evaluate (policies (config self)) (clock w)
                   (logFile w) request).

(** The private [logTransaction] of [ClawPay]. *)
Definition logTransaction (self : t) (payment : PaymentRequest)
    (policyResult : PolicyResult) (approved : bool) (approvedBy : Approver)
  : M unit :=
  if negb (enabled (logging (config self))) then ret tt
  else
    n <- read drawn ;;
    update (set_drawn (S n)) ;;
    now <- read (fun w => now (clock w)) ;;
    let log := {| id := randomUUID n;
                  timestamp := now;
                  payment := payment;
                  policyResult := policyResult;
                  approved := approved;
                  approvedBy := approvedBy |} in
    called (call_logTransaction log) ;;
    f <- read logFile ;;
    update (set_logFile (PolicyEngine.logTransaction f log)).

(** [await] on an approval wait. *)
Definition await (timeoutMs : JS.number) (wait : LocalClock -> Approval.Run)
  : M bool :=
  called (call_approval timeoutMs) ;;
  fun w =>
    let r := wait (clock w) in
    (Approval.decided r, after_wait r w).

(** [requestCard(request)] *)
Definition requestCard (self : t) (request : PaymentRequest) : M Response :=
  (* Check vault has a card *)
  hasCard <- vault_hasCard ;;
  if negb hasCard then
    ret (refused "No card stored. Run `clawpay add-card` first.")
  else
  (* Evaluate policy *)
  policyResult <- policy_evaluate self request ;;
  match action policyResult with
  | deny =>
      (* Denied by policy *)
      logTransaction self request policyResult false by_auto ;;
      ret (refused (reason policyResult))
  | auto_approve =>
      (* Auto-approved *)
      card <- vault_getCard ;;
      logTransaction self request policyResult true by_auto ;;
      ret (granted card)
  | require_approval =>
      (* Requires human approval *)
      let timeoutMs :=
        PrimFloat.mul (number_or (timeout (approval (config self))) 300%float)
                      1000%float in
      approved <-
        match onApproval self with
        | Some onApproval =>
            await timeoutMs (onApproval request policyResult timeoutMs)
        | None =>
            await (Approval.timeoutMs_of (approval (config self)))
                  (Approval.requestApproval handlers request policyResult
                     (approval (config self)))
        end ;;
      if negb approved then
        logTransaction self request policyResult false by_human ;;
        ret (refused "Payment denied by user.")
      else
        card <- vault_getCard ;;
        logTransaction self request policyResult true by_human ;;
        ret (granted card)
  end.

(** The same object with the logging switch set to [on]. *)
Definition with_logging (on : bool) (self : t) : t :=
  {| config := {| keyStorage := keyStorage (config self);
                  policies := policies (config self);
                  approval := approval (config self);
                  logging := {| enabled := on;
                                path := path (logging (config self)) |} |};
     onApproval := onApproval self |}.

(** The same object with another approval [timeout]. *)
Definition with_timeout (timeout : option JS.number) (self : t) : t :=
  {| config := {| keyStorage := keyStorage (config self);
                  policies := policies (config self);
                  approval := Approval.with_timeout timeout
                                (approval (config self));
                  logging := logging (config self) |};
     onApproval := onApproval self |}.

(** [getPolicy()] and [hasCard()] *)
Definition getPolicy (self : t) : PolicyConfig :=
  PolicyEngine.getPolicy (policies (config self)).

Definition hasCard : M bool := vault_hasCard.

End WithRuntime.

End ClawPay.

(* ================================================================== *)
(** * Code that reads and writes a state and may throw *)
(* ================================================================== *)

Module Eff.

Definition t (S A : Type) : Type := S -> Outcome A * S.

Definition ret {S A} (a : A) : t S A := fun s => (Returned a, s).

Definition throw {S A} (message : string) : t S A :=
  fun s => (Thrown message, s).

Definition bind {S A B} (m : t S A) (k : A -> t S B) : t S B :=
  fun s =>
    match m s with
    | (Returned a, s') => k a s'
    | (Thrown e, s') => (Thrown e, s')
    end.

Definition read {S A} (f : S -> A) : t S A := fun s => (Returned (f s), s).

Definition update {S} (f : S -> S) : t S unit := fun s => (Returned tt, f s).

(** [try { m } catch { handler }] *)
Definition catch {S A} (m : t S A) (handler : string -> t S A) : t S A :=
  fun s =>
    match m s with
    | (Returned a, s') => (Returned a, s')
    | (Thrown e, s') => handler e s'
    end.

Notation "x <- m ;; k" := (bind m (fun x => k))
  (at level 61, m at next level, right associativity).
Notation "m ;; k" := (bind m (fun _ => k))
  (at level 61, right associativity).

End Eff.

(* ================================================================== *)
(** * Buffers and their hexadecimal text *)
(* ================================================================== *)

Module Hex.

Definition Buffer : Type := list byte.

(** The digit of a value below 16, in lower case. *)
Definition digit (n : N) : ascii :=
  if (n <? 10)%N then ascii_of_N (48 + n) else ascii_of_N (87 + n).

(** The value of a hexadecimal digit of either case. *)
Definition value (c : ascii) : option N :=
  let n := N_of_ascii c in
  if ((48 <=? n) && (n <=? 57))%N then Some (n - 48)%N
  else if ((97 <=? n) && (n <=? 102))%N then Some (n - 87)%N
  else if ((65 <=? n) && (n <=? 70))%N then Some (n - 55)%N
  else None.

(** [buffer.toString("hex")] *)
Fixpoint toString (buffer : Buffer) : string :=
  match buffer with
  | [] => EmptyString
  | b :: rest =>
      String (digit (Byte.to_N b / 16))
        (String (digit (Byte.to_N b mod 16)) (toString rest))
  end.

(** [Buffer.from(text, "hex")]: pairs of digits are decoded up to the first
    pair that is not one; a last digit without a partner is dropped. *)
Fixpoint from (text : string) : Buffer :=
  match text with
  | String high (String low rest) =>
      match value high, value low with
      | Some h, Some l =>
          byte_of_ascii (ascii_of_N (16 * h + l)) :: from rest
      | _, _ => []
      end
  | _ => []
  end.

(** [Buffer] to the text with the same bytes, and back. *)
Definition text_of (buffer : Buffer) : string := string_of_list_byte buffer.

End Hex.

(* ================================================================== *)
(** * core/vault.ts *)
(* ================================================================== *)

Module Vault.

Import Eff.

Definition KEY_LENGTH : nat := 32.
Definition IV_LENGTH : nat := 16.

Inductive KeyStorage := keychain | file | env.

(** The writes the vault makes below [CLAWPAYER_DIR], in order. *)
Inductive DiskWrite :=
| wrote_directory
| wrote_key (text : string)
| wrote_vault (content : string)
| unlinked_vault.

(** The vault object and what it works on.  [keyStorage] is the field of the
    object.  [directory] says whether [CLAWPAYER_DIR] exists; [keyFile] and
    [vaultFile] are the contents of [.key] and of [VAULT_FILE] when the files
    exist.  [keytar] is [None] when the system keychain cannot be read (the
    import of keytar or [getPassword] throws) and holds the stored password
    otherwise; [setPassword] says whether the keychain takes a password.
    [CLAWPAYER_KEY] is the environment variable.  [drawn] counts the random
    bytes taken so far.  [console] holds what was written with
    [console.log] and [console.warn], in order. *)
Record State := {
  keyStorage : KeyStorage;
  directory : bool;
  keyFile : option string;
  vaultFile : option string;
  keytar : option (option string);
  setPassword : bool;
  CLAWPAYER_KEY : option string;
  drawn : nat;
  console : list string;
  disk : list DiskWrite
}.

Definition set_keyStorage (k : KeyStorage) (s : State) : State :=
  {| keyStorage := k; directory := directory s; keyFile := keyFile s;
     vaultFile := vaultFile s; keytar := keytar s;
     setPassword := setPassword s;
     CLAWPAYER_KEY := CLAWPAYER_KEY s; drawn := drawn s;
     console := console s; disk := disk s |}.

Definition make_directory (s : State) : State :=
  {| keyStorage := keyStorage s; directory := true; keyFile := keyFile s;
     vaultFile := vaultFile s; keytar := keytar s;
     setPassword := setPassword s;
     CLAWPAYER_KEY := CLAWPAYER_KEY s; drawn := drawn s;
     console := console s; disk := app (disk s) [wrote_directory] |}.

Definition put_keyFile (text : string) (s : State) : State :=
  {| keyStorage := keyStorage s; directory := directory s;
     keyFile := Some text;
     vaultFile := vaultFile s; keytar := keytar s;
     setPassword := setPassword s;
     CLAWPAYER_KEY := CLAWPAYER_KEY s; drawn := drawn s;
     console := console s; disk := app (disk s) [wrote_key text] |}.

Definition put_vaultFile (content : string) (s : State) : State :=
  {| keyStorage := keyStorage s; directory := directory s;
     keyFile := keyFile s;
     vaultFile := Some content; keytar := keytar s;
     setPassword := setPassword s;
     CLAWPAYER_KEY := CLAWPAYER_KEY s; drawn := drawn s;
     console := console s; disk := app (disk s) [wrote_vault content] |}.

Definition remove_vaultFile (s : State) : State :=
  {| keyStorage := keyStorage s; directory := directory s;
     keyFile := keyFile s;
     vaultFile := None; keytar := keytar s;
     setPassword := setPassword s;
     CLAWPAYER_KEY := CLAWPAYER_KEY s; drawn := drawn s;
     console := console s; disk := app (disk s) [unlinked_vault] |}.

Definition put_password (text : string) (s : State) : State :=
  {| keyStorage := keyStorage s; directory := directory s;
     keyFile := keyFile s;
     vaultFile := vaultFile s; keytar := Some (Some text);
     setPassword := setPassword s;
     CLAWPAYER_KEY := CLAWPAYER_KEY s; drawn := drawn s;
     console := console s; disk := disk s |}.

Definition take_random (n : nat) (s : State) : State :=
  {| keyStorage := keyStorage s; directory := directory s;
     keyFile := keyFile s;
     vaultFile := vaultFile s; keytar := keytar s;
     setPassword := setPassword s;
     CLAWPAYER_KEY := CLAWPAYER_KEY s; drawn := drawn s + n;
     console := console s; disk := disk s |}.

Definition print (line : string) (s : State) : State :=
  {| keyStorage := keyStorage s; directory := directory s;
     keyFile := keyFile s;
     vaultFile := vaultFile s; keytar := keytar s;
     setPassword := setPassword s;
     CLAWPAYER_KEY := CLAWPAYER_KEY s; drawn := drawn s;
     console := app (console s) [line]; disk := disk s |}.

Definition M (A : Type) : Type := Eff.t State A.

Definition NOT_INITIALIZED : string :=
  "Vault not initialized. Run `clawpayer init` first.".

Definition NO_CARD : string :=
  "No card stored. Run `clawpayer add-card` first.".

Definition KEYCHAIN_WARNING : string :=
  "System keychain not available, falling back to file-based key storage.".

(** The head of the message of the error of [writeFile] in a directory that
    does not exist (the message goes on with the path). *)
Definition ENOENT : string := "ENOENT: no such file or directory".

(** [writeFile] of a file of [CLAWPAYER_DIR]: it fails when the directory
    does not exist. *)
Definition writeFile (put : State -> State) : M unit :=
  exists_ <- read directory ;;
  if exists_ then update put
  else throw ENOENT.

(** A text as [hex ? Buffer.from(hex, "hex") : null] reads it. *)
Definition key_of_text (hex : option string) : option Hex.Buffer :=
  match hex with
  | Some (String c r) => Some (Hex.from (String c r))
  | _ => None
  end.

Section WithRuntime.
Context {ST : StringOps}.
(** The source of [randomBytes]: the byte at each position of the stream. *)
Variable entropy : nat -> byte.
(** [JSON.stringify] and [JSON.parse] on the two documents of the vault.
    [JSON_parse_payload] stands for the parse and the reading of the three
    fields of the payload: it throws when either does. *)
Variable JSON_stringify_card : CardDetails -> string.
Variable JSON_parse_card : string -> Outcome CardDetails.
Variable JSON_stringify_payload : EncryptedPayload -> string.
Variable JSON_parse_payload : string -> Outcome EncryptedPayload.
(** AES-256-GCM as node:crypto performs it.  [cipher key iv plaintext] is
    [createCipheriv], [update] and [final] with [getAuthTag]: the cipher
    text and the tag, or the error thrown (a key of the wrong length).
    [decipher key iv authTag data] is [createDecipheriv], [setAuthTag],
    [update] and [final]: the plain text, or the error thrown (the tag does
    not verify). *)
Variable cipher :
  Hex.Buffer -> Hex.Buffer -> string -> Outcome (Hex.Buffer * Hex.Buffer).
Variable decipher :
  Hex.Buffer -> Hex.Buffer -> Hex.Buffer -> Hex.Buffer -> Outcome string.

(** [randomBytes(n)] *)
Definition randomBytes (n : nat) : M Hex.Buffer :=
  from <- read drawn ;;
  update (take_random n) ;;
  ret (map entropy (seq from n)).

(** ** Key management *)

Definition getKeyFromFile : M (option Hex.Buffer) :=
  text <- read keyFile ;;
  match text with
  | None => ret None
  | Some hex => ret (Some (Hex.from (trim hex)))
  end.

Definition storeKeyInFile (key : Hex.Buffer) : M unit :=
  writeFile (put_keyFile (Hex.toString key)).

Definition getKeyFromKeychain : M (option Hex.Buffer) :=
  service <- read keytar ;;
  match service with
  | Some hex => ret (key_of_text hex)
  | None =>
      (* Keychain not available, fall back to file *)
      update (print KEYCHAIN_WARNING) ;;
      update (set_keyStorage file) ;;
      getKeyFromFile
  end.

Definition storeKeyInKeychain (key : Hex.Buffer) : M unit :=
  service <- read keytar ;;
  taken <- read setPassword ;;
  match service, taken with
  | Some _, true => update (put_password (Hex.toString key))
  | _, _ =>
      update (print KEYCHAIN_WARNING) ;;
      update (set_keyStorage file) ;;
      storeKeyInFile key
  end.

Definition getKeyFromEnv : M (option Hex.Buffer) :=
  hex <- read CLAWPAYER_KEY ;;
  ret (key_of_text hex).

Definition getKey : M (option Hex.Buffer) :=
  storage <- read keyStorage ;;
  match storage with
  | keychain => getKeyFromKeychain
  | file => getKeyFromFile
  | env => getKeyFromEnv
  end.

Definition storeKey (key : Hex.Buffer) : M unit :=
  storage <- read keyStorage ;;
  match storage with
  | keychain => storeKeyInKeychain key
  | file => storeKeyInFile key
  | env =>
      update (print (newline ++ "Set this environment variable to use the vault:"
                     ++ newline ++ "  export CLAWPAYER_KEY=" ++ Hex.toString key
                     ++ newline ++ newline
                     ++ "Store it somewhere safe. If you lose it, your vault is gone."
                     ++ newline))
  end.

(** ** Encryption *)

Definition encrypt (plaintext : string) (key : Hex.Buffer)
  : M EncryptedPayload :=
  iv <- randomBytes IV_LENGTH ;;
  match cipher key iv plaintext with
  | Returned (encrypted, authTag) =>
      ret {| iv := Hex.toString iv;
             authTag := Hex.toString authTag;
             data := Hex.toString encrypted |}
  | Thrown e => throw e
  end.

Definition decrypt (payload : EncryptedPayload) (key : Hex.Buffer)
  : Outcome string :=
  let iv := Hex.from (iv payload) in
  let authTag := Hex.from (authTag payload) in
  decipher key iv authTag (Hex.from (data payload)).

(** ** The public methods *)

Definition init : M unit :=
  exists_ <- read directory ;;
  (if exists_ then ret tt else update make_directory) ;;
  existingKey <- getKey ;;
  match existingKey with
  | Some _ => ret tt
  | None =>
      key <- randomBytes KEY_LENGTH ;;
      storeKey key
  end.

Definition storeCard (card : CardDetails) : M unit :=
  key <- getKey ;;
  match key with
  | None => throw NOT_INITIALIZED
  | Some key =>
      encrypted <- encrypt (JSON_stringify_card card) key ;;
      writeFile (put_vaultFile (JSON_stringify_payload encrypted))
  end.

Definition getCard : M CardDetails :=
  key <- getKey ;;
  match key with
  | None => throw NOT_INITIALIZED
  | Some key =>
      raw <- read vaultFile ;;
      match raw with
      | None => throw NO_CARD
      | Some raw =>
          match JSON_parse_payload raw with
          | Thrown e => throw e
          | Returned encrypted =>
              match decrypt encrypted key with
              | Thrown e => throw e
              | Returned decrypted =>
                  match JSON_parse_card decrypted with
                  | Thrown e => throw e
                  | Returned card => ret card
                  end
              end
          end
      end
  end.

Definition hasCard : M bool :=
  read (fun s => match vaultFile s with Some _ => true | None => false end).

Definition deleteCard : M unit :=
  raw <- read vaultFile ;;
  match raw with
  | None => ret tt
  | Some _ =>
      (* Overwrite with random data before deleting *)
      garbage <- randomBytes 1024 ;;
      writeFile (put_vaultFile (Hex.text_of garbage)) ;;
      update remove_vaultFile
  end.

(** The calls a user of the object can make, and their effect on the
    state. *)
Inductive Call :=
| call_init
| call_storeCard (card : CardDetails)
| call_getCard
| call_hasCard
| call_deleteCard.

Definition after (c : Call) (s : State) : State :=
  match c with
  | call_init => snd (init s)
  | call_storeCard card => snd (storeCard card s)
  | call_getCard => snd (getCard s)
  | call_hasCard => snd (hasCard s)
  | call_deleteCard => snd (deleteCard s)
  end.

End WithRuntime.

End Vault.

(* ================================================================== *)
(** * approval/webhook.ts *)
(* ================================================================== *)

Module Webhook.

Import Eff.

(** What the handler reads of a response body: [approved] when it is a
    boolean, [pollUrl] when it is truthy. *)
Record Body := {
  approved : option bool;
  pollUrl : option string
}.

(** A response of [fetch].  [json] is the body, or the error thrown by
    [response.json()] or by reading a field of a body that has none. *)
Record Response := {
  ok : bool;
  status : JS.number;
  json : Outcome Body
}.

(** The document posted to the webhook.  Its [payment] has the amount, the
    merchant, the description and the currency; its [policy] the action and
    the reason. *)
Record Payload := {
  type : string;
  payment : PaymentRequest;
  policy : PolicyResult;
  timestamp : JS.number;
  expiresAt : JS.number
}.

Inductive Fetch :=
| POST (url : string) (body : Payload)
| GET (url : string).

(** What the handler works on: the number of readings of [Date.now()] so
    far, the requests made with [fetch], what was written with
    [console.error], and the delays waited for with [setTimeout]. *)
Record World := {
  readings : nat;
  fetches : list Fetch;
  stderr : list string;
  timers : list JS.number
}.

Definition M (A : Type) : Type := Eff.t World A.

Definition TIMED_OUT : string := "Approval poll timed out. Denying payment.".

Definition MISSING_APPROVED : string :=
  "Webhook response missing 'approved' field. Denying.".

Section WithRuntime.
Context {NT : NumberText}.
(** The clock: what each reading of [Date.now()] gives. *)
Variable Date_now : nat -> JS.number.
(** The network: what each call of [fetch] gives, the response or the text
    of the error thrown. *)
Variable network : nat -> Outcome Response.

Definition now : M JS.number :=
  fun w =>
    (Returned (Date_now (readings w)),
     {| readings := S (readings w); fetches := fetches w;
        stderr := stderr w; timers := timers w |}).

Definition fetch (request : Fetch) : M Response :=
  fun w =>
    (network (List.length (fetches w)),
     {| readings := readings w; fetches := app (fetches w) [request];
        stderr := stderr w; timers := timers w |}).

Definition console_error (line : string) : M unit :=
  update (fun w =>
            {| readings := readings w; fetches := fetches w;
               stderr := app (stderr w) [line]; timers := timers w |}).

(** [await new Promise((r) => setTimeout(r, ms))] *)
Definition sleep (ms : JS.number) : M unit :=
  update (fun w =>
            {| readings := readings w; fetches := fetches w;
               stderr := stderr w; timers := app (timers w) [ms] |}).

Definition await {A} (r : Outcome A) : M A := fun w => (r, w).

(** The body of the loop of [pollForApproval] up to the wait: the decision
    when the response carries one. *)
Definition pollOnce (pollUrl : string) : M (option bool) :=
  catch
    (response <- fetch (GET pollUrl) ;;
     if ok response then
       result <- await (json response) ;;
       ret (approved result)
       (* Still pending, keep polling *)
     else ret None)
    (fun _ =>
       (* Network error, keep trying *)
       ret None).

(** The loop of [pollForApproval], for at most [rounds] turns: [None] when
    it is still polling after them. *)
Fixpoint polling (rounds : nat) (pollUrl : string)
    (deadline intervalMs : JS.number) : M (option bool) :=
  match rounds with
  | O => ret None
  | S rounds =>
      t <- now ;;
      if PrimFloat.ltb t deadline then
        answer <- pollOnce pollUrl ;;
        match answer with
        | Some decision => ret (Some decision)
        | None =>
            sleep intervalMs ;;
            polling rounds pollUrl deadline intervalMs
        end
      else
        console_error TIMED_OUT ;;
        ret (Some false)
  end.

Definition pollForApproval (rounds : nat) (pollUrl : string)
    (timeoutMs : JS.number) (intervalMs : option JS.number)
  : M (option bool) :=
  let intervalMs :=
    match intervalMs with Some ms => ms | None => 3000%float end in
  t <- now ;;
  let deadline := PrimFloat.add t timeoutMs in
  polling rounds pollUrl deadline intervalMs.

Definition webhookApproval (rounds : nat) (payment : PaymentRequest)
    (policyResult : PolicyResult) (webhookUrl : string)
    (timeoutMs : option JS.number) : M (option bool) :=
  let timeoutMs :=
    match timeoutMs with Some ms => ms | None => 300000%float end in
  t0 <- now ;;
  t1 <- now ;;
  let payload :=
    {| type := "clawpayer_approval_request";
       payment :=
         {| amount := amount payment;
            merchant := merchant payment;
            description := description payment;
            req_currency :=
              Some (Terminal.currency_or_USD (req_currency payment));
            metadata := None |};
       policy :=
         {| action := action policyResult;
            reason := reason policyResult |};
       timestamp := t0;
       expiresAt := PrimFloat.add t1 timeoutMs |} in
  catch
    ((* Send the approval request *)
     response <- fetch (POST webhookUrl payload) ;;
     if negb (ok response) then
       console_error ("Webhook returned " ++ Number_toString (status response)
                      ++ ". Denying payment.") ;;
       ret (Some false)
     else
       result <- await (json response) ;;
       (* If the webhook responds immediately with a decision *)
       match approved result with
       | Some decision => ret (Some decision)
       | None =>
           (* If the webhook returns a poll URL, poll for decision *)
           match pollUrl result with
           | Some url => pollForApproval rounds url timeoutMs None
           | None =>
               console_error MISSING_APPROVED ;;
               ret (Some false)
           end
       end)
    (fun err =>
       console_error ("Webhook error: " ++ err ++ ". Denying payment.") ;;
       ret (Some false)).

End WithRuntime.

(** The decision a response carries: that of a body with a boolean
    [approved], in a response that is [ok].  An error of the network, a
    response that is not [ok], a body that cannot be read and a body without
    a boolean [approved] carry none. *)
Definition decision (r : Outcome Response) : option bool :=
  match r with
  | Returned response =>
      if ok response then
        match json response with
        | Returned body => approved body
        | Thrown _ => None
        end
      else None
  | Thrown _ => None
  end.

End Webhook.

(* ================================================================== *)
(** * approval/telegram.ts *)
(* ================================================================== *)

Module Telegram.

Import Eff.

Record CallbackQuery := {
  id : string;
  data : option string
}.

Record Update := {
  update_id : JS.number;
  callback_query : option CallbackQuery
}.

(** A button of the inline keyboard. *)
Record Button := {
  text : string;
  callback_data : string
}.

(** The calls made on [bot.api], with their arguments. *)
Inductive ApiCall :=
| sendMessage (chat_id text parse_mode : string)
    (inline_keyboard : list (list Button))
| getUpdates (offset timeout : JS.number) (allowed_updates : list string)
| answerCallbackQuery (callback_query_id text : string)
| editMessageText (chat_id : string) (message_id : JS.number) (text : string)
| deleteWebhook.

(** What the handler reads of a result of the Bot API: the [message_id] of
    the message sent, the array of updates. *)
Record Reply := {
  message_id : JS.number;
  updates : list Update
}.

(** What the handler works on: the number of readings of [Date.now()] so
    far and the calls made on the Bot API, in order. *)
Record World := {
  readings : nat;
  calls : list ApiCall
}.

Definition M (A : Type) : Type := Eff.t World A.

Definition APPROVED_TEXT : string := "✅ Payment approved".
Definition DENIED_TEXT : string := "❌ Payment denied".
Definition TIMED_OUT_TEXT : string := "⏰ Approval timed out — payment denied.".

(** [Math.min(a, b)] on numbers that are not both zeros. *)
Definition Math_min (a b : JS.number) : JS.number :=
  if PrimFloat.is_nan a || PrimFloat.is_nan b then PrimFloat.nan
  else if PrimFloat.ltb b a then b else a.

(** [try { return await m } finally { cleanup }] for a loop that runs for a
    bounded number of turns: the cleanup runs when the loop has ended, with
    an answer or with an error, and not while it is still going ([None]).
    The cleanup does not throw. *)
Definition finally_ended {A} (m : M (option A)) (cleanup : M unit)
  : M (option A) :=
  fun w =>
    match m w with
    | (Returned None, w') => (Returned None, w')
    | (r, w') => (r, snd (cleanup w'))
    end.

Section WithRuntime.
Context {NT : NumberText}.
(** The clock: what each reading of [Date.now()] gives. *)
Variable Date_now : nat -> JS.number.
(** [Math.random().toString(36).slice(2, 8)] *)
Variable random_text : string.
Variable Math_ceil : JS.number -> JS.number.
(** [new Bot(botToken)]: the error thrown for a token that is refused. *)
Variable Bot : string -> Outcome unit.
(** The Bot API: what each call on [bot.api] gives, the result or the
    error. *)
Variable api : nat -> Outcome Reply.

Definition now : M JS.number :=
  fun w =>
    (Returned (Date_now (readings w)),
     {| readings := S (readings w); calls := calls w |}).

Definition call (c : ApiCall) : M Reply :=
  fun w =>
    (api (List.length (calls w)),
     {| readings := readings w; calls := app (calls w) [c] |}).

(** The [for] loop over the updates of one [getUpdates]: the decision when
    one of them carries it, and the offset after the updates gone
    through. *)
Fixpoint forUpdates (approvalId chatId : string) (messageId : JS.number)
    (updates : list Update) (offset : JS.number)
  : M (option bool * JS.number) :=
  match updates with
  | [] => ret (None, offset)
  | update :: rest =>
      let offset := PrimFloat.add (update_id update) 1%float in
      match callback_query update with
      | Some cb =>
          match data cb with
          | Some (String c r as data) =>
              if String.eqb data ("approve_" ++ approvalId)
                 || String.eqb data ("deny_" ++ approvalId)
              then
                let approved := String.prefix "approve_" data in
                let resultText :=
                  if approved then APPROVED_TEXT else DENIED_TEXT in
                call (answerCallbackQuery (id cb) resultText) ;;
                call (editMessageText chatId messageId resultText) ;;
                ret (Some approved, offset)
              else forUpdates approvalId chatId messageId rest offset
          | _ => forUpdates approvalId chatId messageId rest offset
          end
      | None => forUpdates approvalId chatId messageId rest offset
      end
  end.

(** [Math.min(30, Math.ceil((deadline - Date.now()) / 1000))], for the
    reading [t] of the clock. *)
Definition remaining (deadline t : JS.number) : JS.number :=
  Math_min 30%float
    (Math_ceil (PrimFloat.div (PrimFloat.sub deadline t) 1000%float)).

(** What follows the [while] loop. *)
Definition timedOut (chatId : string) (messageId : JS.number)
  : M (option bool) :=
  call (editMessageText chatId messageId TIMED_OUT_TEXT) ;;
  ret (Some false).

(** The [while] loop of [pollCallbackQuery] and what follows it, for at most
    [rounds] turns: [None] when it is still polling after them. *)
Fixpoint polling (rounds : nat) (approvalId chatId : string)
    (messageId deadline offset : JS.number) : M (option bool) :=
  match rounds with
  | O => ret None
  | S rounds =>
      t <- now ;;
      if PrimFloat.ltb t deadline then
        t <- now ;;
        let remaining := remaining deadline t in
        if PrimFloat.leb remaining 0%float then timedOut chatId messageId
        else
          reply <- call (getUpdates offset remaining ["callback_query"]) ;;
          found <- forUpdates approvalId chatId messageId (updates reply)
                     offset ;;
          match found with
          | (Some approved, _) => ret (Some approved)
          | (None, offset) =>
              polling rounds approvalId chatId messageId deadline offset
          end
      else timedOut chatId messageId
  end.

Definition pollCallbackQuery (rounds : nat) (approvalId chatId : string)
    (messageId timeoutMs : JS.number) : M (option bool) :=
  t <- now ;;
  let deadline := PrimFloat.add t timeoutMs in
  polling rounds approvalId chatId messageId deadline 0%float.

Definition message (payment : PaymentRequest) (policyResult : PolicyResult)
  : string :=
  let currency := Terminal.currency_or_USD (req_currency payment) in
  join_lines
    [ "🔔 *ClawPay Approval Request*";
      "";
      "*Amount:* " ++ currency ++ " " ++ Number_toFixed 2 (amount payment);
      "*Merchant:* " ++ merchant payment;
      "*Description:* " ++ description payment;
      "*Reason:* " ++ reason policyResult;
      "";
      "Approve or deny this payment:" ].

Definition telegramApproval (rounds : nat) (payment : PaymentRequest)
    (policyResult : PolicyResult) (botToken chatId : string)
    (timeoutMs : option JS.number) : M (option bool) :=
  let timeoutMs :=
    match timeoutMs with Some ms => ms | None => 300000%float end in
  (fun w => (Bot botToken, w)) ;;
  t <- now ;;
  let approvalId := Number_toString t ++ "_" ++ random_text in
  sentMessage <-
    call (sendMessage chatId (message payment policyResult) "Markdown"
            [[ {| text := "✅ Approve";
                  callback_data := "approve_" ++ approvalId |};
               {| text := "❌ Deny";
                  callback_data := "deny_" ++ approvalId |} ]]) ;;
  finally_ended
    (pollCallbackQuery rounds approvalId chatId (message_id sentMessage)
       timeoutMs)
    ((* Ensure we don't leave dangling connections *)
     catch (call deleteWebhook ;; ret tt) (fun _ => ret tt)).

End WithRuntime.

(** The callback data of an update, when it has some. *)
Definition pressed (update : Update) : option string :=
  match callback_query update with
  | Some cb => data cb
  | None => None
  end.

(** The offset after a reply without a decision: one more than the
    identifier of its last update. *)
Definition offset_after (updates : list Update) (offset : JS.number)
  : JS.number :=
  fold_left (fun _ update => PrimFloat.add (update_id update) 1%float)
    updates offset.

(** An update that presses neither button of the request [approvalId]. *)
Definition foreign (approvalId : string) (update : Update) : bool :=
  match pressed update with
  | Some data =>
      negb (String.eqb data ("approve_" ++ approvalId)
            || String.eqb data ("deny_" ++ approvalId))
  | None => true
  end.

(** The calls of [getUpdates] made by [k] turns that leave the question
    open, from the turn that reads the clock at the readings numbered
    [reading] and [reading + 1] and whose call is numbered [call]: each asks
    for callback queries from the offset the reply before left, for the time
    that remains, 30 seconds at most. *)
Fixpoint asked (Date_now : nat -> JS.number)
    (Math_ceil : JS.number -> JS.number) (api : nat -> Outcome Reply)
    (deadline : JS.number) (k reading call : nat) (offset : JS.number)
  : list ApiCall :=
  match k with
  | O => []
  | S k =>
      getUpdates offset (remaining Math_ceil deadline (Date_now (S reading)))
        ["callback_query"]
      :: asked Date_now Math_ceil api deadline k (S (S reading)) (S call)
           match api call with
           | Returned reply => offset_after (updates reply) offset
           | Thrown _ => offset
           end
  end.

(** A turn of the loop that leaves the question open: the clock, at the
    reading numbered [reading], is before the deadline; the time left at the
    next reading is above zero; and the call numbered [call], the
    [getUpdates] of the turn, returns updates that press neither button of
    the request. *)
Definition open_turn (Date_now : nat -> JS.number)
    (Math_ceil : JS.number -> JS.number) (api : nat -> Outcome Reply)
    (approvalId : string) (deadline : JS.number) (reading call : nat)
  : Prop :=
  PrimFloat.ltb (Date_now reading) deadline = true
  /\ PrimFloat.leb (remaining Math_ceil deadline (Date_now (S reading)))
       0%float = false
  /\ exists reply,
       api call = Returned reply
       /\ forallb (foreign approvalId) (updates reply) = true.

End Telegram.

(* ================================================================== *)
(** * Data for the worked scenarios *)
(* ================================================================== *)

Module Examples.

(** The integer part of a finite number, [0] for the others. *)
Definition integral_part (x : JS.number) : Z :=
  match Prim2SF x with
  | S754_finite negative m e =>
      let magnitude :=
        if (0 <=? e)%Z then (Z.pos m * 2 ^ e)%Z
        else (Z.pos m / 2 ^ (- e))%Z in
      if negative then (- magnitude)%Z else magnitude
  | _ => 0%Z
  end.

Definition decimal (z : Z) : string := NilZero.string_of_int (Z.to_int z).

(** On an integral number below 10^21 in magnitude this is the text the
    runtime gives ([`${1000}`] is ["1000"], [(190).toFixed(2)] is
    ["190.00"]).  The worked examples use such numbers only; the theorems are
    stated for every [NumberText]. *)
#[export] Instance integral_text : NumberText := {|
  Number_toString x := decimal (integral_part x);
  Number_toFixed digits x :=
    decimal (integral_part x)
    ++ match digits with
       | O => ""
       | S _ => "." ++ String.concat "" (repeat "0" digits)
       end
|}.

(** On text made of ASCII characters this is what the runtime does.  The
    worked examples use such text only; the theorems are stated for every
    [StringOps]. *)
#[export] Instance ascii_text : StringOps := {|
  toLowerCase := ascii_toLowerCase;
  trim := ascii_trim;
  toLowerCase_ascii := fun _ _ => eq_refl;
  trim_ascii := fun _ _ => eq_refl
|}.

Definition clock0 : LocalClock := {|
  now := 1000;
  startOfDay := 0;
  startOfMonth := 0;
  startOfNextDay := 86400000;
  startOfNextMonth := 2678400000
|}.

Definition pay (amount : JS.number) (merchant description : string)
  : PaymentRequest :=
  {| amount := amount; merchant := merchant; description := description;
     req_currency := None; metadata := None |}.
Arguments pay amount%_float merchant%_string description%_string.

Definition entry (at_ : Z) (request : PaymentRequest) (ok : bool)
  : TransactionLog :=
  {| id := "";
     timestamp := at_;
     payment := request;
     policyResult := {| action := if ok then auto_approve else deny;
                        reason := "" |};
     approved := ok;
     approvedBy := by_auto |}.

(** The default policy with another list of blocked merchants, another
    list of blocked keywords, or another monthly limit. *)
Definition blocking_merchants (l : list string) : PolicyConfig :=
  {| autoApproveUnder := 25%float;
     requireApprovalAbove := 25%float;
     blockAbove := 1000%float;
     dailyLimit := 200%float;
     monthlyLimit := Some 2000%float;
     blockedKeywords := [];
     allowedMerchants := Some [];
     blockedMerchants := Some l;
     currency := "USD" |}.

Definition blocking_keywords (l : list string) : PolicyConfig :=
  {| autoApproveUnder := 25%float;
     requireApprovalAbove := 25%float;
     blockAbove := 1000%float;
     dailyLimit := 200%float;
     monthlyLimit := Some 2000%float;
     blockedKeywords := l;
     allowedMerchants := Some [];
     blockedMerchants := Some [];
     currency := "USD" |}.

Definition monthly_limit (limit : JS.number) : PolicyConfig :=
  {| autoApproveUnder := 25%float;
     requireApprovalAbove := 25%float;
     blockAbove := 1000%float;
     dailyLimit := 200%float;
     monthlyLimit := Some limit;
     blockedKeywords := [];
     allowedMerchants := Some [];
     blockedMerchants := Some [];
     currency := "USD" |}.
Arguments monthly_limit limit%_float.

Definition approval_by (method : string) (timeout : option JS.number)
  : ApprovalConfig :=
  {| method := method; timeout := timeout; webhookUrl := None;
     slackWebhookUrl := None; telegramBotToken := None;
     telegramChatId := None |}.

(** The default configuration, with the logging switch as given. *)
Definition config_logging (on : bool) : ClawPayConfig :=
  {| keyStorage := "keychain";
     policies := PolicyEngine.DEFAULT_POLICY;
     approval := approval_by "terminal" (Some 300%float);
     logging := {| enabled := on; path := "~/.clawpay/transactions.json" |} |}.

Definition clawpay (on : bool) : ClawPay.t :=
  {| ClawPay.config := config_logging on; ClawPay.onApproval := None |}.

Definition card0 : CardDetails :=
  {| cardholderName := "A. Holder"; number := "4111111111111111";
     expMonth := "12"; expYear := "2030"; cvv := "123";
     billingAddress := None |}.

Definition payload0 : EncryptedPayload :=
  {| iv := "00"; authTag := "00"; data := "00" |}.

Definition world0 (vault : option EncryptedPayload) (f : LogFile)
  : ClawPay.World :=
  {| ClawPay.vaultFile := vault; ClawPay.vaultKey := Some "00";
     ClawPay.logFile := f; ClawPay.clock := clock0; ClawPay.drawn := 0;
     ClawPay.console := []; ClawPay.calls := [] |}.

Definition decipher0 (p : EncryptedPayload) (key : string)
  : Outcome CardDetails := Returned card0.

Definition uuid0 (n : nat) : string := "id".

Definition needs_human : PolicyResult :=
  {| action := require_approval;
     reason := "Amount $50 requires human approval (threshold: $25)" |}.

(** A human who denies on every channel, at once. *)
Definition denies (clk : LocalClock) : Approval.Run :=
  {| Approval.decided := Returned false; Approval.ended := clk;
     Approval.stderr := [] |}.

(** The terminal channel with a human who types nothing: the timer expires
    [timeoutMs] milliseconds after the wait began. *)
Definition silent_terminal {NT : NumberText} (payment : PaymentRequest)
    (policyResult : PolicyResult) (timeoutMs : JS.number) (clk : LocalClock)
  : Approval.Run :=
  let final :=
    Terminal.run [Terminal.TimerExpires]
      (Terminal.terminalApproval payment policyResult timeoutMs) in
  {| Approval.decided :=
       match Terminal.settled final with
       | Some approved => Returned approved
       | None => Thrown "the promise is still pending"
       end;
     Approval.ended :=
       {| now := now clk + integral_part timeoutMs;
          startOfDay := startOfDay clk;
          startOfMonth := startOfMonth clk;
          startOfNextDay := startOfNextDay clk;
          startOfNextMonth := startOfNextMonth clk |};
     Approval.stderr := [] |}.

Definition handlers0 : Approval.Handlers :=
  {| Approval.terminalApproval := fun _ _ _ => denies;
     Approval.webhookApproval := fun _ _ _ _ => denies;
     Approval.telegramApproval := fun _ _ _ _ _ => denies |}.

Definition handlers_silent : Approval.Handlers :=
  {| Approval.terminalApproval := silent_terminal;
     Approval.webhookApproval := fun _ _ _ _ => denies;
     Approval.telegramApproval := fun _ _ _ _ _ => denies |}.

(** The default configuration with logging enabled and the terminal
    channel given [seconds] to answer. *)
Definition clawpay_waiting (seconds : JS.number) : ClawPay.t :=
  ClawPay.with_timeout (Some seconds) (clawpay true).
Arguments clawpay_waiting seconds%_float.

End Examples.

(* ================================================================== *)
(** * The specification's rules, in its own words *)
(* ================================================================== *)

Module Spec.

Section Rules.
Context {NT : NumberText} {ST : StringOps}.

(** [entry] occurs in [text] as a case-insensitive substring: the lower case
    of the one occurs in the lower case of the other. *)
Definition matches (text entry : string) : bool :=
  includes (toLowerCase text) (toLowerCase entry).

(** The eight rules of the policy evaluator, in the order of the
    specification. *)
Inductive Rule :=
| hard_block
| blocked_merchant
| outside_allow_list
| blocked_keyword
| daily_limit
| monthly_limit
| under_threshold
| human_approval.

(** The first rule that matches.  [configured] says which monthly limits
    count as configured; the spending figures are those of
    [getTodaySpending] and [getMonthSpending]. *)
Definition first_rule (configured : JS.number -> bool)
    (policy : PolicyConfig) (clk : LocalClock) (f : LogFile)
    (request : PaymentRequest) : Rule :=
  let amount := amount request in
  (* 1 *)
  if gt amount (blockAbove policy) then hard_block
  (* 2 *)
  else if existsb (matches (merchant request))
            (PolicyEngine.elements (blockedMerchants policy))
       then blocked_merchant
  (* 3 *)
  else if PolicyEngine.has_length (allowedMerchants policy)
          && negb (existsb (matches (merchant request))
                     (PolicyEngine.elements (allowedMerchants policy)))
       then outside_allow_list
  (* 4 *)
  else if existsb (fun kw => matches (description request) kw
                             || matches (merchant request) kw)
            (blockedKeywords policy) then blocked_keyword
  (* 5 *)
  else if gt (PrimFloat.add (PolicyEngine.getTodaySpending clk f) amount)
             (dailyLimit policy) then daily_limit
  (* 6 *)
  else if match monthlyLimit policy with
          | Some limit =>
              configured limit
              && gt (PrimFloat.add (PolicyEngine.getMonthSpending clk f) amount)
                    limit
          | None => false
          end then monthly_limit
  (* 7 *)
  else if le amount (autoApproveUnder policy) then under_threshold
  (* 8 *)
  else human_approval.

(** What each rule gives. *)
Definition action_of (rule : Rule) : Action :=
  match rule with
  | under_threshold => auto_approve
  | human_approval => require_approval
  | _ => deny
  end.

(** The eight rules of the policy evaluator, first match wins. *)
Definition first_match (configured : JS.number -> bool)
    (policy : PolicyConfig) (clk : LocalClock) (f : LogFile)
    (request : PaymentRequest) : Action :=
  action_of (first_rule configured policy clk f request).

(** The sentence [evaluate] gives as the reason when a rule decides; each
    rule has its own.  The keyword quoted by rule 4 is the first one of the
    list that occurs. *)
Definition sentence (rule : Rule) (policy : PolicyConfig) (clk : LocalClock)
    (f : LogFile) (request : PaymentRequest) : string :=
  let money := PolicyEngine.money in
  match rule with
  | hard_block =>
      "Amount " ++ money (amount request) ++ " exceeds maximum allowed ("
      ++ money (blockAbove policy) ++ ")"
  | blocked_merchant =>
      "Merchant " ++ dquote ++ merchant request ++ dquote
      ++ " is blocked by policy"
  | outside_allow_list =>
      "Merchant " ++ dquote ++ merchant request ++ dquote
      ++ " is not in the allowed list"
  | blocked_keyword =>
      "Blocked keyword " ++ dquote
      ++ PolicyEngine.found_text
           (find (fun kw => matches (description request) kw
                            || matches (merchant request) kw)
              (blockedKeywords policy))
      ++ dquote ++ " found in request"
  | daily_limit =>
      "Daily limit exceeded. Spent today: $"
      ++ Number_toFixed 2 (PolicyEngine.getTodaySpending clk f)
      ++ ", limit: " ++ money (dailyLimit policy)
  | monthly_limit =>
      "Monthly limit exceeded. Spent this month: $"
      ++ Number_toFixed 2 (PolicyEngine.getMonthSpending clk f)
      ++ ", limit: "
      ++ match monthlyLimit policy with
         | Some limit => money limit
         | None => "$undefined"
         end
  | under_threshold =>
      "Amount " ++ money (amount request)
      ++ " is under auto-approve threshold ("
      ++ money (autoApproveUnder policy) ++ ")"
  | human_approval =>
      "Amount " ++ money (amount request)
      ++ " requires human approval (threshold: "
      ++ money (requireApprovalAbove policy) ++ ")"
  end.

(** The result of a rule that decides. *)
Definition verdict (rule : Rule) (policy : PolicyConfig) (clk : LocalClock)
    (f : LogFile) (request : PaymentRequest) : PolicyResult :=
  {| action := action_of rule;
     reason := sentence rule policy clk f request |}.

(** Rule 6 as the specification words it: every monthly limit that is
    present is configured. *)
Definition claimed_action := first_match (fun _ => true).

(** Rule 6 as [if (this.policy.monthlyLimit)] reads it: a limit of [0] (or
    NaN) is no limit. *)
Definition ordered_action := first_match truthy_number.

Definition ordered_rule := first_rule truthy_number.

(** No entry of the list is the empty string. *)
Definition no_empty_entry (l : list string) : Prop := ~ In EmptyString l.

(** The current local calendar day and month: from local midnight (of the
    first of the month) up to, and not including, the next one. *)
Definition within_day (clk : LocalClock) (t : Z) : bool :=
  (startOfDay clk <=? t)%Z && (t <? startOfNextDay clk)%Z.

Definition within_month (clk : LocalClock) (t : Z) : bool :=
  (startOfMonth clk <=? t)%Z && (t <? startOfNextMonth clk)%Z.

(** The sum of the amounts of the entries, taken in ledger order from 0. *)
Definition total (entries : list TransactionLog) : JS.number :=
  fold_left (fun sum l => PrimFloat.add sum (amount (payment l))) entries
            0%float.

(** An entry counts when it is approved and stamped inside the window. *)
Definition counts (window : Z -> bool) (l : TransactionLog) : bool :=
  approved l && window (timestamp l).

(** The aggregate the specification describes: the sum of exactly the
    entries that count. *)
Definition approved_spend (window : Z -> bool) (logs : list TransactionLog)
  : JS.number :=
  total (filter (counts window) logs).

(** A reply as the channels compare it. *)
Definition normalize (reply : string) : string := toLowerCase (trim reply).

(** What a channel does with a reply typed by the human: the decision, and
    the last text the human is shown. *)
Record ReplyHandling := {
  decide : string -> bool;
  feedback : string -> string
}.

Definition whatsapp_replies (payment : PaymentRequest)
    (policyResult : PolicyResult) (timeoutMs : JS.number) : ReplyHandling :=
  {| decide reply :=
       snd (WhatsApp.whatsappApproval payment policyResult
              (fun _ => Some reply) timeoutMs);
     feedback reply :=
       last (fst (WhatsApp.whatsappApproval payment policyResult
                    (fun _ => Some reply) timeoutMs)) "" |}.

Definition terminal_replies (payment : PaymentRequest)
    (policyResult : PolicyResult) (timeoutMs : JS.number) : ReplyHandling :=
  let answered reply :=
    Terminal.deliver (Terminal.LineArrives reply)
      (Terminal.terminalApproval payment policyResult timeoutMs) in
  {| decide reply :=
       match Terminal.settled (answered reply) with
       | Some approved => approved
       | None => false
       end;
     feedback reply := last (Terminal.console (answered reply)) "" |}.

(** The reply rule of the specification: the affirmative tokens approve, the
    negative tokens deny, and every other reply is denied with a text that
    is not the plain denial, so that the human can tell why. *)
Definition fails_closed (h : ReplyHandling) : Prop :=
  forall reply,
    let token := normalize reply in
    (In token WhatsApp.affirmative -> decide h reply = true)
    /\ (In token WhatsApp.negative -> decide h reply = false)
    /\ (~ In token WhatsApp.affirmative -> ~ In token WhatsApp.negative ->
        decide h reply = false /\ feedback h reply <> feedback h "no").

(** The policy result of a request is the one an empty ledger gives. *)
Definition history_ignored (self : ClawPay.t)
    (request : PaymentRequest) (w : ClawPay.World) : Prop :=
  fst (ClawPay.policy_evaluate self request w)
  = fst (ClawPay.policy_evaluate self request
           (ClawPay.set_logFile log_absent w)).

(** No entry is stamped at or after [limit]. *)
Definition stamped_before (limit : Z) (logs : list TransactionLog) : Prop :=
  Forall (fun l => (timestamp l < limit)%Z) logs.

(** A computation that leaves the transaction log document as it found it,
    or writes it back with one entry pushed at the end, each entry as
    [JSON.stringify] writes it. *)
Definition appends_at_most_one {A} (m : ClawPay.M A) : Prop :=
  forall w,
    ClawPay.logFile (snd (m w)) = ClawPay.logFile w
    \/ exists log,
         ClawPay.logFile (snd (m w))
         = log_entries
             (map PolicyEngine.stored
                (app (PolicyEngine.getTransactionLogs (ClawPay.logFile w))
                   [log])).

(** The wait [requestCard] starts for a request that needs a human. *)
Definition approval_wait (handlers : Approval.Handlers) (self : ClawPay.t)
    (request : PaymentRequest) (result : PolicyResult)
  : LocalClock -> Approval.Run :=
  match ClawPay.onApproval self with
  | Some onApproval =>
      onApproval request result
        (PrimFloat.mul
           (number_or (timeout (approval (ClawPay.config self))) 300%float)
           1000%float)
  | None =>
      Approval.requestApproval handlers request result
        (approval (ClawPay.config self))
  end.

(** A computation that leaves the transaction log document as it found it. *)
Definition keeps_log {A} (m : ClawPay.M A) : Prop :=
  forall w, ClawPay.logFile (snd (m w)) = ClawPay.logFile w.

End Rules.

End Spec.

(* ================================================================== *)
(** * Notions used by the further properties *)
(* ================================================================== *)

Module Props.

(** The answer carries the card. *)
Definition is_granted (r : ClawPay.Response) : bool :=
  match r with
  | ClawPay.granted _ => true
  | ClawPay.refused _ => false
  end.

(** Who decided a request with this policy action. *)
Definition decider (a : Action) : Approver :=
  match a with
  | require_approval => by_human
  | auto_approve => by_auto
  | deny => by_auto
  end.

(** The call is one that reads the secret or asks the human. *)
Definition touches_secret_or_human (c : ClawPay.Call) : bool :=
  match c with
  | ClawPay.call_getCard => true
  | ClawPay.call_approval _ => true
  | _ => false
  end.

(** The text holds no white space. *)
Fixpoint no_space (s : string) : bool :=
  match s with
  | EmptyString => true
  | String c r => negb (is_space c) && no_space r
  end.

End Props.

(* ================================================================== *)
(** * Data for the examples of the vault and of the channels *)
(* ================================================================== *)

Module Cases.

(** A source of bytes that counts: 0, 1, 2, ... *)
Definition counting (n : nat) : byte :=
  match Byte.of_nat (n mod 256) with
  | Some b => b
  | None => Byte.x00
  end.

(** A vault that was never used, on a machine without a keychain. *)
Definition fresh (storage : Vault.KeyStorage) : Vault.State :=
  {| Vault.keyStorage := storage; Vault.directory := false;
     Vault.keyFile := None; Vault.vaultFile := None; Vault.keytar := None;
     Vault.setPassword := false; Vault.CLAWPAYER_KEY := None;
     Vault.drawn := 0; Vault.console := []; Vault.disk := [] |}.

(** A vault set to the keychain on a machine whose keychain reads as empty
    and takes no password, with a key file left by an earlier run. *)
Definition read_only_keychain : Vault.State :=
  {| Vault.keyStorage := Vault.keychain; Vault.directory := true;
     Vault.keyFile := Some "00ff"; Vault.vaultFile := None;
     Vault.keytar := Some None; Vault.setPassword := false;
     Vault.CLAWPAYER_KEY := None; Vault.drawn := 0; Vault.console := [];
     Vault.disk := [] |}.

(** A vault used through the environment, with its key set and, perhaps,
    a vault file. *)
Definition keyed (vault : option string) : Vault.State :=
  {| Vault.keyStorage := Vault.env; Vault.directory := true;
     Vault.keyFile := None; Vault.vaultFile := vault; Vault.keytar := None;
     Vault.setPassword := false; Vault.CLAWPAYER_KEY := Some "00ff";
     Vault.drawn := 0; Vault.console := []; Vault.disk := [] |}.

(** A stand-in for the cipher: the plain text as it is, sealed with the
    initialization vector as the tag. *)
Definition plain_cipher (key iv : Hex.Buffer) (plaintext : string)
  : Outcome (Hex.Buffer * Hex.Buffer) :=
  Returned (list_byte_of_string plaintext, iv).

Definition plain_decipher (key iv authTag data : Hex.Buffer)
  : Outcome string :=
  if String.eqb (Hex.toString authTag) (Hex.toString iv)
  then Returned (string_of_list_byte data)
  else Thrown "Unsupported state or unable to authenticate data".

(** A stand-in for JSON: a card as its number, a payload as its three
    fields in a row (the first two of 32 characters each). *)
Definition card_text (card : CardDetails) : string := number card.

Definition card_of_text (text : string) : Outcome CardDetails :=
  Returned {| cardholderName := "A. Holder"; number := text;
              expMonth := "12"; expYear := "2030"; cvv := "123";
              billingAddress := None |}.

Definition payload_text (payload : EncryptedPayload) : string :=
  iv payload ++ authTag payload ++ data payload.

Definition payload_of_text (text : string) : Outcome EncryptedPayload :=
  Returned {| iv := String.substring 0 32 text;
              authTag := String.substring 32 32 text;
              data := String.substring 64 (String.length text - 64) text |}.

(** A clock that gains a second at each reading. *)
Fixpoint seconds (n : nat) : JS.number :=
  match n with
  | O => 0%float
  | S k => PrimFloat.add (seconds k) 1000%float
  end.

Definition body (approved : option bool) (pollUrl : option string)
  : Outcome Webhook.Response :=
  Returned {| Webhook.ok := true; Webhook.status := 200%float;
              Webhook.json :=
                Returned {| Webhook.approved := approved;
                            Webhook.pollUrl := pollUrl |} |}.

(** A webhook that hands out a poll URL, fails once, and then says yes. *)
Definition slow_yes (n : nat) : Outcome Webhook.Response :=
  match n with
  | 0 => body None (Some "https://example.test/poll")
  | 1 => Thrown "TypeError: fetch failed"
  | _ => body (Some true) None
  end.

(** A poll URL that never decides. *)
Definition undecided (n : nat) : Outcome Webhook.Response := body None None.

Definition idle : Webhook.World :=
  {| Webhook.readings := 0; Webhook.fetches := []; Webhook.stderr := [];
     Webhook.timers := [] |}.

Definition press (update_id : JS.number) (data : string) : Telegram.Update :=
  {| Telegram.update_id := update_id;
     Telegram.callback_query :=
       Some {| Telegram.id := "cb"; Telegram.data := Some data |} |}.
Arguments press update_id%_float data%_string.

Definition replies (updates : list Telegram.Update)
  : Outcome Telegram.Reply :=
  Returned {| Telegram.message_id := 7%float; Telegram.updates := updates |}.

(** A chat where the button of another request is pressed, and then the
    approve button of this one. *)
Definition chat_yes (n : nat) : Outcome Telegram.Reply :=
  match n with
  | 1 => replies [press 41 "approve_0_zzzzzz"; press 42 "approve_0_abc123"]
  | _ => replies []
  end.

(** A chat where only the button of another request is pressed. *)
Definition chat_other (n : nat) : Outcome Telegram.Reply :=
  match n with
  | 1 => replies [press 41 "approve_0_zzzzzz"]
  | _ => replies []
  end.

Definition any_token (botToken : string) : Outcome unit := Returned tt.

(** [Math.ceil] on the whole numbers, where it changes nothing. *)
Definition whole (x : JS.number) : JS.number := x.

Definition quiet : Telegram.World :=
  {| Telegram.readings := 0; Telegram.calls := [] |}.

(** A decipher that refuses the vault file. *)
Definition refusing (p : EncryptedPayload) (key : string)
  : Outcome CardDetails :=
  Thrown "Unsupported state or unable to authenticate data".

(** The default configuration with the whatsapp channel and no
    [onApproval] callback. *)
Definition by_whatsapp : ClawPay.t :=
  {| ClawPay.config :=
       {| keyStorage := "keychain";
          policies := PolicyEngine.DEFAULT_POLICY;
          approval := Examples.approval_by "whatsapp" (Some 300%float);
          logging := {| enabled := true;
                        path := "~/.clawpay/transactions.json" |} |};
     ClawPay.onApproval := None |}.

End Cases.

(* ================================================================== *)
(** * Facts about the runtime operations *)
(* ================================================================== *)

Lemma includes_self_prefix (s rest : string) :
  includes (s ++ rest) s = true.
Proof.
  assert (P : String.prefix s (s ++ rest) = true).
  { induction s as [|c s IH]; simpl.
    - destruct rest; reflexivity.
    - destruct (ascii_dec c c) as [_|Hcc]; [exact IH | congruence]. }
  destruct s as [|c s]; simpl in *.
  - destruct rest; reflexivity.
  - rewrite P. reflexivity.
Qed.

Lemma includes_skip (before s sub : string) :
  includes s sub = true -> includes (before ++ s) sub = true.
Proof.
  intros H. induction before as [|c before IH]; simpl.
  - exact H.
  - rewrite IH. apply orb_true_r.
Qed.

Lemma includes_middle (before s after : string) :
  includes (before ++ s ++ after) s = true.
Proof. apply includes_skip, includes_self_prefix. Qed.

Lemma truthy_found_find (p : string -> bool) (l : list string) :
  Spec.no_empty_entry l ->
  PolicyEngine.truthy_found (find p l) = existsb p l.
Proof.
  unfold Spec.no_empty_entry.
  induction l as [|x l IH]; intros Hne; simpl.
  - reflexivity.
  - destruct (p x) eqn:Hp; simpl.
    + destruct x as [|c x]; [exfalso; apply Hne; left; reflexivity | reflexivity].
    + apply IH. intros Hin. apply Hne. right. exact Hin.
Qed.

Lemma existsb_elements_no_length {A} (p : A -> bool) (l : option (list A)) :
  PolicyEngine.has_length l = false ->
  existsb p (PolicyEngine.elements l) = false.
Proof. destruct l as [[|x l]|]; simpl; intros H; congruence. Qed.

(* ================================================================== *)
(** * PolicyEngine.evaluate: the order of the checks *)
(* ================================================================== *)

Section EvaluateFacts.
Context {NT : NumberText} {ST : StringOps}.

(** The sentences of two rules are never the same: the result of [evaluate]
    tells which rule decided. *)
Lemma append_cancel (p a b : string) : p ++ a = p ++ b -> a = b.
Proof.
  induction p as [|c p IH]; cbn [String.append]; intros H; [exact H|].
  injection H as H. exact (IH H).
Qed.

Lemma verdict_tells_rule (policy : PolicyConfig) (clk : LocalClock)
    (f : LogFile) (request : PaymentRequest) (rule other : Spec.Rule) :
  Spec.verdict rule policy clk f request
  = Spec.verdict other policy clk f request ->
  rule = other.
Proof.
  unfold Spec.verdict.
  destruct rule, other; try reflexivity; intros H; exfalso;
    cbn [Spec.action_of] in H; try discriminate H;
    injection H as H;
    unfold Spec.sentence, PolicyEngine.money, dquote in H;
    cbn [String.append] in H; try discriminate H.
  all: repeat match type of H with
         | String _ _ = String _ _ => injection H as H
         end;
    apply append_cancel in H; discriminate H.
Qed.


(** C2.  A request whose amount is above [blockAbove] is denied, whatever
    its other fields, the rest of the policy, the clock and the ledger are;
    the reason is the hard-block sentence, which holds the text of the amount
    and the text of the ceiling.  With a ceiling whose text is ["1000"]
    (the runtime prints the number 1000 so) the reason contains ["1000"]. *)
Theorem evaluate_hard_block (policy : PolicyConfig) (clk : LocalClock)
    (f : LogFile) (request : PaymentRequest) :
  gt (amount request) (blockAbove policy) = true ->
  let result := PolicyEngine.evaluate policy clk f request in
  action result = deny
  /\ reason result
     = "Amount $" ++ Number_toString (amount request)
       ++ " exceeds maximum allowed ($"
       ++ Number_toString (blockAbove policy) ++ ")"
  /\ includes (reason result) (Number_toString (amount request)) = true
  /\ includes (reason result) (Number_toString (blockAbove policy)) = true
  /\ (Number_toString (blockAbove policy) = "1000" ->
      includes (reason result) "1000" = true).
Proof.
  intros Hgt result.
  assert (E : result
              = {| action := deny;
                   reason := "Amount $" ++ Number_toString (amount request)
                             ++ " exceeds maximum allowed ($"
                             ++ Number_toString (blockAbove policy) ++ ")" |}).
  { unfold result, PolicyEngine.evaluate. rewrite Hgt. reflexivity. }
  assert (Hceiling : includes (reason result)
                       (Number_toString (blockAbove policy)) = true).
  { rewrite E. cbn [reason].
    change ("Amount $" ++ Number_toString (amount request)
            ++ " exceeds maximum allowed ($"
            ++ Number_toString (blockAbove policy) ++ ")")
      with (("Amount $" ++ Number_toString (amount request))
            ++ (" exceeds maximum allowed ($"
                ++ Number_toString (blockAbove policy) ++ ")")).
    apply includes_skip.
    apply (includes_middle " exceeds maximum allowed ($"). }
  repeat split.
  - rewrite E. reflexivity.
  - rewrite E. reflexivity.
  - rewrite E. cbn [reason]. apply (includes_middle "Amount $").
  - exact Hceiling.
  - intros H1000. rewrite <- H1000. exact Hceiling.
Qed.

End EvaluateFacts.

(* ================================================================== *)
(** * The spending aggregates *)
(* ================================================================== *)

Lemma filter_approved_idem (p : TransactionLog -> bool)
    (logs : list TransactionLog) :
  filter (fun l => approved l && p l) (filter approved logs)
  = filter (fun l => approved l && p l) logs.
Proof.
  induction logs as [|l logs IH]; simpl.
  - reflexivity.
  - destruct (approved l) eqn:Ha; simpl.
    + rewrite Ha. simpl. rewrite IH. reflexivity.
    + exact IH.
Qed.

Lemma spentSince_approved_only (since : Z) (logs : list TransactionLog) :
  PolicyEngine.spentSince since (filter approved logs)
  = PolicyEngine.spentSince since logs.
Proof.
  unfold PolicyEngine.spentSince.
  rewrite (filter_approved_idem (fun l => (since <=? timestamp l)%Z)).
  reflexivity.
Qed.

Lemma spentSince_window (since limit : Z) (logs : list TransactionLog) :
  Spec.stamped_before limit logs ->
  PolicyEngine.spentSince since logs
  = Spec.approved_spend (fun t => (since <=? t)%Z && (t <? limit)%Z) logs.
Proof.
  intros Hb. unfold PolicyEngine.spentSince, Spec.approved_spend, Spec.total.
  f_equal. apply filter_ext_in. intros l Hin.
  unfold Spec.counts.
  assert (Hl : (timestamp l <? limit)%Z = true).
  { apply Z.ltb_lt. unfold Spec.stamped_before in Hb.
    rewrite Forall_forall in Hb. exact (Hb l Hin). }
  rewrite Hl, andb_true_r. reflexivity.
Qed.

(** C3 (amended).  For every ledger none of whose entries is stamped at or
    after the end of the current local day, the daily aggregate is the sum,
    in ledger order, of exactly the entries with [approved = true] and a
    time stamp within the current local calendar day.  For every ledger,
    deleting the entries with [approved = false] changes neither the daily
    nor the monthly aggregate. *)
Theorem daily_aggregate (clk : LocalClock) (f : LogFile) :
  (Spec.stamped_before (startOfNextDay clk)
     (PolicyEngine.getTransactionLogs f) ->
   PolicyEngine.getTodaySpending clk f
   = Spec.approved_spend (Spec.within_day clk)
       (PolicyEngine.getTransactionLogs f))
  /\ PolicyEngine.getTodaySpending clk f
     = PolicyEngine.getTodaySpending clk
         (log_entries (filter approved (PolicyEngine.getTransactionLogs f)))
  /\ PolicyEngine.getMonthSpending clk f
     = PolicyEngine.getMonthSpending clk
         (log_entries (filter approved (PolicyEngine.getTransactionLogs f))).
Proof.
  unfold PolicyEngine.getTodaySpending, PolicyEngine.getMonthSpending.
  cbn [PolicyEngine.getTransactionLogs].
  rewrite !spentSince_approved_only.
  split; [|split; reflexivity].
  intros Hb.
  exact (spentSince_window (startOfDay clk) (startOfNextDay clk) _ Hb).
Qed.

(* ================================================================== *)
(** * ClawPay.requestCard *)
(* ================================================================== *)

Lemma keeps_log_ret {A} (a : A) : Spec.keeps_log (ClawPay.ret a).
Proof. intros w. reflexivity. Qed.

Lemma keeps_log_throw {A} (e : string) : Spec.keeps_log (@ClawPay.throw A e).
Proof. intros w. reflexivity. Qed.

Lemma keeps_log_read {A} (g : ClawPay.World -> A) : Spec.keeps_log (ClawPay.read g).
Proof. intros w. reflexivity. Qed.

Lemma keeps_log_called (c : ClawPay.Call) : Spec.keeps_log (ClawPay.called c).
Proof. intros w. reflexivity. Qed.

Lemma keeps_log_set_drawn (n : nat) :
  Spec.keeps_log (ClawPay.update (ClawPay.set_drawn n)).
Proof. intros w. reflexivity. Qed.

Lemma keeps_log_bind {A B} (m : ClawPay.M A) (k : A -> ClawPay.M B) :
  Spec.keeps_log m -> (forall a, Spec.keeps_log (k a)) -> Spec.keeps_log (ClawPay.bind m k).
Proof.
  intros Hm Hk w. unfold ClawPay.bind.
  specialize (Hm w). destruct (m w) as [[a|e] w1]; simpl in *.
  - rewrite (Hk a w1). exact Hm.
  - exact Hm.
Qed.

Lemma keeps_log_await (timeoutMs : JS.number)
    (wait : LocalClock -> Approval.Run) :
  Spec.keeps_log (ClawPay.await timeoutMs wait).
Proof. intros w. reflexivity. Qed.

Create HintDb log_kept.
#[local] Hint Resolve keeps_log_ret keeps_log_throw keeps_log_read
  keeps_log_called keeps_log_set_drawn keeps_log_await : log_kept.

Section RequestCardFacts.
Context {NT : NumberText} {ST : StringOps}.
Variable decipher : EncryptedPayload -> string -> Outcome CardDetails.
Variable randomUUID : nat -> string.
Variable handlers : Approval.Handlers.

Lemma keeps_log_hasCard : Spec.keeps_log ClawPay.vault_hasCard.
Proof. unfold ClawPay.vault_hasCard. apply keeps_log_bind; auto with log_kept. Qed.

Lemma keeps_log_getCard : Spec.keeps_log (ClawPay.vault_getCard decipher).
Proof.
  unfold ClawPay.vault_getCard.
  apply keeps_log_bind; [auto with log_kept|]. intros _.
  apply keeps_log_bind; [auto with log_kept|]. intros [key|]; [|auto with log_kept].
  apply keeps_log_bind; [auto with log_kept|]. intros [file|]; [|auto with log_kept].
  destruct (decipher file key); auto with log_kept.
Qed.

Lemma keeps_log_evaluate (self : ClawPay.t) (request : PaymentRequest) :
  Spec.keeps_log (ClawPay.policy_evaluate self request).
Proof. unfold ClawPay.policy_evaluate. apply keeps_log_bind; auto with log_kept. Qed.

Lemma keeps_log_logTransaction_disabled (self : ClawPay.t)
    (request : PaymentRequest) (result : PolicyResult) (ok : bool)
    (by_ : Approver) :
  enabled (logging (ClawPay.config self)) = false ->
  Spec.keeps_log (ClawPay.logTransaction randomUUID self request result ok by_).
Proof.
  intros Hoff. unfold ClawPay.logTransaction. rewrite Hoff. simpl.
  apply keeps_log_ret.
Qed.

Lemma keeps_log_requestCard_disabled (self : ClawPay.t)
    (request : PaymentRequest) :
  enabled (logging (ClawPay.config self)) = false ->
  Spec.keeps_log (ClawPay.requestCard decipher randomUUID handlers self request).
Proof.
  intros Hoff. unfold ClawPay.requestCard.
  pose proof keeps_log_hasCard. pose proof keeps_log_getCard.
  pose proof (keeps_log_evaluate self request).
  pose proof (fun r ok by_ =>
                keeps_log_logTransaction_disabled self request r ok by_ Hoff).
  apply keeps_log_bind; [assumption|]. intros [|]; simpl; [|auto with log_kept].
  apply keeps_log_bind; [assumption|]. intros result.
  destruct (action result).
  - repeat (apply keeps_log_bind; [auto with log_kept|]; intros).
    auto with log_kept.
  - apply keeps_log_bind.
    + destruct (ClawPay.onApproval self); auto with log_kept.
    + intros [|]; simpl;
        repeat (apply keeps_log_bind; [auto with log_kept|]; intros);
        auto with log_kept.
  - repeat (apply keeps_log_bind; [auto with log_kept|]; intros).
    auto with log_kept.
Qed.

(** C4 (amended).  With logging disabled, [requestCard] writes nothing to
    the ledger: the log document after a request is the one before it, so
    the spending aggregates are unchanged by the request.  Policy evaluation
    does not look at the logging switch: it gives the result it gives with
    logging enabled, from the entries the log document holds; and an absent,
    unparsable or empty log document gives daily and monthly spend 0. *)
Theorem logging_disabled (self : ClawPay.t) (request : PaymentRequest)
    (w : ClawPay.World) :
  enabled (logging (ClawPay.config self)) = false ->
  let w' := snd (ClawPay.requestCard decipher randomUUID handlers self
                   request w) in
  ClawPay.logFile w' = ClawPay.logFile w
  /\ (forall clk,
        PolicyEngine.getTodaySpending clk (ClawPay.logFile w')
        = PolicyEngine.getTodaySpending clk (ClawPay.logFile w)
        /\ PolicyEngine.getMonthSpending clk (ClawPay.logFile w')
           = PolicyEngine.getMonthSpending clk (ClawPay.logFile w))
  /\ fst (ClawPay.policy_evaluate self request w)
     = fst (ClawPay.policy_evaluate (ClawPay.with_logging true self) request w)
  /\ (forall clk f,
        In f [log_absent; log_unparsable; log_entries []] ->
        PolicyEngine.getTodaySpending clk f = 0%float
        /\ PolicyEngine.getMonthSpending clk f = 0%float).
Proof.
  intros Hoff w'.
  assert (E : ClawPay.logFile w' = ClawPay.logFile w)
    by exact (keeps_log_requestCard_disabled self request Hoff w).
  split; [exact E|]. split; [intros clk; rewrite E; split; reflexivity|].
  split; [reflexivity|].
  intros clk f [<-|[<-|[<-|[]]]]; split; reflexivity.
Qed.

(** C5 (amended).  When no credential is stored, [requestCard] returns
    [{approved: false}] with the reason "No card stored. Run `clawpay
    add-card` first."; the only collaborator it calls is [vault.hasCard]:
    the policy evaluator is not invoked and the ledger is left as it was. *)
Theorem requestCard_no_card (self : ClawPay.t) (request : PaymentRequest)
    (w : ClawPay.World) :
  ClawPay.vaultFile w = None ->
  let run := ClawPay.requestCard decipher randomUUID handlers self request w in
  fst run
  = Returned (ClawPay.refused "No card stored. Run `clawpay add-card` first.")
  /\ ClawPay.calls (snd run) = app (ClawPay.calls w) [ClawPay.call_hasCard]
  /\ ClawPay.logFile (snd run) = ClawPay.logFile w
  /\ snd run = ClawPay.record_call ClawPay.call_hasCard w.
Proof.
  intros Hnone run.
  assert (E : run
              = (Returned (ClawPay.refused
                             "No card stored. Run `clawpay add-card` first."),
                 ClawPay.record_call ClawPay.call_hasCard w)).
  { unfold run, ClawPay.requestCard, ClawPay.vault_hasCard, ClawPay.bind,
      ClawPay.called, ClawPay.update, ClawPay.read, ClawPay.ret.
    simpl. rewrite Hnone. reflexivity. }
  rewrite E. repeat split.
Qed.

End RequestCardFacts.

(* ================================================================== *)
(** * The approval channels *)
(* ================================================================== *)

Lemma array_includes_In (l : list string) (s : string) :
  array_includes l s = true <-> In s l.
Proof.
  unfold array_includes. rewrite existsb_exists. split.
  - intros (x & Hin & Heq). apply String.eqb_eq in Heq. subst x. exact Hin.
  - intros Hin. exists s. split; [exact Hin | apply String.eqb_refl].
Qed.

Lemma array_includes_not_In (l : list string) (s : string) :
  array_includes l s = false <-> ~ In s l.
Proof.
  rewrite <- array_includes_In. destruct (array_includes l s); split;
    congruence.
Qed.

Lemma affirmative_not_negative (s : string) :
  In s WhatsApp.affirmative -> In s WhatsApp.negative -> False.
Proof.
  unfold WhatsApp.affirmative, WhatsApp.negative. simpl.
  intros Ha Hn.
  repeat (destruct Ha as [Ha|Ha]; [subst s|]); try contradiction;
    repeat (destruct Hn as [Hn|Hn]; [discriminate Hn|]); contradiction.
Qed.

Section ChannelFacts.
Context {NT : NumberText} {ST : StringOps}.

(** What [whatsappApproval] does with a reply that is not empty. *)
Lemma whatsapp_reply (payment : PaymentRequest) (policyResult : PolicyResult)
    (timeoutMs : JS.number) (c : ascii) (r : string) :
  let reply := String c r in
  let token := Spec.normalize reply in
  let h := Spec.whatsapp_replies payment policyResult timeoutMs in
  Spec.decide h reply = array_includes WhatsApp.affirmative token
  /\ Spec.feedback h reply
     = if array_includes WhatsApp.affirmative token
       then "✅ Payment approved."
       else if array_includes WhatsApp.negative token
       then "❌ Payment denied."
       else "Unrecognized reply " ++ dquote ++ reply ++ dquote
            ++ ". Payment denied for safety.".
Proof.
  intros reply token h. unfold h, Spec.whatsapp_replies, Spec.decide,
    Spec.feedback, WhatsApp.whatsappApproval, WhatsApp.sendMessage.
  fold reply. fold (Spec.normalize reply). fold token.
  destruct (array_includes WhatsApp.affirmative token);
    [split; reflexivity|].
  destruct (array_includes WhatsApp.negative token); split; reflexivity.
Qed.

(** The tokens are ASCII text in lower case without white space around:
    normalizing leaves them as they are. *)
Lemma normalize_no : Spec.normalize "no" = "no".
Proof.
  unfold Spec.normalize. rewrite (trim_ascii "no" eq_refl).
  exact (toLowerCase_ascii "no" eq_refl).
Qed.

Lemma normalize_empty : Spec.normalize "" = "".
Proof.
  unfold Spec.normalize. rewrite (trim_ascii "" eq_refl).
  exact (toLowerCase_ascii "" eq_refl).
Qed.

Lemma whatsapp_plain_denial (payment : PaymentRequest)
    (policyResult : PolicyResult) (timeoutMs : JS.number) :
  Spec.feedback (Spec.whatsapp_replies payment policyResult timeoutMs) "no"
  = "❌ Payment denied.".
Proof.
  unfold Spec.whatsapp_replies, Spec.feedback, WhatsApp.whatsappApproval,
    WhatsApp.sendMessage.
  fold (Spec.normalize "no"). rewrite normalize_no. reflexivity.
Qed.

(** What [terminalApproval] does with the line the human types. *)
Lemma terminal_reply (payment : PaymentRequest) (policyResult : PolicyResult)
    (timeoutMs : JS.number) (answer : string) :
  let h := Spec.terminal_replies payment policyResult timeoutMs in
  Spec.decide h answer = String.eqb (Spec.normalize answer) "yes"
  /\ Spec.feedback h answer
     = if String.eqb (Spec.normalize answer) "yes"
       then "✅ Payment approved." else "❌ Payment denied.".
Proof.
  intros h. unfold h, Spec.terminal_replies, Spec.decide, Spec.feedback,
    Terminal.deliver, Terminal.terminalApproval, Terminal.onAnswer,
    Terminal.resolve, Terminal.console_log, Terminal.rl_close,
    Terminal.clearTimeout, Spec.normalize.
  cbn [Terminal.rl_closed Terminal.question Terminal.settled Terminal.console
       negb andb].
  split; [reflexivity|].
  destruct (String.eqb (toLowerCase (trim answer)) "yes"); reflexivity.
Qed.

(** C6 (amended).  On the WhatsApp channel a reply is trimmed and
    lower-cased; the tokens yes, approve, y, approved approve; the tokens no,
    deny, n, denied, reject deny; every other reply is denied, a reply that
    is not empty being answered with a text that quotes it as unrecognized
    and the empty reply as a timeout.  On the terminal channel the answer is trimmed and
    lower-cased, ["yes"] alone approves, and every other answer is denied
    with the plain denial line. *)
Theorem reply_handling (payment : PaymentRequest) (policyResult : PolicyResult)
    (timeoutMs : JS.number) :
  Spec.fails_closed (Spec.whatsapp_replies payment policyResult timeoutMs)
  /\ Spec.feedback (Spec.whatsapp_replies payment policyResult timeoutMs) ""
     = "⏰ Approval timed out — payment denied."
  /\ (forall c r,
        let reply := String c r in
        ~ In (Spec.normalize reply) WhatsApp.affirmative ->
        ~ In (Spec.normalize reply) WhatsApp.negative ->
        Spec.feedback (Spec.whatsapp_replies payment policyResult timeoutMs)
          reply
        = "Unrecognized reply " ++ dquote ++ reply ++ dquote
          ++ ". Payment denied for safety.")
  /\ (forall answer,
        let h := Spec.terminal_replies payment policyResult timeoutMs in
        Spec.decide h answer = String.eqb (Spec.normalize answer) "yes"
        /\ Spec.feedback h answer
           = if String.eqb (Spec.normalize answer) "yes"
             then "✅ Payment approved." else "❌ Payment denied.").
Proof.
  split; [|split; [reflexivity|split]].
  - intros reply token.
    rewrite (whatsapp_plain_denial payment policyResult timeoutMs).
    destruct reply as [|c r].
    + (* the empty reply is the timed-out branch *)
      subst token. rewrite normalize_empty.
      split; [|split].
      * intros H. exfalso. simpl in H.
        repeat (destruct H as [H|H]; [discriminate H|]). exact H.
      * intros _. reflexivity.
      * intros _ _. split; [reflexivity|].
        cbn. intros H. discriminate H.
    + destruct (whatsapp_reply payment policyResult timeoutMs c r)
        as [Ed Ef].
      fold token in Ed, Ef. rewrite Ed, Ef.
      destruct (array_includes WhatsApp.affirmative token) eqn:Ha.
      * apply array_includes_In in Ha.
        split; [reflexivity|]. split; [|tauto].
        intros Hn. exfalso. exact (affirmative_not_negative token Ha Hn).
      * apply array_includes_not_In in Ha.
        split; [tauto|]. split; [reflexivity|].
        intros _ Hn. apply array_includes_not_In in Hn. rewrite Hn.
        split; [reflexivity|]. intros H. discriminate H.
  - intros c r reply Ha Hn.
    destruct (whatsapp_reply payment policyResult timeoutMs c r) as [_ Ef].
    fold reply in Ef. rewrite Ef.
    apply array_includes_not_In in Ha. apply array_includes_not_In in Hn.
    rewrite Ha, Hn. reflexivity.
  - intros answer. apply terminal_reply.
Qed.

(** C7.  When the configured method is none of terminal, webhook, slack,
    telegram, whatsapp and callback, [requestApproval] returns [false]: it
    throws nothing, calls no handler, and writes one line to the error
    console. *)
Theorem requestApproval_unknown_method (H : Approval.Handlers)
    (payment : PaymentRequest) (policyResult : PolicyResult)
    (config : ApprovalConfig) (clk : LocalClock) :
  ~ In (method config) Approval.known_methods ->
  Approval.requestApproval H payment policyResult config clk
  = {| Approval.decided := Returned false;
       Approval.ended := clk;
       Approval.stderr := ["Unknown approval method: " ++ method config
                           ++ ". Denying."] |}.
Proof.
  intros Hunknown. unfold Approval.requestApproval.
  unfold Approval.known_methods in Hunknown. simpl in Hunknown.
  repeat match goal with
         | |- context [String.eqb (method config) ?m] =>
             destruct (String.eqb_spec (method config) m) as [E|_];
             [exfalso; apply Hunknown; rewrite E; tauto|]
         end.
  reflexivity.
Qed.

(** C9.  In [terminalApproval] the promise is pending until the first signal
    (the line typed by the human, or the expiry of the timer) and that
    signal settles it with its own decision.  Whatever is delivered
    afterwards changes nothing at all; and were the body of the second
    callback run nevertheless, the settled decision would stay. *)
Theorem terminal_resolves_once (payment : PaymentRequest)
    (policyResult : PolicyResult) (timeoutMs : JS.number)
    (first second : Terminal.Signal) (later : list Terminal.Signal) :
  let pending := Terminal.terminalApproval payment policyResult timeoutMs in
  let decided := Terminal.deliver first pending in
  Terminal.settled pending = None
  /\ Terminal.settled decided = Some (Terminal.decision first)
  /\ Terminal.deliver second decided = decided
  /\ Terminal.run (second :: later) decided = decided
  /\ Terminal.settled (Terminal.callback second decided)
     = Some (Terminal.decision first).
Proof.
  intros pending decided.
  assert (Hquiet : forall s, Terminal.deliver s decided = decided).
  { intros s. unfold decided, pending. destruct first, s; reflexivity. }
  split; [reflexivity|]. split; [destruct first; reflexivity|].
  split; [apply Hquiet|]. split.
  - generalize (second :: later). intros l. unfold Terminal.run.
    induction l as [|s l IH]; simpl; [reflexivity|].
    rewrite Hquiet. exact IH.
  - destruct first, second; reflexivity.
Qed.

End ChannelFacts.

(* ================================================================== *)
(** * The approval timeout *)
(* ================================================================== *)

(** One step of a run of the facade: the projections of the world and the
    tests on what was just computed are reduced. *)
Ltac world_step :=
  cbn [fst snd negb ClawPay.vaultFile ClawPay.vaultKey ClawPay.logFile
       ClawPay.clock ClawPay.drawn ClawPay.console ClawPay.calls].

Lemma requestApproval_timeout (H : Approval.Handlers)
    (payment : PaymentRequest) (policyResult : PolicyResult)
    (config config' : ApprovalConfig) (clk : LocalClock) :
  method config' = method config ->
  webhookUrl config' = webhookUrl config ->
  slackWebhookUrl config' = slackWebhookUrl config ->
  telegramBotToken config' = telegramBotToken config ->
  telegramChatId config' = telegramChatId config ->
  Approval.timeoutMs_of config' = Approval.timeoutMs_of config ->
  Approval.requestApproval H payment policyResult config' clk
  = Approval.requestApproval H payment policyResult config clk.
Proof.
  intros Em Ew Es Et Ec Ems. unfold Approval.requestApproval.
  rewrite Em, Ew, Es, Et, Ec, Ems. reflexivity.
Qed.

Section TimeoutFacts.
Context {NT : NumberText} {ST : StringOps}.
Variable decipher : EncryptedPayload -> string -> Outcome CardDetails.
Variable randomUUID : nat -> string.
Variable handlers : Approval.Handlers.


End TimeoutFacts.

(* ================================================================== *)
(** * Further properties of the evaluator and of the facade *)
(* ================================================================== *)

Lemma find_none_existsb {A} (p : A -> bool) (l : list A) :
  existsb p l = false -> find p l = None.
Proof.
  induction l as [|x l IH]; simpl; [reflexivity|].
  destruct (p x); simpl; [discriminate | exact IH].
Qed.

Lemma keeps_log_at_most_one {A} (m : ClawPay.M A) :
  Spec.keeps_log m -> Spec.appends_at_most_one m.
Proof. intros Hm w. left. apply Hm. Qed.

Lemma at_most_one_bind_left {A B} (m : ClawPay.M A) (k : A -> ClawPay.M B) :
  Spec.appends_at_most_one m -> (forall a, Spec.keeps_log (k a)) ->
  Spec.appends_at_most_one (ClawPay.bind m k).
Proof.
  intros Hm Hk w. unfold ClawPay.bind.
  specialize (Hm w). destruct (m w) as [[a|e] w1]; simpl in *.
  - rewrite (Hk a w1). exact Hm.
  - exact Hm.
Qed.

Lemma at_most_one_bind_right {A B} (m : ClawPay.M A) (k : A -> ClawPay.M B) :
  Spec.keeps_log m -> (forall a, Spec.appends_at_most_one (k a)) ->
  Spec.appends_at_most_one (ClawPay.bind m k).
Proof.
  intros Hm Hk w. unfold ClawPay.bind.
  specialize (Hm w). destruct (m w) as [[a|e] w1]; simpl in *.
  - specialize (Hk a w1). rewrite Hm in Hk. exact Hk.
  - left. exact Hm.
Qed.

Section FurtherFacts.
Context {NT : NumberText} {ST : StringOps}.
Variable decipher : EncryptedPayload -> string -> Outcome CardDetails.
Variable randomUUID : nat -> string.
Variable handlers : Approval.Handlers.

(** A request that no rule denies and whose amount is at most
    [autoApproveUnder] is auto-approved. *)
Theorem evaluate_auto_approve (policy : PolicyConfig) (clk : LocalClock)
    (f : LogFile) (request : PaymentRequest) :
  gt (amount request) (blockAbove policy) = false ->
  existsb (Spec.matches (merchant request))
    (PolicyEngine.elements (blockedMerchants policy)) = false ->
  PolicyEngine.has_length (allowedMerchants policy) = false
  \/ existsb (Spec.matches (merchant request))
       (PolicyEngine.elements (allowedMerchants policy)) = true ->
  existsb (fun kw => Spec.matches (description request) kw
                     || Spec.matches (merchant request) kw)
    (blockedKeywords policy) = false ->
  gt (PrimFloat.add (PolicyEngine.getTodaySpending clk f) (amount request))
     (dailyLimit policy) = false ->
  (forall limit, monthlyLimit policy = Some limit ->
     gt (PrimFloat.add (PolicyEngine.getMonthSpending clk f) (amount request))
        limit = false) ->
  le (amount request) (autoApproveUnder policy) = true ->
  PolicyEngine.evaluate policy clk f request
  = {| action := auto_approve;
       reason := "Amount $" ++ Number_toString (amount request)
                 ++ " is under auto-approve threshold ($"
                 ++ Number_toString (autoApproveUnder policy) ++ ")" |}.
Proof.
  intros Hblock Hbm Ham Hkw Hday Hmonth Hauto.
  unfold Spec.matches in *. unfold PolicyEngine.evaluate.
  rewrite Hblock, (find_none_existsb _ _ Hbm), (find_none_existsb _ _ Hkw),
    Hday, Hauto.
  cbn [PolicyEngine.truthy_found].
  assert (Hallow :
            (if PolicyEngine.has_length (allowedMerchants policy)
             then if negb (existsb
                             (fun m => includes (toLowerCase (merchant request))
                                         (toLowerCase m))
                             (PolicyEngine.elements (allowedMerchants policy)))
                  then true else false
             else false) = false).
  { destruct Ham as [-> | ->]; [reflexivity|].
    destruct (PolicyEngine.has_length (allowedMerchants policy)); reflexivity. }
  destruct (PolicyEngine.has_length (blockedMerchants policy));
    destruct (PolicyEngine.has_length (allowedMerchants policy));
    destruct Ham as [Ham|Ham]; try discriminate Ham; try rewrite Ham;
    cbn [negb];
    destruct (PolicyEngine.nonempty (blockedKeywords policy));
    (destruct (monthlyLimit policy) as [limit|];
     [ rewrite (Hmonth limit eq_refl); destruct (truthy_number limit) | ]);
    reflexivity.
Qed.

Lemma at_most_one_logTransaction (self : ClawPay.t) (request : PaymentRequest)
    (result : PolicyResult) (ok : bool) (by_ : Approver) :
  Spec.appends_at_most_one
    (ClawPay.logTransaction randomUUID self request result ok by_).
Proof.
  intros w. unfold ClawPay.logTransaction.
  destruct (enabled (logging (ClawPay.config self))); simpl.
  - right. eexists. reflexivity.
  - left. reflexivity.
Qed.

(** The ledger is append-only: a call of [requestCard] leaves the log
    document as it was or writes it back with one entry pushed at its end. *)
Theorem requestCard_appends_at_most_one (self : ClawPay.t)
    (request : PaymentRequest) :
  Spec.appends_at_most_one
    (ClawPay.requestCard decipher randomUUID handlers self request).
Proof.
  unfold ClawPay.requestCard.
  pose proof keeps_log_hasCard as Hh.
  pose proof (keeps_log_getCard decipher) as Hg.
  pose proof (keeps_log_evaluate self request) as He.
  pose proof (at_most_one_logTransaction self request) as Hl.
  assert (Hlog : forall r ok by_ (x : ClawPay.Response),
             Spec.appends_at_most_one
               (ClawPay.bind
                  (ClawPay.logTransaction randomUUID self request r ok by_)
                  (fun _ => ClawPay.ret x))).
  { intros. apply at_most_one_bind_left; [apply Hl|].
    intros _. apply keeps_log_ret. }
  apply at_most_one_bind_right; [exact Hh|].
  intros [|]; simpl; [|apply keeps_log_at_most_one, keeps_log_ret].
  apply at_most_one_bind_right; [exact He|]. intros result.
  destruct (action result).
  - apply at_most_one_bind_right; [exact Hg|]. intros card. apply Hlog.
  - apply at_most_one_bind_right.
    + destruct (ClawPay.onApproval self); apply keeps_log_await.
    + intros [|]; simpl; [|apply Hlog].
      apply at_most_one_bind_right; [exact Hg|]. intros card. apply Hlog.
  - apply Hlog.
Qed.

(** The card is revealed only past the gate: when [requestCard] answers
    with a card, the policy result of the request was auto-approve, or it
    was require-approval and the wait for the human ended with [true]; and
    the card is the one the vault document deciphers to. *)
Theorem card_only_when_approved (self : ClawPay.t) (request : PaymentRequest)
    (w : ClawPay.World) (card : CardDetails) :
  fst (ClawPay.requestCard decipher randomUUID handlers self request w)
  = Returned (ClawPay.granted card) ->
  let result :=
    PolicyEngine.evaluate (policies (ClawPay.config self)) (ClawPay.clock w)
      (ClawPay.logFile w) request in
  (action result = auto_approve
   \/ (action result = require_approval
       /\ Approval.decided
            (Spec.approval_wait handlers self request result (ClawPay.clock w))
          = Returned true))
  /\ exists payload key,
       ClawPay.vaultFile w = Some payload
       /\ ClawPay.vaultKey w = Some key
       /\ decipher payload key = Returned card.
Proof.
  destruct w as [vault vkey ledger clk n out trace].
  unfold ClawPay.requestCard, ClawPay.vault_hasCard, ClawPay.policy_evaluate,
    ClawPay.vault_getCard, ClawPay.logTransaction, ClawPay.await,
    Spec.approval_wait, Approval.timeoutMs_of,
    ClawPay.bind, ClawPay.called, ClawPay.update, ClawPay.read, ClawPay.ret,
    ClawPay.throw, ClawPay.record_call, ClawPay.after_wait, ClawPay.set_drawn,
    ClawPay.set_logFile.
  world_step.
  destruct vault as [payload|]; world_step; [|intros H; discriminate H].
  destruct (action (PolicyEngine.evaluate (policies (ClawPay.config self))
                      clk ledger request)); world_step.
  - (* auto_approve *)
    destruct vkey as [key|]; world_step; [|intros H; discriminate H].
    destruct (decipher payload key) as [c|e] eqn:Hd;
      destruct (enabled (logging (ClawPay.config self)));
      world_step; intros H; inversion H; subst.
    all: split; [left; reflexivity | exists payload, key; auto].
  - (* require_approval *)
    destruct (ClawPay.onApproval self) as [onApproval|].
    all: match goal with
         | |- context [Approval.decided ?r] =>
             destruct (Approval.decided r) as [[|]|e] eqn:Hdec
         end;
      world_step;
      try (destruct (enabled (logging (ClawPay.config self))); world_step;
           intros H; discriminate H).
    all: destruct vkey as [key|]; world_step; [|intros H; discriminate H].
    all: destruct (decipher payload key) as [c|e] eqn:Hd;
      destruct (enabled (logging (ClawPay.config self)));
      world_step; intros H; inversion H; subst.
    all: split; [right; split; [reflexivity|exact Hdec]
                | exists payload, key; auto].
  - (* deny *)
    destruct (enabled (logging (ClawPay.config self))); world_step;
      intros H; discriminate H.
Qed.

End FurtherFacts.

(* ================================================================== *)
(** * Worked scenarios for the evaluator *)
(* ================================================================== *)

Import Examples.



(** C2 (witness): [blockAbove = 1000] and [amount = 5000]. *)
Lemma evaluate_hard_block_witness :
  gt (amount (pay 5000 "store.com" "book"))
     (blockAbove PolicyEngine.DEFAULT_POLICY) = true
  /\ action (PolicyEngine.evaluate PolicyEngine.DEFAULT_POLICY clock0 log_absent
               (pay 5000 "store.com" "book")) = deny
  /\ includes (reason (PolicyEngine.evaluate PolicyEngine.DEFAULT_POLICY clock0
                         log_absent (pay 5000 "store.com" "book")))
              "1000" = true.
Proof.
  assert (Hgt : gt (amount (pay 5000 "store.com" "book"))
                   (blockAbove PolicyEngine.DEFAULT_POLICY) = true)
    by reflexivity.
  split; [exact Hgt|].
  destruct (evaluate_hard_block PolicyEngine.DEFAULT_POLICY clock0 log_absent
              (pay 5000 "store.com" "book") Hgt)
    as (Hdeny & _ & _ & _ & H1000).
  split; [exact Hdeny | apply H1000; reflexivity].
Defined.

(** C3 (witness): one approved entry of 100 and one denied entry of 90,
    both stamped today. *)
Lemma daily_aggregate_witness :
  Spec.stamped_before (startOfNextDay clock0)
    (PolicyEngine.getTransactionLogs
       (log_entries [entry 5 (pay 100 "a" "b") true;
                     entry 6 (pay 90 "a" "b") false]))
  /\ PolicyEngine.getTodaySpending clock0
       (log_entries [entry 5 (pay 100 "a" "b") true;
                     entry 6 (pay 90 "a" "b") false])
     = Spec.approved_spend (Spec.within_day clock0)
         [entry 5 (pay 100 "a" "b") true; entry 6 (pay 90 "a" "b") false]
  /\ PolicyEngine.getTodaySpending clock0
       (log_entries [entry 5 (pay 100 "a" "b") true;
                     entry 6 (pay 90 "a" "b") false])
     = 100%float.
Proof.
  assert (Hb : Spec.stamped_before (startOfNextDay clock0)
                 (PolicyEngine.getTransactionLogs
                    (log_entries [entry 5 (pay 100 "a" "b") true;
                                  entry 6 (pay 90 "a" "b") false]))).
  { unfold Spec.stamped_before. simpl. repeat constructor. }
  split; [exact Hb|]. split.
  - exact (proj1 (daily_aggregate clock0 _) Hb).
  - reflexivity.
Defined.

(** C3 (counterexample).  An approved entry of 50 stamped after the end of
    the current local day is outside that day, and the daily aggregate
    counts it: the filter has a lower bound only. *)
Lemma daily_aggregate_counterexample :
  Spec.within_day clock0 90000000 = false
  /\ PolicyEngine.getTodaySpending clock0
       (log_entries [entry 90000000 (pay 50 "a" "b") true]) = 50%float
  /\ Spec.approved_spend (Spec.within_day clock0)
       [entry 90000000 (pay 50 "a" "b") true] = 0%float
  /\ PolicyEngine.getTodaySpending clock0
       (log_entries [entry 90000000 (pay 50 "a" "b") true])
     <> Spec.approved_spend (Spec.within_day clock0)
          [entry 90000000 (pay 50 "a" "b") true].
Proof.
  repeat split; try reflexivity.
  intros H.
  apply (f_equal (fun x => PrimFloat.eqb x 50%float)) in H.
  vm_compute in H. discriminate H.
Qed.

(* ================================================================== *)
(** * Worked scenarios for the facade *)
(* ================================================================== *)

(** C4 (witness): logging disabled, an empty ledger, and a request of 10
    that is auto-approved; the ledger stays absent. *)
Lemma logging_disabled_witness :
  enabled (logging (ClawPay.config (clawpay false))) = false
  /\ ClawPay.logFile
       (snd (ClawPay.requestCard decipher0 uuid0 handlers0 (clawpay false)
               (pay 10 "store.com" "book") (world0 (Some payload0) log_absent)))
     = log_absent.
Proof.
  split; [reflexivity|].
  exact (proj1 (logging_disabled decipher0 uuid0 handlers0 (clawpay false)
                  (pay 10 "store.com" "book")
                  (world0 (Some payload0) log_absent) eq_refl)).
Defined.

(** C4 (counterexample).  Logging is disabled and the log document holds two
    approved entries of today, 100 and 90.  A request of 20 is denied by the
    daily limit; with no prior spending it would be auto-approved. *)
Lemma logging_disabled_counterexample :
  enabled (logging (ClawPay.config (clawpay false))) = false
  /\ fst (ClawPay.requestCard decipher0 uuid0 handlers0 (clawpay false)
            (pay 20 "store.com" "book")
            (world0 (Some payload0)
               (log_entries [entry 5 (pay 100 "a" "b") true;
                             entry 6 (pay 90 "a" "b") true])))
     = Returned (ClawPay.refused
                   "Daily limit exceeded. Spent today: $190.00, limit: $200")
  /\ fst (ClawPay.requestCard decipher0 uuid0 handlers0 (clawpay false)
            (pay 20 "store.com" "book") (world0 (Some payload0) log_absent))
     = Returned (ClawPay.granted card0)
  /\ ~ Spec.history_ignored (clawpay false) (pay 20 "store.com" "book")
        (world0 (Some payload0)
           (log_entries [entry 5 (pay 100 "a" "b") true;
                         entry 6 (pay 90 "a" "b") true])).
Proof.
  repeat split; try (vm_compute; reflexivity).
  unfold Spec.history_ignored. vm_compute. intros H. discriminate H.
Qed.

(** C5 (witness): an empty vault. *)
Lemma requestCard_no_card_witness :
  ClawPay.vaultFile (world0 None log_absent) = None
  /\ ClawPay.calls
       (snd (ClawPay.requestCard decipher0 uuid0 handlers0 (clawpay true)
               (pay 10 "store.com" "book") (world0 None log_absent)))
     = [ClawPay.call_hasCard].
Proof.
  split; [reflexivity|].
  exact (proj1 (proj2 (requestCard_no_card decipher0 uuid0 handlers0
                         (clawpay true) (pay 10 "store.com" "book")
                         (world0 None log_absent) eq_refl))).
Defined.

(** C5 (counterexample).  The reason returned for an empty vault is not the
    text "no credential available". *)
Lemma requestCard_no_card_counterexample :
  fst (ClawPay.requestCard decipher0 uuid0 handlers0 (clawpay true)
         (pay 10 "store.com" "book") (world0 None log_absent))
  = Returned (ClawPay.refused "No card stored. Run `clawpay add-card` first.")
  /\ fst (ClawPay.requestCard decipher0 uuid0 handlers0 (clawpay true)
            (pay 10 "store.com" "book") (world0 None log_absent))
     <> Returned (ClawPay.refused "no credential available").
Proof.
  split; [reflexivity|]. vm_compute. intros H. discriminate H.
Qed.

(* ================================================================== *)
(** * Worked scenarios for the approval channels *)
(* ================================================================== *)

(** C6 (counterexample).  On the terminal channel the reply ["y"], one of the
    affirmative tokens, is denied; and the reply ["maybe"], outside both
    sets, is answered with the plain denial line, the one ["no"] gets, which
    says nothing of the reply not being understood. *)
Lemma reply_handling_counterexample :
  ~ Spec.fails_closed
      (Spec.terminal_replies (pay 50 "store.com" "book") needs_human
         300000%float)
  /\ Spec.decide
       (Spec.terminal_replies (pay 50 "store.com" "book") needs_human
          300000%float) "y" = false
  /\ Spec.feedback
       (Spec.terminal_replies (pay 50 "store.com" "book") needs_human
          300000%float) "maybe" = "❌ Payment denied."
  /\ Spec.feedback
       (Spec.terminal_replies (pay 50 "store.com" "book") needs_human
          300000%float) "maybe"
     = Spec.feedback
         (Spec.terminal_replies (pay 50 "store.com" "book") needs_human
            300000%float) "no".
Proof.
  split; [|repeat split].
  intros H. destruct (H "y") as [Ha _].
  assert (Hy : In (Spec.normalize "y") WhatsApp.affirmative)
    by (vm_compute; tauto).
  specialize (Ha Hy). vm_compute in Ha. discriminate Ha.
Qed.

(** C7 (witness): the method ["sms"]. *)
Lemma requestApproval_unknown_method_witness :
  ~ In (method (approval_by "sms" None)) Approval.known_methods
  /\ Approval.decided
       (Approval.requestApproval handlers0 (pay 50 "store.com" "book")
          needs_human (approval_by "sms" None) clock0)
     = Returned false.
Proof.
  assert (Hunknown : ~ In (method (approval_by "sms" None))
                         Approval.known_methods).
  { simpl. intros H.
    repeat (destruct H as [H|H]; [discriminate H|]). exact H. }
  split; [exact Hunknown|].
  rewrite (requestApproval_unknown_method handlers0
             (pay 50 "store.com" "book") needs_human (approval_by "sms" None)
             clock0 Hunknown).
  reflexivity.
Defined.


(* ================================================================== *)
(** * The scenarios of the specification *)
(* ================================================================== *)

(** Scenario A, a witness of [evaluate_auto_approve] and of
    [card_only_when_approved]: with the default policy a request of 10 to
    ["store.com"] is auto-approved and [requestCard] answers with the stored
    card. *)
Lemma evaluate_auto_approve_witness :
  action (PolicyEngine.evaluate PolicyEngine.DEFAULT_POLICY clock0 log_absent
            (pay 10 "store.com" "book")) = auto_approve.
Proof.
  rewrite (evaluate_auto_approve PolicyEngine.DEFAULT_POLICY clock0 log_absent
             (pay 10 "store.com" "book"));
    try reflexivity.
  - left. reflexivity.
  - intros limit H. injection H as <-. reflexivity.
Defined.

Lemma card_only_when_approved_witness :
  fst (ClawPay.requestCard decipher0 uuid0 handlers0 (clawpay true)
         (pay 10 "store.com" "book") (world0 (Some payload0) log_absent))
  = Returned (ClawPay.granted card0)
  /\ exists payload key,
       ClawPay.vaultFile (world0 (Some payload0) log_absent) = Some payload
       /\ ClawPay.vaultKey (world0 (Some payload0) log_absent) = Some key
       /\ decipher0 payload key = Returned card0.
Proof.
  assert (Hrun : fst (ClawPay.requestCard decipher0 uuid0 handlers0
                        (clawpay true) (pay 10 "store.com" "book")
                        (world0 (Some payload0) log_absent))
                 = Returned (ClawPay.granted card0)) by reflexivity.
  split; [exact Hrun|].
  exact (proj2 (card_only_when_approved decipher0 uuid0 handlers0
                  (clawpay true) (pay 10 "store.com" "book")
                  (world0 (Some payload0) log_absent) card0 Hrun)).
Defined.

(** Scenario D: a daily limit of 200 and three approved entries of today
    that sum to 190; a request of 20 is denied although 20 is at most
    [autoApproveUnder]. *)
Lemma scenario_daily_limit (NT : NumberText) :
  let ledger := log_entries [entry 5 (pay 100 "a" "b") true;
                             entry 6 (pay 50 "a" "b") true;
                             entry 7 (pay 40 "a" "b") true] in
  PolicyEngine.getTodaySpending clock0 ledger = 190%float
  /\ le 20%float (autoApproveUnder PolicyEngine.DEFAULT_POLICY) = true
  /\ action (PolicyEngine.evaluate PolicyEngine.DEFAULT_POLICY clock0 ledger
               (pay 20 "store.com" "book")) = deny.
Proof. repeat split. Qed.

(** Scenario E: a request of 50 with [autoApproveUnder = 25] on the terminal
    channel, and nobody answers within the 1000 milliseconds of the
    timeout: the request is denied and the ledger gets one entry with
    [approved = false] and [approvedBy = "human"]. *)
Lemma scenario_no_reply :
  let run := ClawPay.requestCard decipher0 uuid0 handlers_silent
               (clawpay_waiting 1) (pay 50 "store.com" "book")
               (world0 (Some payload0) log_absent) in
  fst run = Returned (ClawPay.refused "Payment denied by user.")
  /\ map (fun l => (approved l, approvedBy l, action (policyResult l),
                    timestamp l))
       (PolicyEngine.getTransactionLogs (ClawPay.logFile (snd run)))
     = [(false, by_human, require_approval, 2000%Z)]
  /\ In (ClawPay.call_approval 1000%float) (ClawPay.calls (snd run)).
Proof.
  repeat split; try (vm_compute; reflexivity).
  vm_compute. right. right. left. reflexivity.
Qed.

(* ================================================================== *)
(** * The evaluator: what a result that is no denial implies *)
(* ================================================================== *)

Section EvaluatorSafety.
Context {NT : NumberText} {ST : StringOps}.

(** The action of [evaluate] as one chain of tests. *)
Lemma evaluate_action (policy : PolicyConfig) (clk : LocalClock) (f : LogFile)
    (request : PaymentRequest) :
  action (PolicyEngine.evaluate policy clk f request)
  = if gt (amount request) (blockAbove policy) then deny
    else if PolicyEngine.has_length (blockedMerchants policy)
            && PolicyEngine.truthy_found
                 (find (fun m => includes (toLowerCase (merchant request))
                                   (toLowerCase m))
                    (PolicyEngine.elements (blockedMerchants policy)))
         then deny
    else if PolicyEngine.has_length (allowedMerchants policy)
            && negb (existsb
                       (fun m => includes (toLowerCase (merchant request))
                                   (toLowerCase m))
                       (PolicyEngine.elements (allowedMerchants policy)))
         then deny
    else if PolicyEngine.nonempty (blockedKeywords policy)
            && PolicyEngine.truthy_found
                 (find (fun kw =>
                          includes (toLowerCase (description request))
                            (toLowerCase kw)
                          || includes (toLowerCase (merchant request))
                               (toLowerCase kw))
                    (blockedKeywords policy))
         then deny
    else if gt (PrimFloat.add (PolicyEngine.getTodaySpending clk f)
                  (amount request)) (dailyLimit policy) then deny
    else if match monthlyLimit policy with
            | Some limit =>
                truthy_number limit
                && gt (PrimFloat.add (PolicyEngine.getMonthSpending clk f)
                         (amount request)) limit
            | None => false
            end then deny
    else if le (amount request) (autoApproveUnder policy) then auto_approve
    else require_approval.
Proof.
  unfold PolicyEngine.evaluate.
  destruct (gt (amount request) (blockAbove policy)); [reflexivity|].
  destruct (PolicyEngine.has_length (blockedMerchants policy)); cbn [andb];
    [destruct (PolicyEngine.truthy_found _); [reflexivity|]|].
  all: destruct (PolicyEngine.has_length (allowedMerchants policy));
    cbn [andb];
    [destruct (negb _); [reflexivity|]|].
  all: destruct (PolicyEngine.nonempty (blockedKeywords policy)); cbn [andb];
    [destruct (PolicyEngine.truthy_found _); [reflexivity|]|].
  all: destruct (gt (PrimFloat.add (PolicyEngine.getTodaySpending clk f)
                       (amount request)) (dailyLimit policy));
    [reflexivity|].
  all: destruct (monthlyLimit policy) as [limit|];
    [destruct (truthy_number limit); cbn [andb];
     [destruct (gt (PrimFloat.add (PolicyEngine.getMonthSpending clk f)
                      (amount request)) limit); [reflexivity|]|]|].
  all: destruct (le (amount request) (autoApproveUnder policy)); reflexivity.
Qed.

(** Whatever the lists of the policy hold, a result of [evaluate] that is
    no denial means: the amount is not above [blockAbove]; a non-empty
    allow-list has an entry the merchant matches; the daily sum with the
    amount is not above [dailyLimit], nor the monthly sum above a monthly
    limit that is set and not 0; no blocked merchant or keyword matches when
    the list holds no empty string; and the result is auto-approve exactly
    when [amount <= autoApproveUnder]. *)
Theorem evaluate_not_denied (policy : PolicyConfig) (clk : LocalClock)
    (f : LogFile) (request : PaymentRequest) :
  action (PolicyEngine.evaluate policy clk f request) <> deny ->
  gt (amount request) (blockAbove policy) = false
  /\ (PolicyEngine.has_length (allowedMerchants policy) = true ->
      existsb (Spec.matches (merchant request))
        (PolicyEngine.elements (allowedMerchants policy)) = true)
  /\ (Spec.no_empty_entry (PolicyEngine.elements (blockedMerchants policy)) ->
      existsb (Spec.matches (merchant request))
        (PolicyEngine.elements (blockedMerchants policy)) = false)
  /\ (Spec.no_empty_entry (blockedKeywords policy) ->
      existsb (fun kw => Spec.matches (description request) kw
                         || Spec.matches (merchant request) kw)
        (blockedKeywords policy) = false)
  /\ gt (PrimFloat.add (PolicyEngine.getTodaySpending clk f) (amount request))
        (dailyLimit policy) = false
  /\ (forall limit,
        monthlyLimit policy = Some limit -> truthy_number limit = true ->
        gt (PrimFloat.add (PolicyEngine.getMonthSpending clk f)
              (amount request)) limit = false)
  /\ (action (PolicyEngine.evaluate policy clk f request) = auto_approve
      <-> le (amount request) (autoApproveUnder policy) = true).
Proof.
  rewrite evaluate_action. unfold Spec.matches. intros Hnd.
  destruct (gt (amount request) (blockAbove policy)); [congruence|].
  split; [reflexivity|].
  destruct (PolicyEngine.has_length (blockedMerchants policy)
            && PolicyEngine.truthy_found _) eqn:Ebm; [congruence|].
  destruct (PolicyEngine.has_length (allowedMerchants policy)
            && negb _) eqn:Eam; [congruence|].
  destruct (PolicyEngine.nonempty (blockedKeywords policy)
            && PolicyEngine.truthy_found _) eqn:Ekw; [congruence|].
  destruct (gt (PrimFloat.add (PolicyEngine.getTodaySpending clk f)
                  (amount request)) (dailyLimit policy)); [congruence|].
  split.
  { intros Hlen. rewrite Hlen in Eam. cbn [andb] in Eam.
    apply negb_false_iff in Eam. exact Eam. }
  split.
  { intros Hne. destruct (PolicyEngine.has_length (blockedMerchants policy))
      eqn:Hlen.
    - cbn [andb] in Ebm. rewrite (truthy_found_find _ _ Hne) in Ebm. exact Ebm.
    - apply existsb_elements_no_length. exact Hlen. }
  split.
  { intros Hne. destruct (blockedKeywords policy) as [|kw kws] eqn:Hkws;
      [reflexivity|].
    cbn [PolicyEngine.nonempty andb] in Ekw.
    rewrite (truthy_found_find _ _ Hne) in Ekw. exact Ekw. }
  split; [reflexivity|].
  destruct (monthlyLimit policy) as [limit|].
  - destruct (truthy_number limit && _) eqn:Eml; [congruence|].
    split.
    + intros l Hl Ht. injection Hl as <-. rewrite Ht in Eml. exact Eml.
    + destruct (le (amount request) (autoApproveUnder policy));
        split; congruence.
  - split; [intros l Hl; discriminate Hl|].
    destruct (le (amount request) (autoApproveUnder policy));
      split; congruence.
Qed.

End EvaluatorSafety.

(* ================================================================== *)
(** * The ledger: what a request leaves in it *)
(* ================================================================== *)

Lemma spentSince_push (since : Z) (logs : list TransactionLog)
    (log : TransactionLog) :
  PolicyEngine.spentSince since (app logs [log])
  = if approved log && (since <=? timestamp log)%Z
    then PrimFloat.add (PolicyEngine.spentSince since logs)
           (amount (payment log))
    else PolicyEngine.spentSince since logs.
Proof.
  unfold PolicyEngine.spentSince. rewrite filter_app, fold_left_app.
  cbn [filter]. destruct (approved log && (since <=? timestamp log)%Z);
    reflexivity.
Qed.

Section LedgerFacts.
Context {NT : NumberText} {ST : StringOps}.
Variable decipher : EncryptedPayload -> string -> Outcome CardDetails.
Variable randomUUID : nat -> string.
Variable handlers : Approval.Handlers.

(** With a card stored and logging enabled, a call of [requestCard] that
    returns writes the ledger back with exactly one new entry at its end,
    every entry as [JSON.stringify] writes it.  The new entry holds the
    request and the policy result, [approved] is [true] exactly when the
    answer carries the card, [approvedBy] is ["human"] exactly when the
    policy asked for approval, and the time stamp is the clock when the
    decision was taken.  So the daily and monthly sums of the ledger that was
    written grow by the amount as it is read back, for a request that was
    answered with the card (and is stamped inside the window), and by
    nothing for a request that was refused.  The amount is read back as it
    was when it is finite and not zero, and as 0 when it is not finite; and
    a ledger that was itself read from JSON sums to what it did. *)
Theorem requestCard_logs_outcome (self : ClawPay.t) (request : PaymentRequest)
    (w w' : ClawPay.World) (answer : ClawPay.Response) :
  ClawPay.requestCard decipher randomUUID handlers self request w
  = (Returned answer, w') ->
  ClawPay.vaultFile w <> None ->
  enabled (logging (ClawPay.config self)) = true ->
  let result :=
    PolicyEngine.evaluate (policies (ClawPay.config self)) (ClawPay.clock w)
      (ClawPay.logFile w) request in
  let entry :=
    {| id := randomUUID (ClawPay.drawn w);
       timestamp := now (ClawPay.clock w');
       payment := request;
       policyResult := result;
       approved := Props.is_granted answer;
       approvedBy := Props.decider (action result) |} in
  let old := PolicyEngine.getTransactionLogs (ClawPay.logFile w) in
  let before := log_entries (map PolicyEngine.stored old) in
  let written := PolicyEngine.amount_read_back (amount request) in
  ClawPay.logFile w' = log_entries (map PolicyEngine.stored (app old [entry]))
  /\ (forall clk',
        PolicyEngine.getTodaySpending clk' (ClawPay.logFile w')
        = (if Props.is_granted answer
              && (startOfDay clk' <=? now (ClawPay.clock w'))%Z
           then PrimFloat.add (PolicyEngine.getTodaySpending clk' before)
                  written
           else PolicyEngine.getTodaySpending clk' before)
        /\ PolicyEngine.getMonthSpending clk' (ClawPay.logFile w')
           = (if Props.is_granted answer
                 && (startOfMonth clk' <=? now (ClawPay.clock w'))%Z
              then PrimFloat.add (PolicyEngine.getMonthSpending clk' before)
                     written
              else PolicyEngine.getMonthSpending clk' before))
  /\ (PrimFloat.is_finite (amount request) = true ->
      PrimFloat.eqb (amount request) 0%float = false ->
      written = amount request)
  /\ (PrimFloat.is_finite (amount request) = false -> written = 0%float)
  /\ (PrimFloat.eqb (amount request) 0%float = true -> written = 0%float)
  /\ (map PolicyEngine.stored old = old ->
      forall clk',
        PolicyEngine.getTodaySpending clk' before
        = PolicyEngine.getTodaySpending clk' (ClawPay.logFile w)
        /\ PolicyEngine.getMonthSpending clk' before
           = PolicyEngine.getMonthSpending clk' (ClawPay.logFile w)).
Proof.
  intros Hrun Hvault Hon result entry old before written.
  assert (Hentry :
            ClawPay.logFile w'
            = log_entries (map PolicyEngine.stored (app old [entry]))).
  2:{ split; [exact Hentry|]. split; [|split; [|split; [|split]]].
      - intros clk'. rewrite Hentry.
        unfold PolicyEngine.getTodaySpending, PolicyEngine.getMonthSpending,
          before.
        cbn [PolicyEngine.getTransactionLogs].
        rewrite map_app. cbn [map]. rewrite !spentSince_push.
        cbn [PolicyEngine.stored approved timestamp payment amount entry].
        split; reflexivity.
      - intros Hfinite Hzero. unfold written, PolicyEngine.amount_read_back,
          JSON_number. rewrite Hfinite, Hzero. reflexivity.
      - intros Hfinite. unfold written, PolicyEngine.amount_read_back,
          JSON_number. rewrite Hfinite. reflexivity.
      - intros Hzero. unfold written, PolicyEngine.amount_read_back,
          JSON_number. rewrite Hzero.
        destruct (PrimFloat.is_finite (amount request)); reflexivity.
      - intros Hstable clk'.
        unfold PolicyEngine.getTodaySpending, PolicyEngine.getMonthSpending,
          before.
        cbn [PolicyEngine.getTransactionLogs]. rewrite Hstable.
        split; reflexivity. }
  subst result entry old before written. revert Hrun Hvault Hon.
  destruct w as [vault vkey ledger clk n out trace].
  unfold ClawPay.requestCard, ClawPay.vault_hasCard, ClawPay.policy_evaluate,
    ClawPay.vault_getCard, ClawPay.logTransaction, ClawPay.await,
    ClawPay.bind, ClawPay.called, ClawPay.update, ClawPay.read, ClawPay.ret,
    ClawPay.throw, ClawPay.record_call, ClawPay.after_wait, ClawPay.set_drawn,
    ClawPay.set_logFile, PolicyEngine.logTransaction.
  world_step.
  intros Hrun Hvault Hon. rewrite Hon in Hrun.
  destruct vault as [payload|]; [|congruence]. world_step.
  revert Hrun. world_step.
  destruct (action (PolicyEngine.evaluate (policies (ClawPay.config self))
                      clk ledger request)) eqn:Hact; world_step.
  - (* auto_approve *)
    destruct vkey as [key|]; world_step; [|intros H; discriminate H].
    destruct (decipher payload key); world_step; intros H; inversion H.
    reflexivity.
  - (* require_approval *)
    destruct (ClawPay.onApproval self) as [onApproval|].
    all: match goal with
         | |- context [Approval.decided ?r] =>
             destruct (Approval.decided r) as [[|]|e]
         end; world_step; try (intros H; inversion H; reflexivity).
    all: destruct vkey as [key|]; world_step; [|intros H; discriminate H].
    all: destruct (decipher payload key); world_step; intros H; inversion H;
      reflexivity.
  - (* deny *)
    intros H. inversion H. reflexivity.
Qed.

(** A call of [requestCard] that ends in an exception (the vault cannot be
    opened, or the approval step throws) leaves the ledger as it was. *)
Theorem requestCard_throw_logs_nothing (self : ClawPay.t)
    (request : PaymentRequest) (w : ClawPay.World) (e : string) :
  fst (ClawPay.requestCard decipher randomUUID handlers self request w)
  = Thrown e ->
  ClawPay.logFile
    (snd (ClawPay.requestCard decipher randomUUID handlers self request w))
  = ClawPay.logFile w.
Proof.
  destruct w as [vault vkey ledger clk n out trace].
  unfold ClawPay.requestCard, ClawPay.vault_hasCard, ClawPay.policy_evaluate,
    ClawPay.vault_getCard, ClawPay.logTransaction, ClawPay.await,
    ClawPay.bind, ClawPay.called, ClawPay.update, ClawPay.read, ClawPay.ret,
    ClawPay.throw, ClawPay.record_call, ClawPay.after_wait, ClawPay.set_drawn,
    ClawPay.set_logFile, PolicyEngine.logTransaction.
  world_step.
  destruct vault as [payload|]; world_step; [|intros H; discriminate H].
  destruct (action (PolicyEngine.evaluate (policies (ClawPay.config self))
                      clk ledger request)); world_step.
  - destruct vkey as [key|]; world_step; [|reflexivity].
    destruct (decipher payload key); world_step; [|reflexivity].
    destruct (enabled (logging (ClawPay.config self))); world_step;
      intros H; discriminate H.
  - destruct (ClawPay.onApproval self) as [onApproval|].
    all: match goal with
         | |- context [Approval.decided ?r] =>
             destruct (Approval.decided r) as [[|]|e']
         end; world_step; try reflexivity.
    all: try (destruct (enabled (logging (ClawPay.config self)));
              world_step; intros H; discriminate H).
    all: destruct vkey as [key|]; world_step; [|reflexivity].
    all: destruct (decipher payload key); world_step; [|reflexivity].
    all: destruct (enabled (logging (ClawPay.config self))); world_step;
      intros H; discriminate H.
  - destruct (enabled (logging (ClawPay.config self))); world_step;
      intros H; discriminate H.
Qed.

(** A request the policy denies is answered with the policy's reason, and
    the vault's secret is not read nor the human asked: after
    [vault.hasCard] and [policy.evaluate] the only call is the one that
    writes the ledger entry (when logging is enabled). *)
Theorem policy_denial_is_final (self : ClawPay.t) (request : PaymentRequest)
    (w : ClawPay.World) :
  ClawPay.vaultFile w <> None ->
  let result :=
    PolicyEngine.evaluate (policies (ClawPay.config self)) (ClawPay.clock w)
      (ClawPay.logFile w) request in
  action result = deny ->
  let run :=
    ClawPay.requestCard decipher randomUUID handlers self request w in
  fst run = Returned (ClawPay.refused (reason result))
  /\ existsb Props.touches_secret_or_human (ClawPay.calls (snd run))
     = existsb Props.touches_secret_or_human (ClawPay.calls w)
  /\ ClawPay.clock (snd run) = ClawPay.clock w
  /\ ClawPay.console (snd run) = ClawPay.console w.
Proof.
  destruct w as [vault vkey ledger clk n out trace].
  unfold ClawPay.requestCard, ClawPay.vault_hasCard, ClawPay.policy_evaluate,
    ClawPay.vault_getCard, ClawPay.logTransaction, ClawPay.await,
    ClawPay.bind, ClawPay.called, ClawPay.update, ClawPay.read, ClawPay.ret,
    ClawPay.throw, ClawPay.record_call, ClawPay.after_wait, ClawPay.set_drawn,
    ClawPay.set_logFile, PolicyEngine.logTransaction.
  world_step. intros Hvault Hdeny.
  destruct vault as [payload|]; [|congruence]. world_step.
  rewrite Hdeny.
  destruct (enabled (logging (ClawPay.config self))); world_step;
    rewrite !existsb_app; cbn [existsb Props.touches_secret_or_human];
    rewrite !orb_false_r; repeat split.
Qed.

(** When the approval step throws (a channel that lacks its address, the
    whatsapp and callback methods without an [onApproval] callback, a
    handler that fails), [requestCard] throws the same error: no card is
    read from the vault and nothing is written to the ledger. *)
Theorem approval_failure_reveals_nothing (self : ClawPay.t)
    (request : PaymentRequest) (w : ClawPay.World) (e : string) :
  ClawPay.vaultFile w <> None ->
  let result :=
    PolicyEngine.evaluate (policies (ClawPay.config self)) (ClawPay.clock w)
      (ClawPay.logFile w) request in
  action result = require_approval ->
  Approval.decided
    (Spec.approval_wait handlers self request result (ClawPay.clock w))
  = Thrown e ->
  let run :=
    ClawPay.requestCard decipher randomUUID handlers self request w in
  fst run = Thrown e
  /\ ClawPay.logFile (snd run) = ClawPay.logFile w
  /\ existsb (fun c => match c with
                       | ClawPay.call_getCard => true
                       | _ => false
                       end) (ClawPay.calls (snd run))
     = existsb (fun c => match c with
                         | ClawPay.call_getCard => true
                         | _ => false
                         end) (ClawPay.calls w).
Proof.
  destruct w as [vault vkey ledger clk n out trace].
  unfold ClawPay.requestCard, ClawPay.vault_hasCard, ClawPay.policy_evaluate,
    ClawPay.vault_getCard, ClawPay.logTransaction, ClawPay.await,
    Spec.approval_wait, Approval.timeoutMs_of,
    ClawPay.bind, ClawPay.called, ClawPay.update, ClawPay.read, ClawPay.ret,
    ClawPay.throw, ClawPay.record_call, ClawPay.after_wait, ClawPay.set_drawn,
    ClawPay.set_logFile, PolicyEngine.logTransaction.
  world_step. intros Hvault Hact.
  destruct vault as [payload|]; [|congruence]. world_step.
  rewrite Hact.
  destruct (ClawPay.onApproval self) as [onApproval|]; world_step;
    intros Hthrow; rewrite Hthrow; world_step;
    rewrite !existsb_app; cbn [existsb]; rewrite !orb_false_r;
    repeat split.
Qed.

End LedgerFacts.

(* ================================================================== *)
(** * Hexadecimal text *)
(* ================================================================== *)

Lemma hex_byte (b : byte) :
  Hex.value (Hex.digit (Byte.to_N b / 16)) = Some (Byte.to_N b / 16)%N
  /\ Hex.value (Hex.digit (Byte.to_N b mod 16)) = Some (Byte.to_N b mod 16)%N
  /\ byte_of_ascii
       (ascii_of_N (16 * (Byte.to_N b / 16) + Byte.to_N b mod 16)) = b
  /\ is_space (Hex.digit (Byte.to_N b / 16)) = false
  /\ is_space (Hex.digit (Byte.to_N b mod 16)) = false.
Proof. destruct b; vm_compute; repeat split. Qed.

Lemma hex_digits_ascii (b : byte) :
  (nat_of_ascii (Hex.digit (Byte.to_N b / 16)) <? 128)%nat = true
  /\ (nat_of_ascii (Hex.digit (Byte.to_N b mod 16)) <? 128)%nat = true.
Proof. destruct b; vm_compute; split; reflexivity. Qed.

Lemma hex_is_ascii (buffer : Hex.Buffer) :
  is_ascii (Hex.toString buffer) = true.
Proof.
  induction buffer as [|b rest IH]; [reflexivity|].
  destruct (hex_digits_ascii b) as [Hh Hl].
  cbn [Hex.toString is_ascii]. rewrite Hh, Hl, IH. reflexivity.
Qed.

Lemma hex_round_trip (buffer : Hex.Buffer) :
  Hex.from (Hex.toString buffer) = buffer.
Proof.
  induction buffer as [|b rest IH]; [reflexivity|].
  destruct (hex_byte b) as (Hh & Hl & Hb & _).
  cbn [Hex.toString Hex.from]. rewrite Hh, Hl, Hb, IH. reflexivity.
Qed.

Lemma hex_no_space (buffer : Hex.Buffer) :
  Props.no_space (Hex.toString buffer) = true.
Proof.
  induction buffer as [|b rest IH]; [reflexivity|].
  destruct (hex_byte b) as (_ & _ & _ & Hh & Hl).
  cbn [Hex.toString Props.no_space]. rewrite Hh, Hl, IH. reflexivity.
Qed.

Lemma trim_no_space (s : string) :
  Props.no_space s = true -> ascii_trim s = s.
Proof.
  intros Hs. unfold ascii_trim.
  assert (Hstart : trimStart s = s).
  { destruct s as [|c r]; [reflexivity|].
    cbn [Props.no_space] in Hs. apply andb_true_iff in Hs as [Hc _].
    apply negb_true_iff in Hc. cbn [trimStart]. rewrite Hc. reflexivity. }
  rewrite Hstart. clear Hstart.
  induction s as [|c r IH]; [reflexivity|].
  cbn [Props.no_space] in Hs. apply andb_true_iff in Hs as [Hc Hr].
  apply negb_true_iff in Hc. cbn [trimEnd]. rewrite (IH Hr), Hc.
  destruct r; reflexivity.
Qed.

Lemma hex_trim_round_trip {ST : StringOps} (buffer : Hex.Buffer) :
  Hex.from (trim (Hex.toString buffer)) = buffer.
Proof.
  rewrite (trim_ascii _ (hex_is_ascii buffer)).
  rewrite (trim_no_space _ (hex_no_space buffer)). apply hex_round_trip.
Qed.

(* ================================================================== *)
(** * The vault: keys *)
(* ================================================================== *)

Ltac vault_unfold :=
  unfold Vault.init, Vault.storeCard, Vault.getCard, Vault.hasCard,
    Vault.deleteCard, Vault.encrypt, Vault.decrypt, Vault.getKey,
    Vault.storeKey, Vault.getKeyFromKeychain, Vault.storeKeyInKeychain,
    Vault.getKeyFromFile, Vault.storeKeyInFile, Vault.getKeyFromEnv,
    Vault.randomBytes, Vault.writeFile, Eff.bind, Eff.ret, Eff.throw,
    Eff.read, Eff.update, Vault.set_keyStorage, Vault.make_directory,
    Vault.put_keyFile, Vault.put_vaultFile, Vault.remove_vaultFile,
    Vault.put_password, Vault.take_random, Vault.print in *.

Ltac vault_step :=
  cbn [fst snd Vault.keyStorage Vault.directory Vault.keyFile Vault.vaultFile
       Vault.keytar Vault.setPassword Vault.CLAWPAYER_KEY Vault.drawn
       Vault.console Vault.disk]
    in *.

Ltac vault_run := vault_unfold; vault_step.

Lemma toString_key_text (b : byte) (rest : Hex.Buffer) :
  Vault.key_of_text (Some (Hex.toString (b :: rest))) = Some (b :: rest).
Proof.
  cbn [Hex.toString Vault.key_of_text].
  change (String (Hex.digit (Byte.to_N b / 16))
            (String (Hex.digit (Byte.to_N b mod 16)) (Hex.toString rest)))
    with (Hex.toString (b :: rest)).
  rewrite hex_round_trip. reflexivity.
Qed.

Section VaultKeyFacts.
Context {ST : StringOps}.
Variable entropy : nat -> byte.

(** The key file round trip: with the directory in place, the key read back
    from the key file is the key that was stored there (the file holds its
    hexadecimal text). *)
Theorem key_file_round_trip (s : Vault.State) (key : Hex.Buffer) :
  Vault.directory s = true ->
  fst (Vault.storeKeyInFile key s) = Returned tt
  /\ Vault.keyFile (snd (Vault.storeKeyInFile key s))
     = Some (Hex.toString key)
  /\ fst (Vault.getKeyFromFile (snd (Vault.storeKeyInFile key s)))
     = Returned (Some key).
Proof.
  destruct s as [storage dir kf vf kt sets ev n out dk]. vault_run.
  intros ->. vault_step. rewrite hex_trim_round_trip. repeat split.
Qed.

(** [init] on a vault that has no key, with the keychain or the file
    backend: it returns, and from then on [getKey] gives the 32 random bytes
    that [init] drew, whether the keychain worked or the file took over. *)
Theorem init_generates_key (s : Vault.State) :
  Vault.keyStorage s <> Vault.env ->
  fst (Vault.getKey s) = Returned None ->
  let s1 := snd (Vault.init entropy s) in
  let key := map entropy (seq (Vault.drawn s) Vault.KEY_LENGTH) in
  fst (Vault.init entropy s) = Returned tt
  /\ Vault.getKey s1 = (Returned (Some key), s1)
  /\ List.length key = 32
  /\ Vault.drawn s1 = Vault.drawn s + 32
  /\ Vault.directory s1 = true.
Proof.
  destruct s as [storage dir kf vf kt sets ev n out dk].
  intros Hstorage Hnone s1 key.
  assert (Hlen : List.length key = 32)
    by (unfold key; rewrite length_map, length_seq; reflexivity).
  assert (Hkey : exists b rest, key = b :: rest).
  { unfold key, Vault.KEY_LENGTH. cbn [seq map]. eauto. }
  destruct Hkey as (b & rest & Hkey).
  subst s1. fold key. revert Hnone. vault_run. fold key.
  destruct storage; [| |congruence].
  - (* keychain *)
    destruct kt as [password|]; vault_step.
    + destruct sets, dir; vault_step; fold key; intros Hnone;
        injection Hnone as Hnone; rewrite Hnone; vault_step; fold key;
        rewrite ?hex_trim_round_trip;
        try (rewrite Hkey, toString_key_text; rewrite <- Hkey);
        repeat split; exact Hlen.
    + destruct kf as [text|]; vault_step; [intros H; discriminate H|].
      intros _. destruct dir; vault_step; fold key;
        rewrite hex_trim_round_trip; repeat split; exact Hlen.
  - (* file *)
    destruct kf as [text|]; vault_step; [intros H; discriminate H|].
    intros _. destruct dir; vault_step; fold key;
      rewrite hex_trim_round_trip; repeat split; exact Hlen.
Qed.

(** [init] never regenerates a key: when [getKey] gives a key, [init]
    returns without drawing random bytes and without writing the key file
    or the keychain, and [getKey] gives the same key afterwards. *)
Theorem init_keeps_key (s : Vault.State) (key : Hex.Buffer) :
  fst (Vault.getKey s) = Returned (Some key) ->
  let s1 := snd (Vault.init entropy s) in
  fst (Vault.init entropy s) = Returned tt
  /\ fst (Vault.getKey s1) = Returned (Some key)
  /\ Vault.drawn s1 = Vault.drawn s
  /\ Vault.keyFile s1 = Vault.keyFile s
  /\ Vault.keytar s1 = Vault.keytar s.
Proof.
  destruct s as [storage dir kf vf kt sets ev n out dk].
  intros Hkey s1. subst s1. revert Hkey. vault_run.
  destruct storage.
  - destruct kt as [password|]; vault_step.
    + intros Hkey. injection Hkey as Hkey.
      destruct dir; vault_step; rewrite Hkey; vault_step; rewrite Hkey;
        repeat split.
    + destruct kf as [text|]; vault_step; [|intros H; discriminate H].
      intros Hkey. destruct dir; vault_step; repeat split; exact Hkey.
  - destruct kf as [text|]; vault_step; [|intros H; discriminate H].
    intros Hkey. destruct dir; vault_step; repeat split; exact Hkey.
  - intros Hkey. injection Hkey as Hkey.
    destruct dir; vault_step; rewrite Hkey; vault_step; rewrite Hkey;
      repeat split.
Qed.

(** [init] is idempotent with the keychain and the file backends: a second
    call returns and changes nothing at all. *)
Theorem init_idempotent (s : Vault.State) :
  Vault.keyStorage s <> Vault.env ->
  Vault.init entropy (snd (Vault.init entropy s))
  = (Returned tt, snd (Vault.init entropy s)).
Proof.
  destruct s as [storage dir kf vf kt sets ev n out dk].
  intros Hstorage.
  assert (Hkey : exists b rest,
             map entropy (seq n Vault.KEY_LENGTH) = b :: rest).
  { unfold Vault.KEY_LENGTH. cbn [seq map]. eauto. }
  destruct Hkey as (b & rest & Hkey).
  vault_run.
  destruct storage; [| |congruence].
  - destruct kt as [password|]; vault_step.
    + destruct (Vault.key_of_text password) eqn:Hpw;
        destruct sets, dir; vault_step;
        repeat (progress (rewrite ?Hpw, ?Hkey, ?toString_key_text;
                          vault_step));
        reflexivity.
    + destruct kf as [text|]; destruct dir; vault_step; reflexivity.
  - destruct kf as [text|]; destruct dir; vault_step; reflexivity.
Qed.

(** [init] looks at the key file only when the keychain cannot be read.
    With the keychain backend, a keychain that reads as empty and does not
    take a password, and a key file in place, [init] draws a new key and
    writes it over the key file: the key that was there is gone, and
    [getKey] gives the new one from then on. *)
Theorem init_overwrites_key_file (s : Vault.State) (password : option string)
    (old : string) :
  Vault.keyStorage s = Vault.keychain ->
  Vault.keytar s = Some password ->
  Vault.key_of_text password = None ->
  Vault.setPassword s = false ->
  Vault.keyFile s = Some old ->
  let s1 := snd (Vault.init entropy s) in
  let key := map entropy (seq (Vault.drawn s) Vault.KEY_LENGTH) in
  fst (Vault.init entropy s) = Returned tt
  /\ Vault.keyStorage s1 = Vault.file
  /\ Vault.keyFile s1 = Some (Hex.toString key)
  /\ fst (Vault.getKey s1) = Returned (Some key)
  /\ Vault.disk s1
     = app (if Vault.directory s then Vault.disk s
            else app (Vault.disk s) [Vault.wrote_directory])
         [Vault.wrote_key (Hex.toString key)].
Proof.
  destruct s as [storage dir kf vf kt sets ev n out dk].
  vault_run. intros -> -> Hpw -> -> .
  destruct dir; vault_step; rewrite Hpw; vault_step;
    rewrite hex_trim_round_trip; repeat split.
Qed.

End VaultKeyFacts.

(* ================================================================== *)
(** * The vault: cards *)
(* ================================================================== *)

Section VaultFacts.
Context {ST : StringOps}.
Variable entropy : nat -> byte.
Variable JSON_stringify_card : CardDetails -> string.
Variable JSON_parse_card : string -> Outcome CardDetails.
Variable JSON_stringify_payload : EncryptedPayload -> string.
Variable JSON_parse_payload : string -> Outcome EncryptedPayload.
Variable cipher :
  Hex.Buffer -> Hex.Buffer -> string -> Outcome (Hex.Buffer * Hex.Buffer).
Variable decipher :
  Hex.Buffer -> Hex.Buffer -> Hex.Buffer -> Hex.Buffer -> Outcome string.


(** With the environment backend and no key in [CLAWPAYER_KEY], [init]
    initializes nothing: it prints a fresh key and stores it nowhere, so
    [getKey] still finds none and [storeCard] still throws "not
    initialized"; and a second [init] draws another key. *)
Theorem init_env_stores_nothing (s : Vault.State) (card : CardDetails) :
  Vault.keyStorage s = Vault.env ->
  Vault.key_of_text (Vault.CLAWPAYER_KEY s) = None ->
  let s1 := snd (Vault.init entropy s) in
  fst (Vault.init entropy s) = Returned tt
  /\ fst (Vault.getKey s1) = Returned None
  /\ fst (Vault.storeCard entropy JSON_stringify_card
            JSON_stringify_payload cipher card s1)
     = Thrown Vault.NOT_INITIALIZED
  /\ Vault.keyFile s1 = Vault.keyFile s
  /\ Vault.keytar s1 = Vault.keytar s
  /\ Vault.vaultFile s1 = Vault.vaultFile s
  /\ Vault.drawn s1 = Vault.drawn s + 32
  /\ Vault.drawn (snd (Vault.init entropy s1)) = Vault.drawn s + 32 + 32.
Proof.
  destruct s as [storage dir kf vf kt sets ev n out dk].
  vault_run. intros -> Hev.
  destruct dir; vault_step;
    repeat (progress (rewrite ?Hev; vault_step)); repeat split.
Qed.

(** The storage of the key changes in one way only: an object set to the
    keychain turns to the file when the keychain cannot be read or does not
    take the password, and no call turns it back or elsewhere. *)
Theorem storage_only_falls_back (c : Vault.Call) (s : Vault.State) :
  let s1 :=
    Vault.after entropy JSON_stringify_card JSON_parse_card
      JSON_stringify_payload JSON_parse_payload cipher decipher c s in
  Vault.keyStorage s1 = Vault.keyStorage s
  \/ (Vault.keyStorage s = Vault.keychain
      /\ (Vault.keytar s = None \/ Vault.setPassword s = false)
      /\ Vault.keyStorage s1 = Vault.file).
Proof.
  cbv zeta. destruct s as [storage dir kf vf kt sets ev n out dk].
  unfold Vault.after. destruct c; vault_run.
  all: repeat match goal with
         | |- context [match ?x with _ => _ end] =>
             lazymatch x with
             | context [match _ with _ => _ end] => fail
             | _ => destruct x eqn:?; vault_step
             end
         end.
  all: auto.
Qed.

(** Without a key, [storeCard] and [getCard] throw "not initialized",
    before anything else: the vault file is not looked at, no random byte
    is drawn and nothing is written. *)
Theorem vault_needs_key (s : Vault.State) (card : CardDetails) :
  let stored :=
    Vault.storeCard entropy JSON_stringify_card JSON_stringify_payload
      cipher card s in
  let got := Vault.getCard JSON_parse_card JSON_parse_payload decipher s in
  fst (Vault.getKey s) = Returned None ->
  fst stored = Thrown Vault.NOT_INITIALIZED
  /\ fst got = Thrown Vault.NOT_INITIALIZED
  /\ Vault.vaultFile (snd stored) = Vault.vaultFile s
  /\ Vault.drawn (snd stored) = Vault.drawn s
  /\ Vault.disk (snd stored) = Vault.disk s.
Proof.
  cbv zeta. destruct s as [storage dir kf vf kt sets ev n out dk].
  vault_run.
  destruct storage; vault_step.
  - destruct kt as [password|]; vault_step.
    + intros H. injection H as H. rewrite H. repeat split.
    + destruct kf; vault_step; [intros H; discriminate H|].
      repeat split.
  - destruct kf; vault_step; [intros H; discriminate H|]. repeat split.
  - intros H. injection H as H. rewrite H. repeat split.
Qed.

(** [deleteCard]: nothing happens when no card is stored; a stored card is
    first overwritten with 1024 random bytes and then unlinked.  Afterwards
    [hasCard] is false and [getCard] cannot return a card, while the key
    is where it was. *)
Theorem deleteCard_erases (s : Vault.State) :
  Vault.directory s = true ->
  let s1 := snd (Vault.deleteCard entropy s) in
  fst (Vault.deleteCard entropy s) = Returned tt
  /\ fst (Vault.hasCard s1) = Returned false
  /\ (forall card,
        fst (Vault.getCard JSON_parse_card JSON_parse_payload decipher s1)
        <> Returned card)
  /\ (Vault.vaultFile s = None -> s1 = s)
  /\ (Vault.vaultFile s <> None ->
      Vault.disk s1
      = app (Vault.disk s)
          [Vault.wrote_vault
             (Hex.text_of (map entropy (seq (Vault.drawn s) 1024)));
           Vault.unlinked_vault])
  /\ Vault.keyFile s1 = Vault.keyFile s
  /\ Vault.keytar s1 = Vault.keytar s.
Proof.
  destruct s as [storage dir kf vf kt sets ev n out dk].
  vault_run. intros ->.
  destruct vf as [raw|]; vault_step.
  - split; [reflexivity|]. split; [reflexivity|]. split.
    + intros card.
      destruct storage; vault_step;
        [destruct kt; vault_step;
         [destruct (Vault.key_of_text _)|destruct kf]
        |destruct kf
        |destruct (Vault.key_of_text _)];
        vault_step; intros H; discriminate H.
    + split; [intros H; discriminate H|].
      split; [intros _; rewrite <- app_assoc; reflexivity|].
      split; reflexivity.
  - split; [reflexivity|]. split; [reflexivity|]. split.
    + intros card.
      destruct storage; vault_step;
        [destruct kt; vault_step;
         [destruct (Vault.key_of_text _)|destruct kf]
        |destruct kf
        |destruct (Vault.key_of_text _)];
        vault_step; intros H; discriminate H.
    + split; [reflexivity|]. split; [congruence|]. split; reflexivity.
Qed.

Ltac vault_card Hkey Hseal Hpayload Hdecrypt Hcard :=
  repeat (progress (rewrite ?Hkey, ?Hseal, ?Hpayload, ?Hdecrypt, ?Hcard;
                    vault_step));
  repeat split.

(** Store, then get.  With a key and the directory in place, a card that
    was stored is the card [getCard] returns, provided the runtime reads
    back what it wrote: the decipher opens what the cipher sealed for this
    key and initialization vector, and [JSON.parse] inverts
    [JSON.stringify] on the payload and on the card.  The initialization
    vector, the tag and the cipher text each travel as hexadecimal text. *)
Theorem storeCard_getCard (s : Vault.State) (card : CardDetails)
    (key sealed tag : Hex.Buffer) :
  let nonce := map entropy (seq (Vault.drawn s) Vault.IV_LENGTH) in
  let payload := {| iv := Hex.toString nonce;
                    authTag := Hex.toString tag;
                    data := Hex.toString sealed |} in
  fst (Vault.getKey s) = Returned (Some key) ->
  Vault.directory s = true ->
  cipher key nonce (JSON_stringify_card card) = Returned (sealed, tag) ->
  decipher key nonce tag sealed = Returned (JSON_stringify_card card) ->
  JSON_parse_payload (JSON_stringify_payload payload) = Returned payload ->
  JSON_parse_card (JSON_stringify_card card) = Returned card ->
  let stored :=
    Vault.storeCard entropy JSON_stringify_card JSON_stringify_payload
      cipher card s in
  fst stored = Returned tt
  /\ Vault.vaultFile (snd stored) = Some (JSON_stringify_payload payload)
  /\ fst (Vault.hasCard (snd stored)) = Returned true
  /\ fst (Vault.getCard JSON_parse_card JSON_parse_payload decipher
            (snd stored))
     = Returned card.
Proof.
  destruct s as [storage dir kf vf kt sets ev n out dk].
  intros nonce payload Hkey Hdir Hseal Hopen Hpayload Hcard s1.
  assert (Hdecrypt :
            decipher key (Hex.from (iv payload)) (Hex.from (authTag payload))
              (Hex.from (data payload))
            = Returned (JSON_stringify_card card))
    by (unfold payload; cbn [iv authTag data];
        rewrite !hex_round_trip; exact Hopen).
  subst s1 payload nonce. revert Hkey Hdir. vault_run. intros Hkey ->.
  destruct storage; vault_step.
  - destruct kt as [password|]; vault_step.
    + injection Hkey as Hkey.
      vault_card Hkey Hseal Hpayload Hdecrypt Hcard.
    + destruct kf as [text|]; vault_step; [|discriminate Hkey].
      injection Hkey as Hkey.
      vault_card Hkey Hseal Hpayload Hdecrypt Hcard.
  - destruct kf as [text|]; vault_step; [|discriminate Hkey].
    injection Hkey as Hkey.
      vault_card Hkey Hseal Hpayload Hdecrypt Hcard.
  - injection Hkey as Hkey.
      vault_card Hkey Hseal Hpayload Hdecrypt Hcard.
Qed.

End VaultFacts.

(* ================================================================== *)
(** * The webhook handler *)
(* ================================================================== *)

Ltac webhook_step :=
  cbn [fst snd Webhook.readings Webhook.fetches Webhook.stderr Webhook.timers
       Webhook.ok Webhook.json Webhook.approved Webhook.pollUrl negb] in *.

Ltac webhook_unfold :=
  unfold Webhook.pollOnce, Webhook.now, Webhook.fetch, Webhook.console_error,
    Webhook.sleep, Webhook.await, Eff.catch, Eff.bind, Eff.ret, Eff.update
    in *.

Section WebhookFacts.
Context {NT : NumberText}.
Variable Date_now : nat -> JS.number.
Variable network : nat -> Outcome Webhook.Response.

Lemma pollOnce_run (url : string) (w : Webhook.World) :
  Webhook.pollOnce network url w
  = (Returned (Webhook.decision (network (List.length (Webhook.fetches w)))),
     {| Webhook.readings := Webhook.readings w;
        Webhook.fetches := app (Webhook.fetches w) [Webhook.GET url];
        Webhook.stderr := Webhook.stderr w;
        Webhook.timers := Webhook.timers w |}).
Proof.
  webhook_unfold. unfold Webhook.decision.
  destruct (network _) as [[good code [body|e]]|e]; webhook_step;
    try destruct good; reflexivity.
Qed.

(** The loop, turn by turn: while the clock is before the deadline and the
    responses carry no decision, each turn reads the clock, fetches the
    poll URL and waits for the interval. *)
Lemma polling_pending (k : nat) :
  forall (rounds : nat) (url : string) (deadline ms : JS.number)
         (w : Webhook.World),
    (forall j, j < k ->
       PrimFloat.ltb (Date_now (Webhook.readings w + j)) deadline = true
       /\ Webhook.decision (network (List.length (Webhook.fetches w) + j))
          = None) ->
    Webhook.polling Date_now network (k + rounds) url deadline ms w
    = Webhook.polling Date_now network rounds url deadline ms
        {| Webhook.readings := Webhook.readings w + k;
           Webhook.fetches :=
             app (Webhook.fetches w) (repeat (Webhook.GET url) k);
           Webhook.stderr := Webhook.stderr w;
           Webhook.timers := app (Webhook.timers w) (repeat ms k) |}.
Proof.
  induction k as [|k IH]; intros rounds url deadline ms w Hturns.
  - destruct w as [n sent err waits]. webhook_step.
    cbn [repeat Nat.add]. rewrite Nat.add_0_r, !app_nil_r. reflexivity.
  - destruct (Hturns 0 (Nat.lt_0_succ k)) as [Hclock Hnone].
    rewrite !Nat.add_0_r in *.
    destruct w as [n sent err waits]. webhook_step.
    cbn [Nat.add Webhook.polling].
    unfold Eff.bind at 1. unfold Webhook.now at 1. webhook_step.
    rewrite Hclock.
    unfold Eff.bind at 1. rewrite pollOnce_run. webhook_step. rewrite Hnone.
    unfold Eff.bind at 1. unfold Webhook.sleep at 1, Eff.update at 1.
    webhook_step. rewrite IH.
    + webhook_step. cbn [repeat]. rewrite <- !app_assoc. cbn [app].
      rewrite Nat.add_succ_r. reflexivity.
    + intros j Hj. webhook_step. rewrite length_app. cbn [List.length].
      replace (S n + j) with (n + S j) by lia.
      replace (List.length sent + 1 + j) with (List.length sent + S j)
        by lia.
      apply Hturns. lia.
Qed.

(** Polling ends when the clock reaches the deadline: when the responses
    up to then carry no decision, the answer is no, with one line on the
    error console; nothing is fetched at or after the deadline, whatever
    the poll URL would answer then. *)
Theorem poll_times_out (k rounds : nat) (url : string)
    (timeoutMs : JS.number) (w : Webhook.World) :
  let deadline := PrimFloat.add (Date_now (Webhook.readings w)) timeoutMs in
  (forall j, j < k ->
     PrimFloat.ltb (Date_now (S (Webhook.readings w) + j)) deadline = true
     /\ Webhook.decision (network (List.length (Webhook.fetches w) + j))
        = None) ->
  PrimFloat.ltb (Date_now (S (Webhook.readings w) + k)) deadline = false ->
  k < rounds ->
  Webhook.pollForApproval Date_now network rounds url timeoutMs None w
  = (Returned (Some false),
     {| Webhook.readings := S (S (Webhook.readings w) + k);
        Webhook.fetches :=
          app (Webhook.fetches w) (repeat (Webhook.GET url) k);
        Webhook.stderr := app (Webhook.stderr w) [Webhook.TIMED_OUT];
        Webhook.timers :=
          app (Webhook.timers w) (repeat 3000%float k) |}).
Proof.
  intros deadline Hturns Hlate Hrounds. subst deadline.
  unfold Webhook.pollForApproval.
  unfold Eff.bind at 1. unfold Webhook.now at 1.
  replace rounds with (k + S (rounds - S k)) by lia.
  rewrite polling_pending by (webhook_step; exact Hturns).
  webhook_step. cbn [Webhook.polling].
  unfold Eff.bind at 1. unfold Webhook.now at 1. webhook_step.
  rewrite Hlate. reflexivity.
Qed.

(** The first decision heard before the deadline is the answer: polls
    without a decision before it are tried again after the interval, and
    nothing is fetched after it. *)
Theorem poll_first_decision (k rounds : nat) (url : string)
    (timeoutMs : JS.number) (answer : bool) (w : Webhook.World) :
  let deadline := PrimFloat.add (Date_now (Webhook.readings w)) timeoutMs in
  (forall j, j < k ->
     PrimFloat.ltb (Date_now (S (Webhook.readings w) + j)) deadline = true
     /\ Webhook.decision (network (List.length (Webhook.fetches w) + j))
        = None) ->
  PrimFloat.ltb (Date_now (S (Webhook.readings w) + k)) deadline = true ->
  Webhook.decision (network (List.length (Webhook.fetches w) + k))
  = Some answer ->
  k < rounds ->
  Webhook.pollForApproval Date_now network rounds url timeoutMs None w
  = (Returned (Some answer),
     {| Webhook.readings := S (S (Webhook.readings w) + k);
        Webhook.fetches :=
          app (Webhook.fetches w) (repeat (Webhook.GET url) (S k));
        Webhook.stderr := Webhook.stderr w;
        Webhook.timers :=
          app (Webhook.timers w) (repeat 3000%float k) |}).
Proof.
  intros deadline Hturns Hclock Hanswer Hrounds. subst deadline.
  unfold Webhook.pollForApproval.
  unfold Eff.bind at 1. unfold Webhook.now at 1.
  replace rounds with (k + S (rounds - S k)) by lia.
  rewrite polling_pending by (webhook_step; exact Hturns).
  webhook_step. cbn [Webhook.polling].
  unfold Eff.bind at 1. unfold Webhook.now at 1. webhook_step.
  rewrite Hclock.
  unfold Eff.bind at 1. rewrite pollOnce_run. webhook_step.
  rewrite length_app, repeat_length, Hanswer.
  unfold Eff.ret.
  replace (repeat (Webhook.GET url) (S k))
    with (app (repeat (Webhook.GET url) k) [Webhook.GET url])
    by (rewrite <- repeat_cons; reflexivity).
  rewrite app_assoc. reflexivity.
Qed.

Lemma polling_sound (rounds : nat) :
  forall (url : string) (deadline ms : JS.number) (w w' : Webhook.World)
         (r : Outcome (option bool)),
    Webhook.polling Date_now network rounds url deadline ms w = (r, w') ->
    (exists answer, r = Returned answer)
    /\ (r = Returned (Some true) ->
        exists n,
          List.length (Webhook.fetches w') = S n
          /\ List.length (Webhook.fetches w) <= n
          /\ Webhook.decision (network n) = Some true).
Proof.
  induction rounds as [|rounds IH]; intros url deadline ms w w' r.
  - cbn. intros [= <- <-]. split; [eauto|discriminate].
  - destruct w as [n sent err waits].
    cbn [Webhook.polling].
    unfold Eff.bind at 1. unfold Webhook.now at 1. webhook_step.
    destruct (PrimFloat.ltb _ _).
    + unfold Eff.bind at 1. rewrite pollOnce_run. webhook_step.
      destruct (Webhook.decision (network (List.length sent)))
        as [[|]|] eqn:Hheard.
      * cbn. intros [= <- <-]. split; [eauto|]. intros _.
        exists (List.length sent). webhook_step.
        rewrite length_app, Nat.add_1_r. auto.
      * cbn. intros [= <- <-]. split; [eauto|discriminate].
      * unfold Eff.bind at 1. unfold Webhook.sleep at 1, Eff.update at 1.
        webhook_step. intros Hrun.
        destruct (IH _ _ _ _ _ _ Hrun) as [Hret Hyes].
        split; [exact Hret|].
        intros Hr. destruct (Hyes Hr) as (m & Hlen & Hle & Hm).
        exists m. webhook_step. rewrite length_app, Nat.add_1_r in Hle.
        repeat split; [exact Hlen|lia|exact Hm].
    + cbn. intros [= <- <-]. split; [eauto|discriminate].
Qed.

Lemma webhookApproval_sound (rounds : nat)
    (payment : PaymentRequest) (policyResult : PolicyResult) (url : string)
    (timeoutMs : option JS.number) (w w' : Webhook.World)
    (r : Outcome (option bool)) :
  Webhook.webhookApproval Date_now network rounds payment policyResult
    url timeoutMs w = (r, w') ->
  (exists answer, r = Returned answer)
  /\ (r = Returned (Some true) ->
      exists n,
        List.length (Webhook.fetches w') = S n
        /\ List.length (Webhook.fetches w) <= n
        /\ Webhook.decision (network n) = Some true).
Proof.
  destruct w as [n sent err waits].
  unfold Webhook.webhookApproval.
  unfold Eff.bind at 1. unfold Webhook.now at 1. webhook_step.
  unfold Eff.bind at 1. unfold Webhook.now at 1. webhook_step.
  unfold Eff.catch. unfold Eff.bind at 1. unfold Webhook.fetch at 1.
  webhook_step.
  destruct (network (List.length sent)) as [[good code [body|e]]|e]
    eqn:Hposted;
    webhook_step; try (destruct good; webhook_step);
    try (cbn; intros [= <- <-]; split; [eauto|discriminate]).
  unfold Eff.bind at 1. unfold Webhook.await at 1.
  destruct body as [[[|]|] [poll|]]; webhook_step;
    try (cbn; intros [= <- <-]; split; [eauto|discriminate]).
  - cbn. intros [= <- <-]. split; [eauto|]. intros _.
    exists (List.length sent). webhook_step.
    rewrite length_app, Nat.add_1_r, Hposted. auto.
  - cbn. intros [= <- <-]. split; [eauto|]. intros _.
    exists (List.length sent). webhook_step.
    rewrite length_app, Nat.add_1_r, Hposted. auto.
  - unfold Webhook.pollForApproval.
    unfold Eff.bind at 1. unfold Webhook.now at 1. webhook_step.
    match goal with
    | |- context [Webhook.polling _ _ ?k ?u ?d ?ms ?w1] =>
        destruct (Webhook.polling Date_now network k u d ms w1)
          as [[a|e] w2] eqn:Hrun;
        destruct (polling_sound _ _ _ _ _ _ _ Hrun) as [[answer Hret] Hyes]
    end; webhook_step; [|discriminate Hret].
    intros [= <- <-]. split; [eauto|].
    intros Ha. destruct (Hyes Ha) as (m & Hlen & Hle & Hm).
    exists m. webhook_step. rewrite length_app, Nat.add_1_r in Hle.
    repeat split; [exact Hlen|lia|exact Hm].
Qed.

(** The loop ends at the latest when the clock is found at or after the
    deadline: with more turns than it takes to get there, it has an
    answer. *)
Lemma polling_ends (k : nat) :
  forall (rounds : nat) (url : string) (deadline ms : JS.number)
         (w : Webhook.World),
    PrimFloat.ltb (Date_now (Webhook.readings w + k)) deadline = false ->
    k < rounds ->
    exists answer,
      fst (Webhook.polling Date_now network rounds url deadline ms w)
      = Returned (Some answer).
Proof.
  induction k as [|k IH]; intros rounds url deadline ms [n sent err waits]
    Hlate Hrounds; webhook_step.
  - destruct rounds as [|rounds]; [lia|].
    rewrite Nat.add_0_r in Hlate.
    cbn [Webhook.polling].
    unfold Eff.bind at 1. unfold Webhook.now at 1. webhook_step.
    rewrite Hlate. cbn. eauto.
  - destruct rounds as [|rounds]; [lia|].
    cbn [Webhook.polling].
    unfold Eff.bind at 1. unfold Webhook.now at 1. webhook_step.
    destruct (PrimFloat.ltb (Date_now n) deadline); [|cbn; eauto].
    unfold Eff.bind at 1. rewrite pollOnce_run. webhook_step.
    destruct (Webhook.decision (network (List.length sent))) as [b|];
      [cbn; eauto|].
    unfold Eff.bind at 1. unfold Webhook.sleep at 1, Eff.update at 1.
    webhook_step. apply IH; webhook_step; [|lia].
    replace (S n + k) with (n + S k) by lia. exact Hlate.
Qed.


(** The webhook handler says yes only when it heard yes: when it returns
    [true], the last response it fetched was [ok] and had [approved] set to
    [true] in its body.  Every other end, errors included, is a no. *)
Theorem webhookApproval_grants_on_yes (rounds : nat)
    (payment : PaymentRequest) (policyResult : PolicyResult) (url : string)
    (timeoutMs : option JS.number) (w : Webhook.World) :
  let run :=
    Webhook.webhookApproval Date_now network rounds payment policyResult
      url timeoutMs w in
  fst run = Returned (Some true) ->
  exists n,
    List.length (Webhook.fetches (snd run)) = S n
    /\ List.length (Webhook.fetches w) <= n
    /\ Webhook.decision (network n) = Some true.
Proof.
  cbv zeta.
  destruct (Webhook.webhookApproval Date_now network rounds payment
              policyResult url timeoutMs w) as [r w'] eqn:Hrun.
  exact (proj2 (webhookApproval_sound _ _ _ _ _ _ _ _ Hrun)).
Qed.

End WebhookFacts.

(* ================================================================== *)
(** * The Telegram handler *)
(* ================================================================== *)

Ltac telegram_step :=
  cbn [fst snd Telegram.readings Telegram.calls Telegram.update_id
       Telegram.callback_query Telegram.id Telegram.data
       Telegram.message_id Telegram.updates] in *.

Lemma prefix_approve (x : string) :
  String.prefix "approve_" ("approve_" ++ x) = true.
Proof.
  cbn [String.append String.prefix].
  repeat match goal with
         | |- context [ascii_dec ?a ?a] =>
             destruct (ascii_dec a a); [|congruence]
         end.
  destruct x; reflexivity.
Qed.

Section TelegramFacts.
Context {NT : NumberText}.
Variable Date_now : nat -> JS.number.
Variable random_text : string.
Variable Math_ceil : JS.number -> JS.number.
Variable Bot : string -> Outcome unit.
Variable api : nat -> Outcome Telegram.Reply.

(** The loop over the updates of one reply: a yes comes from an update that
    pressed the approve button of this request, and calls are only added. *)
Lemma forUpdates_sound (approvalId chatId : string) (messageId : JS.number)
    (updates : list Telegram.Update) :
  forall (offset : JS.number) (w w' : Telegram.World)
         (r : Outcome (option bool * JS.number)),
    Telegram.forUpdates api approvalId chatId messageId updates offset w
    = (r, w') ->
    List.length (Telegram.calls w) <= List.length (Telegram.calls w')
    /\ (forall offset',
          r = Returned (Some true, offset') ->
          exists u, In u updates
                    /\ Telegram.pressed u = Some ("approve_" ++ approvalId)).
Proof.
  induction updates as [|u rest IH]; intros offset w w' r.
  - cbn. intros [= <- <-]. split; [lia|discriminate].
  - cbn [Telegram.forUpdates].
    assert (Hrest :
              forall off,
                Telegram.forUpdates api approvalId chatId messageId rest off w
                = (r, w') ->
                List.length (Telegram.calls w)
                <= List.length (Telegram.calls w')
                /\ (forall offset',
                      r = Returned (Some true, offset') ->
                      exists u0, In u0 (u :: rest)
                                 /\ Telegram.pressed u0
                                    = Some ("approve_" ++ approvalId))).
    { intros off Hrun. destruct (IH _ _ _ _ Hrun) as [Hle Hyes].
      split; [exact Hle|]. intros offset' Hr.
      destruct (Hyes _ Hr) as (u0 & Hin & Hu0).
      exists u0. split; [right; exact Hin|exact Hu0]. }
    destruct (Telegram.callback_query u) as [cb|] eqn:Hcb; [|apply Hrest].
    destruct (Telegram.data cb) as [[|c d]|] eqn:Hdata;
      [apply Hrest| |apply Hrest].
    destruct (String.eqb (String c d) ("approve_" ++ approvalId)) eqn:Hyes.
    + cbn [orb]. apply String.eqb_eq in Hyes.
      destruct w as [n made].
      unfold Eff.bind, Telegram.call, Eff.ret. telegram_step.
      destruct (api (List.length made)); telegram_step.
      * rewrite length_app. cbn [List.length].
        destruct (api (List.length made + 1)); telegram_step;
          intros [= <- <-]; telegram_step; rewrite ?length_app;
          cbn [List.length]; (split; [lia|]).
        -- intros offset' _. exists u. split; [left; reflexivity|].
           unfold Telegram.pressed. rewrite Hcb, Hdata, Hyes. reflexivity.
        -- discriminate.
      * intros [= <- <-]. telegram_step. rewrite length_app.
        split; [lia|discriminate].
    + cbn [orb].
      destruct (String.eqb (String c d) ("deny_" ++ approvalId)) eqn:Hno;
        [|apply Hrest].
      apply String.eqb_eq in Hno. rewrite Hno.
      change (String.prefix "approve_" ("deny_" ++ approvalId)) with false.
      destruct w as [n made].
      unfold Eff.bind, Telegram.call, Eff.ret. telegram_step.
      destruct (api (List.length made)); telegram_step.
      * rewrite length_app. cbn [List.length].
        destruct (api (List.length made + 1)); telegram_step;
          intros [= <- <-]; telegram_step; rewrite ?length_app;
          cbn [List.length]; (split; [lia|]); discriminate.
      * intros [= <- <-]. telegram_step. rewrite length_app.
        split; [lia|discriminate].
Qed.

Lemma telegram_polling_sound (approvalId chatId : string)
    (messageId deadline : JS.number) (rounds : nat) :
  forall (offset : JS.number) (w w' : Telegram.World)
         (r : Outcome (option bool)),
    Telegram.polling Date_now Math_ceil api rounds approvalId chatId
      messageId deadline offset w = (r, w') ->
    List.length (Telegram.calls w) <= List.length (Telegram.calls w')
    /\ (r = Returned (Some true) ->
        exists n reply u,
          List.length (Telegram.calls w) <= n
          /\ n < List.length (Telegram.calls w')
          /\ api n = Returned reply
          /\ In u (Telegram.updates reply)
          /\ Telegram.pressed u = Some ("approve_" ++ approvalId)).
Proof.
  assert (Hout :
            forall (w w' : Telegram.World) (r : Outcome (option bool)),
              Telegram.timedOut api chatId messageId w = (r, w') ->
              List.length (Telegram.calls w)
              <= List.length (Telegram.calls w')
              /\ r <> Returned (Some true)).
  { intros [n made] w' r.
    unfold Telegram.timedOut, Eff.bind, Telegram.call, Eff.ret.
    telegram_step.
    destruct (api (List.length made)); intros [= <- <-]; telegram_step;
      rewrite length_app; (split; [lia|discriminate]). }
  induction rounds as [|rounds IH]; intros offset w w' r.
  - cbn. intros [= <- <-]. split; [lia|discriminate].
  - destruct w as [n made].
    cbn [Telegram.polling].
    unfold Eff.bind at 1. unfold Telegram.now at 1. telegram_step.
    destruct (PrimFloat.ltb _ _).
    + unfold Eff.bind at 1. unfold Telegram.now at 1. telegram_step.
      destruct (PrimFloat.leb _ _).
      * intros Hrun. destruct (Hout _ _ _ Hrun) as [Hle Hno].
        telegram_step. split; [exact Hle|]. intros Hr. contradiction.
      * unfold Eff.bind at 1. unfold Telegram.call at 1. telegram_step.
        destruct (api (List.length made)) as [reply|e] eqn:Hreply.
        -- unfold Eff.bind at 1.
           match goal with
           | |- context [Telegram.forUpdates _ ?a ?c ?m ?us ?off ?w1] =>
               destruct (Telegram.forUpdates api a c m us off w1)
                 as [[[[[|]|] off']|e] w2] eqn:Hfor;
               destruct (forUpdates_sound _ _ _ _ _ _ _ _ Hfor)
                 as [Hle Hyes]
           end; telegram_step; rewrite length_app in Hle;
             cbn [List.length] in Hle.
           ++ unfold Eff.ret. intros [= <- <-]. split; [lia|]. intros _.
              destruct (Hyes _ eq_refl) as (u & Hin & Hu).
              exists (List.length made), reply, u.
              split; [lia|]. split; [lia|]. auto.
           ++ unfold Eff.ret. intros [= <- <-]. split; [lia|discriminate].
           ++ intros Hrun. destruct (IH _ _ _ _ Hrun) as [Hle' Hyes'].
              split; [lia|]. intros Hr.
              destruct (Hyes' Hr) as (m & reply' & u & H1 & H2 & H3 & H4).
              exists m, reply', u.
              split; [lia|]. split; [lia|]. auto.
           ++ intros [= <- <-]. split; [lia|discriminate].
        -- intros [= <- <-]. telegram_step. rewrite length_app.
           split; [lia|discriminate].
    + intros Hrun. destruct (Hout _ _ _ Hrun) as [Hle Hno].
      telegram_step. split; [exact Hle|]. intros Hr. contradiction.
Qed.

Lemma telegramApproval_sound (rounds : nat)
    (payment : PaymentRequest) (policyResult : PolicyResult)
    (botToken chatId : string) (timeoutMs : option JS.number)
    (w w' : Telegram.World) (r : Outcome (option bool)) :
  Telegram.telegramApproval Date_now random_text Math_ceil Bot api rounds
    payment policyResult botToken chatId timeoutMs w = (r, w') ->
  r = Returned (Some true) ->
  exists n reply u,
    List.length (Telegram.calls w) < n
    /\ n < List.length (Telegram.calls w')
    /\ api n = Returned reply
    /\ In u (Telegram.updates reply)
    /\ Telegram.pressed u
       = Some ("approve_"
               ++ Number_toString (Date_now (Telegram.readings w))
               ++ "_" ++ random_text).
Proof.
  destruct w as [n made].
  unfold Telegram.telegramApproval.
  unfold Eff.bind at 1.
  destruct (Bot botToken); [|intros [= <- <-]; discriminate].
  unfold Eff.bind at 1. unfold Telegram.now at 1. telegram_step.
  unfold Eff.bind at 1. unfold Telegram.call at 1. telegram_step.
  destruct (api (List.length made)) as [sent|e];
    [|intros [= <- <-]; discriminate].
  unfold Telegram.finally_ended, Telegram.pollCallbackQuery.
  unfold Eff.bind at 1. unfold Telegram.now at 1. telegram_step.
  match goal with
  | |- context [Telegram.polling _ _ _ ?k ?a ?c ?m ?d ?off ?w1] =>
      destruct (Telegram.polling Date_now Math_ceil api k a c m d off w1)
        as [[[[|]|]|e] w2] eqn:Hrun;
      destruct (telegram_polling_sound _ _ _ _ _ _ _ _ _ Hrun) as [Hle Hyes]
  end; telegram_step; intros [= <- <-]; try discriminate.
  intros _. destruct (Hyes eq_refl) as (m & reply & u & H1 & H2 & H3 & H4).
  rewrite length_app in H1. cbn [List.length] in H1.
  exists m, reply, u.
  split; [lia|]. split; [|auto].
  destruct w2 as [n2 made2].
  unfold Eff.catch, Eff.bind, Telegram.call, Eff.ret. telegram_step.
  destruct (api (List.length made2)); telegram_step;
    rewrite length_app; lia.
Qed.

(** The Telegram handler says yes only when the approve button of this very
    request was pressed: when it returns [true], a reply of the Bot API
    received during the call carried an update whose callback data is
    [approve_] followed by the identifier made for the request, that is the
    first reading of the clock, an underscore and the random text.  Updates
    without data and the buttons of other requests decide nothing. *)
Theorem telegramApproval_grants_own_button (rounds : nat)
    (payment : PaymentRequest) (policyResult : PolicyResult)
    (botToken chatId : string) (timeoutMs : option JS.number)
    (w : Telegram.World) :
  let run :=
    Telegram.telegramApproval Date_now random_text Math_ceil Bot api rounds
      payment policyResult botToken chatId timeoutMs w in
  let approvalId :=
    Number_toString (Date_now (Telegram.readings w)) ++ "_" ++ random_text in
  fst run = Returned (Some true) ->
  exists n reply u,
    List.length (Telegram.calls w) < n
    /\ n < List.length (Telegram.calls (snd run))
    /\ api n = Returned reply
    /\ In u (Telegram.updates reply)
    /\ Telegram.pressed u = Some ("approve_" ++ approvalId).
Proof.
  cbv zeta.
  destruct (Telegram.telegramApproval Date_now random_text Math_ceil Bot api
              rounds payment policyResult botToken chatId timeoutMs w)
    as [r w'] eqn:Hrun.
  exact (telegramApproval_sound _ _ _ _ _ _ _ _ _ Hrun).
Qed.

Lemma forUpdates_foreign (approvalId chatId : string) (messageId : JS.number)
    (updates : list Telegram.Update) :
  forall (offset : JS.number) (w : Telegram.World),
    forallb (Telegram.foreign approvalId) updates = true ->
    Telegram.forUpdates api approvalId chatId messageId updates offset w
    = (Returned (None, Telegram.offset_after updates offset), w).
Proof.
  induction updates as [|u rest IH]; intros offset w Hall.
  - reflexivity.
  - cbn [forallb] in Hall. apply andb_prop in Hall as [Hu Hrest].
    cbn [Telegram.forUpdates Telegram.offset_after fold_left].
    unfold Telegram.foreign, Telegram.pressed in Hu.
    destruct (Telegram.callback_query u) as [cb|]; [|apply IH, Hrest].
    destruct (Telegram.data cb) as [[|c d]|];
      [apply IH, Hrest| |apply IH, Hrest].
    apply negb_true_iff in Hu. rewrite Hu. apply IH, Hrest.
Qed.

Lemma polling_open (approvalId chatId : string)
    (messageId deadline : JS.number) (k : nat) :
  forall (rounds : nat) (offset : JS.number) (w : Telegram.World),
    (forall j, j < k ->
       Telegram.open_turn Date_now Math_ceil api approvalId deadline
         (Telegram.readings w + 2 * j)
         (List.length (Telegram.calls w) + j)) ->
    exists offset',
      Telegram.polling Date_now Math_ceil api (k + rounds) approvalId
        chatId messageId deadline offset w
      = Telegram.polling Date_now Math_ceil api rounds approvalId
          chatId messageId deadline offset'
          {| Telegram.readings := Telegram.readings w + 2 * k;
             Telegram.calls :=
               app (Telegram.calls w)
                 (Telegram.asked Date_now Math_ceil api deadline k
                    (Telegram.readings w)
                    (List.length (Telegram.calls w)) offset) |}.
Proof.
  induction k as [|k IH]; intros rounds offset [n made] Hturns.
  - exists offset. telegram_step. cbn [Telegram.asked].
    rewrite app_nil_r, Nat.add_0_r. reflexivity.
  - destruct (Hturns 0 (Nat.lt_0_succ k))
      as (Hclock & Hleft & reply & Hreply & Hforeign).
    telegram_step. rewrite Nat.mul_0_r, !Nat.add_0_r in *.
    cbn [Nat.add Telegram.polling Telegram.asked].
    unfold Eff.bind at 1. unfold Telegram.now at 1. telegram_step.
    rewrite Hclock.
    unfold Eff.bind at 1. unfold Telegram.now at 1. telegram_step.
    rewrite Hleft.
    unfold Eff.bind at 1. unfold Telegram.call at 1. telegram_step.
    rewrite Hreply.
    unfold Eff.bind at 1. rewrite forUpdates_foreign by exact Hforeign.
    match goal with
    | |- context [Telegram.polling _ _ _ _ _ _ _ _ ?off ?w1] =>
        destruct (IH rounds off w1) as (offset' & Hrun)
    end.
    + intros j Hj. telegram_step. rewrite length_app. cbn [List.length].
      replace (S (S n) + 2 * j) with (n + 2 * S j) by lia.
      replace (List.length made + 1 + j) with (List.length made + S j)
        by lia.
      apply Hturns. lia.
    + telegram_step. exists offset'. rewrite Hrun.
      rewrite length_app, Nat.add_1_r. cbn [List.length].
      rewrite <- app_assoc. cbn [app].
      replace (S (S n) + 2 * k) with (n + 2 * S k) by lia. reflexivity.
Qed.

(** The Telegram handler ends when the clock reaches the deadline.  After
    the message is sent, while the turns leave the question open it asks
    for updates, once per turn and nothing else; at the first reading of
    the clock that is not before the deadline it edits the message to say
    that the approval timed out, answers no, and calls [deleteWebhook]
    last. *)
Theorem telegramApproval_times_out (k rounds : nat)
    (payment : PaymentRequest) (policyResult : PolicyResult)
    (botToken chatId : string) (timeoutMs : JS.number)
    (w : Telegram.World) (sent edited : Telegram.Reply) :
  let approvalId :=
    Number_toString (Date_now (Telegram.readings w)) ++ "_" ++ random_text in
  let deadline :=
    PrimFloat.add (Date_now (S (Telegram.readings w))) timeoutMs in
  let first := List.length (Telegram.calls w) in
  Bot botToken = Returned tt ->
  api first = Returned sent ->
  (forall j, j < k ->
     Telegram.open_turn Date_now Math_ceil api approvalId deadline
       (Telegram.readings w + 2 + 2 * j) (first + 1 + j)) ->
  PrimFloat.ltb (Date_now (Telegram.readings w + 2 + 2 * k)) deadline
  = false ->
  api (first + 1 + k) = Returned edited ->
  k < rounds ->
  Telegram.telegramApproval Date_now random_text Math_ceil Bot api rounds
    payment policyResult botToken chatId (Some timeoutMs) w
  = (Returned (Some false),
     {| Telegram.readings := Telegram.readings w + 2 + 2 * k + 1;
        Telegram.calls :=
          app (Telegram.calls w)
            (Telegram.sendMessage chatId
               (Telegram.message payment policyResult) "Markdown"
               [[ {| Telegram.text := "✅ Approve";
                     Telegram.callback_data := "approve_" ++ approvalId |};
                  {| Telegram.text := "❌ Deny";
                     Telegram.callback_data := "deny_" ++ approvalId |} ]]
             :: app (Telegram.asked Date_now Math_ceil api deadline k
                       (Telegram.readings w + 2) (first + 1) 0%float)
                  [Telegram.editMessageText chatId
                     (Telegram.message_id sent) Telegram.TIMED_OUT_TEXT;
                   Telegram.deleteWebhook]) |}).
Proof.
  destruct w as [n made].
  intros approvalId deadline first Hbot Hsent Hturns Hlate Hedited Hrounds.
  subst approvalId deadline first. telegram_step.
  unfold Telegram.telegramApproval.
  unfold Eff.bind at 1. rewrite Hbot.
  unfold Eff.bind at 1. unfold Telegram.now at 1. telegram_step.
  unfold Eff.bind at 1. unfold Telegram.call at 1. telegram_step.
  rewrite Hsent.
  unfold Telegram.finally_ended, Telegram.pollCallbackQuery.
  unfold Eff.bind at 1. unfold Telegram.now at 1. telegram_step.
  replace rounds with (k + S (rounds - S k)) by lia.
  match goal with
  | |- context [Telegram.polling _ _ _ ?r ?a ?c ?m ?d ?off ?w1] =>
      destruct (polling_open a c m d k (S (rounds - S k)) off w1)
        as (offset' & Hrun)
  end.
  - intros j Hj. telegram_step. rewrite length_app. cbn [List.length].
    replace (S (S n) + 2 * j) with (n + 2 + 2 * j) by lia.
    apply Hturns. exact Hj.
  - rewrite Hrun. telegram_step. cbn [Telegram.polling].
    unfold Eff.bind at 1. unfold Telegram.now at 1. telegram_step.
    replace (S (S n) + 2 * k) with (n + 2 + 2 * k) by lia.
    rewrite Hlate.
    unfold Telegram.timedOut.
    unfold Eff.bind at 1. unfold Telegram.call at 1. telegram_step.
    assert (Hasked : forall d r c o,
               List.length (Telegram.asked Date_now Math_ceil api d k r c o)
               = k).
    { clear. induction k as [|k' IH]; intros d r c o; cbn [Telegram.asked];
        [reflexivity|]. cbn [List.length]. rewrite IH. reflexivity. }
    rewrite !length_app, Hasked. cbn [List.length]. rewrite Hedited.
    unfold Eff.ret at 1.
    unfold Eff.catch, Eff.bind, Telegram.call, Eff.ret. telegram_step.
    replace (S (S n)) with (n + 2) by lia.
    replace (S (n + 2 + 2 * k)) with (n + 2 + 2 * k + 1) by lia.
    match goal with
    | |- context [api ?i] => destruct (api i)
    end; telegram_step; rewrite <- !app_assoc; reflexivity.
Qed.

End TelegramFacts.

(* ================================================================== *)
(** * Worked examples of the further facts *)
(* ================================================================== *)

Import Cases.

Lemma evaluate_not_denied_witness :
  action (PolicyEngine.evaluate PolicyEngine.DEFAULT_POLICY clock0 log_absent
            (pay 10 "store.com" "book")) <> deny
  /\ gt (amount (pay 10 "store.com" "book"))
        (blockAbove PolicyEngine.DEFAULT_POLICY) = false.
Proof.
  assert (H : action (PolicyEngine.evaluate PolicyEngine.DEFAULT_POLICY clock0
                        log_absent (pay 10 "store.com" "book")) <> deny)
    by (vm_compute; discriminate).
  split; [exact H|].
  exact (proj1 (evaluate_not_denied PolicyEngine.DEFAULT_POLICY clock0
                  log_absent (pay 10 "store.com" "book") H)).
Defined.

Lemma requestCard_logs_outcome_witness :
  ClawPay.vaultFile (world0 (Some payload0) log_absent) <> None
  /\ ClawPay.logFile
       (snd (ClawPay.requestCard decipher0 uuid0 handlers0 (clawpay true)
               (pay 10 "store.com" "book")
               (world0 (Some payload0) log_absent)))
     = log_entries
         [ {| id := "id";
              timestamp := 1000;
              payment := pay 10 "store.com" "book";
              policyResult :=
                PolicyEngine.evaluate PolicyEngine.DEFAULT_POLICY clock0
                  log_absent (pay 10 "store.com" "book");
              approved := true;
              approvedBy := by_auto |} ].
Proof.
  split; [discriminate|].
  exact (proj1 (requestCard_logs_outcome decipher0 uuid0 handlers0
                  (clawpay true) (pay 10 "store.com" "book")
                  (world0 (Some payload0) log_absent)
                  (snd (ClawPay.requestCard decipher0 uuid0 handlers0
                          (clawpay true) (pay 10 "store.com" "book")
                          (world0 (Some payload0) log_absent)))
                  (ClawPay.granted card0)
                  eq_refl ltac:(discriminate) eq_refl)).
Defined.

Lemma requestCard_throw_logs_nothing_witness :
  fst (ClawPay.requestCard refusing uuid0 handlers0 (clawpay true)
         (pay 10 "store.com" "book") (world0 (Some payload0) log_absent))
  = Thrown "Unsupported state or unable to authenticate data"
  /\ ClawPay.logFile
       (snd (ClawPay.requestCard refusing uuid0 handlers0 (clawpay true)
               (pay 10 "store.com" "book")
               (world0 (Some payload0) log_absent)))
     = log_absent.
Proof.
  split; [reflexivity|].
  exact (requestCard_throw_logs_nothing refusing uuid0 handlers0
           (clawpay true) (pay 10 "store.com" "book")
           (world0 (Some payload0) log_absent)
           "Unsupported state or unable to authenticate data" eq_refl).
Defined.

Lemma policy_denial_is_final_witness :
  action (PolicyEngine.evaluate PolicyEngine.DEFAULT_POLICY clock0 log_absent
            (pay 5000 "store.com" "book")) = deny
  /\ existsb Props.touches_secret_or_human
       (ClawPay.calls
          (snd (ClawPay.requestCard decipher0 uuid0 handlers0 (clawpay true)
                  (pay 5000 "store.com" "book")
                  (world0 (Some payload0) log_absent))))
     = false.
Proof.
  split; [reflexivity|].
  exact (proj1 (proj2 (policy_denial_is_final decipher0 uuid0 handlers0
                         (clawpay true) (pay 5000 "store.com" "book")
                         (world0 (Some payload0) log_absent)
                         ltac:(discriminate) eq_refl))).
Defined.

Lemma approval_failure_reveals_nothing_witness :
  action (PolicyEngine.evaluate PolicyEngine.DEFAULT_POLICY clock0 log_absent
            (pay 50 "store.com" "book")) = require_approval
  /\ ClawPay.logFile
       (snd (ClawPay.requestCard decipher0 uuid0 handlers0 by_whatsapp
               (pay 50 "store.com" "book")
               (world0 (Some payload0) log_absent)))
     = log_absent.
Proof.
  split; [reflexivity|].
  exact (proj1 (proj2 (approval_failure_reveals_nothing decipher0 uuid0
                         handlers0 by_whatsapp (pay 50 "store.com" "book")
                         (world0 (Some payload0) log_absent)
                         _ ltac:(discriminate) eq_refl eq_refl))).
Defined.

Lemma key_file_round_trip_witness :
  Vault.directory (keyed None) = true
  /\ fst (Vault.getKeyFromFile
            (snd (Vault.storeKeyInFile [Byte.x01; Byte.xab] (keyed None))))
     = Returned (Some [Byte.x01; Byte.xab]).
Proof.
  split; [reflexivity|].
  exact (proj2 (proj2 (key_file_round_trip (keyed None)
                         [Byte.x01; Byte.xab] eq_refl))).
Defined.

Lemma init_generates_key_witness :
  Vault.keyStorage (fresh Vault.keychain) <> Vault.env
  /\ fst (Vault.getKey (fresh Vault.keychain)) = Returned None
  /\ fst (Vault.init counting (fresh Vault.keychain)) = Returned tt.
Proof.
  split; [discriminate|]. split; [reflexivity|].
  exact (proj1 (init_generates_key counting (fresh Vault.keychain)
                  ltac:(discriminate) eq_refl)).
Defined.

Lemma init_keeps_key_witness :
  fst (Vault.getKey (keyed None)) = Returned (Some [Byte.x00; Byte.xff])
  /\ Vault.drawn (snd (Vault.init counting (keyed None))) = 0.
Proof.
  split; [reflexivity|].
  exact (proj1 (proj2 (proj2 (init_keeps_key counting (keyed None)
                                [Byte.x00; Byte.xff] eq_refl)))).
Defined.

Lemma init_idempotent_witness :
  Vault.keyStorage (fresh Vault.file) <> Vault.env
  /\ Vault.init counting (snd (Vault.init counting (fresh Vault.file)))
     = (Returned tt, snd (Vault.init counting (fresh Vault.file))).
Proof.
  split; [discriminate|].
  exact (init_idempotent counting (fresh Vault.file) ltac:(discriminate)).
Defined.

Lemma init_env_stores_nothing_witness :
  Vault.keyStorage (fresh Vault.env) = Vault.env
  /\ Vault.key_of_text (Vault.CLAWPAYER_KEY (fresh Vault.env)) = None
  /\ fst (Vault.getKey (snd (Vault.init counting (fresh Vault.env))))
     = Returned None.
Proof.
  split; [reflexivity|]. split; [reflexivity|].
  exact (proj1 (proj2 (init_env_stores_nothing counting card_text
                         payload_text plain_cipher (fresh Vault.env) card0
                         eq_refl eq_refl))).
Defined.

Lemma vault_needs_key_witness :
  fst (Vault.getKey (fresh Vault.file)) = Returned None
  /\ fst (Vault.storeCard counting card_text payload_text plain_cipher card0
            (fresh Vault.file))
     = Thrown Vault.NOT_INITIALIZED.
Proof.
  split; [reflexivity|].
  exact (proj1 (vault_needs_key counting card_text card_of_text payload_text
                  payload_of_text plain_cipher plain_decipher
                  (fresh Vault.file) card0 eq_refl)).
Defined.

Lemma deleteCard_erases_witness :
  Vault.directory (keyed (Some "0011")) = true
  /\ fst (Vault.hasCard (snd (Vault.deleteCard counting
                                (keyed (Some "0011")))))
     = Returned false.
Proof.
  split; [reflexivity|].
  exact (proj1 (proj2 (deleteCard_erases counting card_of_text
                         payload_of_text plain_decipher
                         (keyed (Some "0011")) eq_refl))).
Defined.

Lemma storeCard_getCard_witness :
  fst (Vault.getKey (keyed None)) = Returned (Some [Byte.x00; Byte.xff])
  /\ Vault.directory (keyed None) = true
  /\ fst (Vault.getCard card_of_text payload_of_text plain_decipher
            (snd (Vault.storeCard counting card_text payload_text
                    plain_cipher card0 (keyed None))))
     = Returned card0.
Proof.
  split; [reflexivity|]. split; [reflexivity|].
  exact (proj2 (proj2 (proj2
           (storeCard_getCard counting card_text card_of_text payload_text
              payload_of_text plain_cipher plain_decipher (keyed None) card0
              [Byte.x00; Byte.xff]
              (list_byte_of_string (card_text card0))
              (map counting (seq 0 Vault.IV_LENGTH))
              eq_refl eq_refl eq_refl eq_refl eq_refl eq_refl)))).
Defined.

Lemma poll_times_out_witness :
  PrimFloat.ltb (seconds 2) (PrimFloat.add (seconds 0) 1500%float) = false
  /\ Webhook.pollForApproval seconds undecided 5 "https://example.test/poll"
       1500%float None idle
     = (Returned (Some false),
        {| Webhook.readings := 3;
           Webhook.fetches := [Webhook.GET "https://example.test/poll"];
           Webhook.stderr := [Webhook.TIMED_OUT];
           Webhook.timers := [3000%float] |}).
Proof.
  split; [reflexivity|].
  apply (poll_times_out seconds undecided 1 5 "https://example.test/poll"
           1500%float idle).
  - intros j Hj. assert (j = 0) as -> by lia. split; reflexivity.
  - reflexivity.
  - lia.
Defined.

Lemma poll_first_decision_witness :
  Webhook.decision (slow_yes 2) = Some true
  /\ fst (Webhook.pollForApproval seconds slow_yes 5
            "https://example.test/poll" 5000%float None
            {| Webhook.readings := 0;
               Webhook.fetches := [Webhook.GET "https://example.test/"];
               Webhook.stderr := [];
               Webhook.timers := [] |})
     = Returned (Some true).
Proof.
  split; [reflexivity|].
  rewrite (poll_first_decision seconds slow_yes 1 5
             "https://example.test/poll" 5000%float true
             {| Webhook.readings := 0;
                Webhook.fetches := [Webhook.GET "https://example.test/"];
                Webhook.stderr := [];
                Webhook.timers := [] |}).
  - reflexivity.
  - intros j Hj. assert (j = 0) as -> by lia. split; reflexivity.
  - reflexivity.
  - reflexivity.
  - lia.
Defined.

Lemma webhookApproval_grants_on_yes_witness :
  fst (Webhook.webhookApproval seconds slow_yes 5 (pay 50 "store.com" "book")
         needs_human "https://example.test/" (Some 10000%float) idle)
  = Returned (Some true)
  /\ exists n, Webhook.decision (slow_yes n) = Some true.
Proof.
  assert (Hrun : fst (Webhook.webhookApproval seconds slow_yes 5
                        (pay 50 "store.com" "book") needs_human
                        "https://example.test/" (Some 10000%float) idle)
                 = Returned (Some true)) by reflexivity.
  split; [exact Hrun|].
  destruct (webhookApproval_grants_on_yes seconds slow_yes 5
              (pay 50 "store.com" "book") needs_human "https://example.test/"
              (Some 10000%float) idle Hrun) as (n & _ & _ & Hn).
  exists n. exact Hn.
Defined.

Lemma telegramApproval_grants_own_button_witness :
  fst (Telegram.telegramApproval seconds "abc123" whole any_token chat_yes 5
         (pay 50 "store.com" "book") needs_human "token" "chat"
         (Some 60000%float) quiet)
  = Returned (Some true)
  /\ exists n reply u,
       chat_yes n = Returned reply
       /\ In u (Telegram.updates reply)
       /\ Telegram.pressed u = Some "approve_0_abc123".
Proof.
  assert (Hrun : fst (Telegram.telegramApproval seconds "abc123" whole
                        any_token chat_yes 5 (pay 50 "store.com" "book")
                        needs_human "token" "chat" (Some 60000%float) quiet)
                 = Returned (Some true)) by reflexivity.
  split; [exact Hrun|].
  destruct (telegramApproval_grants_own_button seconds "abc123" whole
              any_token chat_yes 5 (pay 50 "store.com" "book") needs_human
              "token" "chat" (Some 60000%float) quiet Hrun)
    as (n & reply & u & _ & _ & Hn & Hin & Hu).
  exists n, reply, u. auto.
Defined.

Lemma telegramApproval_times_out_witness :
  any_token "token" = Returned tt
  /\ PrimFloat.ltb (seconds 4) (PrimFloat.add (seconds 1) 2500%float) = false
  /\ fst (Telegram.telegramApproval seconds "abc123" whole any_token
            chat_other 5 (pay 50 "store.com" "book") needs_human "token"
            "chat" (Some 2500%float) quiet)
     = Returned (Some false)
  /\ skipn 1
       (Telegram.calls
          (snd (Telegram.telegramApproval seconds "abc123" whole any_token
                  chat_other 5 (pay 50 "store.com" "book") needs_human
                  "token" "chat" (Some 2500%float) quiet)))
     = [Telegram.getUpdates 0%float 0.5%float ["callback_query"];
        Telegram.editMessageText "chat" 7%float Telegram.TIMED_OUT_TEXT;
        Telegram.deleteWebhook].
Proof.
  split; [reflexivity|]. split; [reflexivity|].
  rewrite (telegramApproval_times_out seconds "abc123" whole any_token
             chat_other 1 5 (pay 50 "store.com" "book") needs_human "token"
             "chat" 2500%float quiet
             {| Telegram.message_id := 7%float; Telegram.updates := [] |}
             {| Telegram.message_id := 7%float; Telegram.updates := [] |}).
  - split; reflexivity.
  - reflexivity.
  - reflexivity.
  - intros j Hj. assert (j = 0) as -> by lia.
    split; [reflexivity|]. split; [reflexivity|].
    eexists. split; reflexivity.
  - reflexivity.
  - reflexivity.
  - lia.
Defined.

Lemma init_overwrites_key_file_witness :
  Vault.keyFile read_only_keychain = Some "00ff"
  /\ Vault.keyFile (snd (Vault.init counting read_only_keychain))
     = Some (Hex.toString (map counting (seq 0 32))).
Proof.
  split; [reflexivity|].
  exact (proj1 (proj2 (proj2 (init_overwrites_key_file counting
                                read_only_keychain None "00ff"
                                eq_refl eq_refl eq_refl eq_refl eq_refl)))).
Defined.

